(** * The per-call audio bridge of the AI voice agent

    A shallow embedding of the relay between the telephony media socket
    (Twilio) and the conversational-AI socket (ElevenLabs).

    The repository holds two servers for the same job:
    - the stand-alone server (lines 384 to 1670 of [dist/index.js]): an
      [ElevenLabsClient] class written in place, and a [/call-stream]
      handler that queues caller audio until the agent is ready;
    - the compiled server (lines 1 to 383 of [dist/index.js]) which imports
      the client of [dist/services/elevenlabs.js] and tears sessions
      down through [cleanupConnection].

    Conventions of the model.
    - JavaScript objects that are shared by reference (sockets, clients)
      live in stores indexed by an identifier; closures hold identifiers.
    - A handler is a function from the world to the new world and the
      list of effects it performed, in order: calls made on a socket and
      [console.error]/[console.warn] lines.  [console.log] lines are
      informational and are left out.
    - [JSON.parse] belongs to the runtime: a raw frame enters a handler
      as the outcome of [JSON.parse] on it, see [Parsed].  The fields a
      handler reads have the types the TypeScript sources declare
      ([streamSid: string], [Map<string, ...>], base64 payloads); the
      [event_id] of a ping, which is only tested and echoed, is any
      JSON value.
    - [send] on a socket records the call; what the [ws] library then
      does with the frame is outside the repository. *)

From Stdlib Require Import ZArith String List.
From stdpp Require Import base option gmap strings list fin_maps.
Import ListNotations.
Local Open Scope string_scope.
Local Open Scope Z_scope.
Local Open Scope nat_scope.
Local Open Scope list_scope.

(** ** JavaScript values *)

(** A value decoded from JSON.  [undefined] is the [None] of an optional
    field. *)
#[local] Unset Elimination Schemes.
Inductive JSValue : Type :=
  | JNull
  | JBool (b : bool)
  | JNum (n : Z)
  | JStr (s : string)
  | JArr (items : list JSValue)
  | JObj (fields : list (string * JSValue)).
#[local] Set Elimination Schemes.

(** [if (s)] for a string. *)
Definition nonempty (s : string) : bool :=
  match s with
  | EmptyString => false
  | String _ _ => true
  end.

(** [if (v)] for a JSON value. *)
Definition truthy (v : JSValue) : bool :=
  match v with
  | JNull => false
  | JBool b => b
  | JNum n => negb (n =? 0)%Z
  | JStr s => nonempty s
  | JArr _ => true
  | JObj _ => true
  end.

(** [if (o)] for an optional string field. *)
Definition truthy_str (o : option string) : bool :=
  match o with
  | Some s => nonempty s
  | None => false
  end.

(** [o || d] for an optional string field. *)
Definition or_default (o : option string) (d : string) : string :=
  match o with
  | Some s => if nonempty s then s else d
  | None => d
  end.

(** The three outcomes of [JSON.parse(raw)] a handler can tell apart:
    a [SyntaxError], the value [null] (any property access on it throws
    a [TypeError]), or a value whose fields can be read. *)
Inductive Parsed (M : Type) : Type :=
  | SyntaxError
  | JsNull
  | Js (m : M).
Arguments SyntaxError {M}.
Arguments JsNull {M}.
Arguments Js {M} m.

(** ** Wire messages *)

(** Frames from the telephony side, as far as the handlers read them:
    [{event, start: {streamSid, callSid, customParameters: {prompt,
    first_message}}, media: {payload}}]. *)
Record CustomParameters : Type := mkCustomParameters {
  cp_prompt : option string;
  cp_first_message : option string
}.

Record StartInfo : Type := mkStartInfo {
  start_streamSid : option string;
  start_callSid : option string;
  start_customParameters : option CustomParameters
}.

Record MediaInfo : Type := mkMediaInfo {
  media_payload : option string
}.

Record TwilioMessage : Type := mkTwilioMessage {
  tw_event : option string;
  tw_start : option StartInfo;
  tw_media : option MediaInfo
}.

(** Frames from the agent side, discriminated by [type]. *)
Record AudioInfo : Type := mkAudioInfo {
  audio_chunk : option string
}.

Record AudioEvent : Type := mkAudioEvent {
  audio_base_64 : option string
}.

Record PingEvent : Type := mkPingEvent {
  ping_event_id : option JSValue
}.

Record AgentMessage : Type := mkAgentMessage {
  ag_type : option string;
  ag_audio : option AudioInfo;
  ag_audio_event : option AudioEvent;
  ag_ping_event : option PingEvent
}.

(** ** Sockets, outbound frames, effects *)

Definition SockId := nat.
Definition ClientId := nat.

(** [WebSocket.readyState]. *)
Inductive ReadyState : Type := CONNECTING | OPEN | CLOSING | CLOSED.

Definition is_open (r : option ReadyState) : bool :=
  match r with
  | Some OPEN => true
  | _ => false
  end.

Definition is_connecting (r : option ReadyState) : bool :=
  match r with
  | Some CONNECTING => true
  | _ => false
  end.

Definition is_closed (r : option ReadyState) : bool :=
  match r with
  | Some CLOSED => true
  | _ => false
  end.

(** The objects handed to [JSON.stringify] and then to [send]. *)
Inductive Frame : Type :=
  (* {type: "conversation_initiation_client_data", ...prompt, first_message} *)
  | InitiationData (prompt firstMessage : string)
  (* {user_audio_chunk: payload} *)
  | UserAudioChunk (payload : string)
  (* {type: "pong", event_id} *)
  | Pong (event_id : JSValue)
  (* {event: "media", streamSid, media: {payload}} *)
  | Media (streamSid payload : string)
  (* {event: "clear", streamSid} *)
  | Clear (streamSid : string)
  (* {streamSid, event: "mark", mark: {name}} *)
  | Mark (streamSid name : string)
  (* {text, system_prompt, send_audio, audio_format: "mulaw", sample_rate: 8000} *)
  | LegacyConfig (text system_prompt : string)
  (* {audio: payload} *)
  | LegacyAudio (payload : string).

Inductive Effect : Type :=
  | Send (sock : SockId) (frame : Frame)
  | Close (sock : SockId)
  | CloseWith (sock : SockId) (code : Z) (reason : string)
  | Terminate (sock : SockId)
  | ConsoleError (msg : string)
  | ConsoleWarn (msg : string)
  | Uncaught (msg : string).

(** ** The stores *)

(** The fields of an [ElevenLabsClient]; both client classes have the
    same ones. *)
Record Client : Type := mkClient {
  streamSid : string;
  twilioSocket : SockId;
  prompt : string;
  firstMessage : string;
  ws : option SockId;
  isConnected : bool
}.

(** The [let streamSid = null; let callSid = null] of one [/call-stream]
    connection; its handlers and the promise callbacks created in them
    read the current values. *)
Record Closure : Type := mkClosure {
  cl_streamSid : option string;
  cl_callSid : option string
}.

Inductive PromiseState : Type := Pending | Fulfilled | Rejected.

(** One running [startConversation()] of the stand-alone server: the
    connection whose handler made the call, the socket it created once
    the signed URL arrived, whether its ten-second timer is armed, and
    the state of the promise it returned. *)
Record StartCall : Type := mkStartCall {
  call_closure : SockId;
  call_ws : option SockId;
  call_timer : bool;
  call_promise : PromiseState
}.

(** The process: [activeConnections] with entries of type [E], the
    client and socket objects, the closures of the open [/call-stream]
    connections, the running [startConversation] calls, the next fresh
    object identifier, and whether an exception escaped every handler. *)
Record World (E : Type) : Type := mkWorld {
  activeConnections : gmap string E;
  clients : gmap nat Client;
  readyState : gmap nat ReadyState;
  closures : gmap nat Closure;
  calls : gmap nat StartCall;
  nextId : nat;
  crashed : bool
}.
Arguments mkWorld {E}.
Arguments activeConnections {E}.
Arguments clients {E}.
Arguments readyState {E}.
Arguments closures {E}.
Arguments calls {E}.
Arguments nextId {E}.
Arguments crashed {E}.

Definition initial {E : Type} : World E :=
  mkWorld ∅ ∅ ∅ ∅ ∅ 0 false.

Section Stores.
Context {E : Type}.
Implicit Type w : World E.

Definition set_activeConnections (f : gmap string E -> gmap string E) w : World E :=
  mkWorld (f (activeConnections w)) (clients w) (readyState w) (closures w)
          (calls w) (nextId w) (crashed w).

Definition set_clients (f : gmap nat Client -> gmap nat Client) w : World E :=
  mkWorld (activeConnections w) (f (clients w)) (readyState w) (closures w)
          (calls w) (nextId w) (crashed w).

Definition set_readyState (f : gmap nat ReadyState -> gmap nat ReadyState) w : World E :=
  mkWorld (activeConnections w) (clients w) (f (readyState w)) (closures w)
          (calls w) (nextId w) (crashed w).

Definition set_closures (f : gmap nat Closure -> gmap nat Closure) w : World E :=
  mkWorld (activeConnections w) (clients w) (readyState w) (f (closures w))
          (calls w) (nextId w) (crashed w).

Definition set_calls (f : gmap nat StartCall -> gmap nat StartCall) w : World E :=
  mkWorld (activeConnections w) (clients w) (readyState w) (closures w)
          (f (calls w)) (nextId w) (crashed w).

Definition set_nextId (n : nat) w : World E :=
  mkWorld (activeConnections w) (clients w) (readyState w) (closures w)
          (calls w) n (crashed w).

Definition set_crashed (b : bool) w : World E :=
  mkWorld (activeConnections w) (clients w) (readyState w) (closures w)
          (calls w) (nextId w) b.

(** A handler body: the new world and the effects, in order. *)
Definition Act : Type := World E -> World E * list Effect.

Definition skip : Act := fun w => (w, []).
Definition emit (e : Effect) : Act := fun w => (w, [e]).
Definition update (f : World E -> World E) : Act := fun w => (f w, []).

Definition andThen (a b : Act) : Act :=
  fun w =>
    let '(w1, o1) := a w in
    let '(w2, o2) := b w1 in
    (w2, o1 ++ o2).

(** [items.forEach(f)]. *)
Fixpoint forEach {A : Type} (f : A -> Act) (items : list A) : Act :=
  match items with
  | [] => skip
  | x :: rest => andThen (f x) (forEach f rest)
  end.

(** [n] invocations of the same action, one after the other. *)
Fixpoint again (n : nat) (a : Act) : Act :=
  match n with
  | O => skip
  | S k => andThen a (again k a)
  end.

(** An invariant of the world that an action keeps. *)
Definition preserves (P : World E → Prop) (a : Act) : Prop :=
  ∀ w, P w → P (fst (a w)).

(** The [ws] library: [socket.close()] starts the closing handshake. *)
Definition ws_close (a : SockId) : Act :=
  andThen (update (set_readyState (<[a := CLOSING]>))) (emit (Close a)).

Definition ws_close_with (a : SockId) (code : Z) (reason : string) : Act :=
  andThen (update (set_readyState (<[a := CLOSING]>))) (emit (CloseWith a code reason)).

Definition ws_terminate (a : SockId) : Act :=
  andThen (update (set_readyState (<[a := CLOSING]>))) (emit (Terminate a)).

Definition ws_send (a : SockId) (f : Frame) : Act := emit (Send a f).

Definition write_client (c : ClientId) (cl : Client) : Act :=
  update (set_clients (<[c := cl]>)).
End Stores.

Notation "a >> b" := (andThen a b) (at level 61, left associativity).

Definition client_with_ws (o : option SockId) (cl : Client) : Client :=
  mkClient (streamSid cl) (twilioSocket cl) (prompt cl) (firstMessage cl) o (isConnected cl).

Definition client_with_isConnected (b : bool) (cl : Client) : Client :=
  mkClient (streamSid cl) (twilioSocket cl) (prompt cl) (firstMessage cl) (ws cl) b.

Definition call_with_ws (o : option SockId) (k : StartCall) : StartCall :=
  mkStartCall (call_closure k) o (call_timer k) (call_promise k).

Definition call_with_timer (b : bool) (k : StartCall) : StartCall :=
  mkStartCall (call_closure k) (call_ws k) b (call_promise k).

Definition call_with_promise (p : PromiseState) (k : StartCall) : StartCall :=
  mkStartCall (call_closure k) (call_ws k) (call_timer k) p.

(** [message.event === name] and [message.type === name]. *)
Definition event_is (m : TwilioMessage) (name : string) : bool :=
  match tw_event m with
  | Some e => String.eqb e name
  | None => false
  end.

Definition type_is (m : AgentMessage) (name : string) : bool :=
  match ag_type m with
  | Some t => String.eqb t name
  | None => false
  end.

(** ** The stand-alone server ([dist/index.js], lines 384 to 1670) *)

Module Standalone.

(** The object stored in [activeConnections] by the [start] branch. *)
Record Connection : Type := mkConnection {
  conn_twilioSocket : SockId;
  elevenLabsClient : ClientId;
  isReady : bool;
  audioQueue : list string;
  startTime : Z
}.

Definition conn_with_isReady (b : bool) (e : Connection) : Connection :=
  mkConnection (conn_twilioSocket e) (elevenLabsClient e) b (audioQueue e) (startTime e).

Definition conn_with_audioQueue (q : list string) (e : Connection) : Connection :=
  mkConnection (conn_twilioSocket e) (elevenLabsClient e) (isReady e) q (startTime e).

Definition default_prompt : string := "You are a friendly AI assistant.".
Definition default_firstMessage : string := "Hello, this is an AI assistant calling you.".

(** *** class ElevenLabsClient *)

(** [constructor(options)] (lines 394-407); [None] when it throws. *)
Definition ElevenLabsClient_new (sid : string) (sock : SockId)
    (p fm : string) : option Client :=
  if nonempty sid
  then Some (mkClient sid sock (or_default (Some p) default_prompt)
               (or_default (Some fm) default_firstMessage) None false)
  else None.

(** [async sendAudio(payload)] (lines 597-622); it has no [await], so
    it runs to its end inside the caller. *)
Definition sendAudio (c : ClientId) (payload : string) : @Act Connection :=
  fun w =>
    match clients w !! c with
    | None => (w, [])
    | Some cl =>
        match isConnected cl, ws cl with
        | true, Some a =>
            if is_open (readyState w !! a)
            then ws_send a (UserAudioChunk payload) w
            else (w, [ConsoleWarn "Cannot send audio: WebSocket not in OPEN state."])
        | _, _ => (w, [ConsoleWarn "Cannot send audio: WebSocket not connected"])
        end
    end.

(** [async endConversation()] (lines 624-644). *)
Definition endConversation (c : ClientId) : @Act Connection :=
  fun w =>
    match clients w !! c with
    | None => (w, [])
    | Some cl =>
        match ws cl with
        | None => (w, [])
        | Some a =>
            ((if is_open (readyState w !! a) then ws_close a else skip)
             >> write_client c (client_with_isConnected false (client_with_ws None cl))) w
        end
    end.

(** The first ['open'] listener of [startConversation] (lines 454-476).
    When [this.ws] is [null] by then, the property access throws
    outside any [try]. *)
Definition on_open (c : ClientId) : @Act Connection :=
  fun w =>
    match clients w !! c with
    | None => (w, [])
    | Some cl =>
        (write_client c (client_with_isConnected true cl)
         >> match ws cl with
            | Some a => ws_send a (InitiationData (prompt cl) (firstMessage cl))
            | None => update (set_crashed true)
                      >> emit (Uncaught "TypeError: Cannot read properties of null (reading 'send')")
            end) w
    end.

(** The ['message'] listener (lines 478-559): the
    [switch (message.type)] inside [try]/[catch]. *)
Definition on_message (c : ClientId) (p : Parsed AgentMessage) : @Act Connection :=
  fun w =>
    match clients w !! c with
    | None => (w, [])
    | Some cl =>
        match p with
        | SyntaxError => (w, [ConsoleError "[ElevenLabs] Error processing message:"])
        | JsNull => (w, [ConsoleError "[ElevenLabs] Error processing message:"])
        | Js m =>
            if type_is m "conversation_initiation_metadata" then (w, [])
            else if type_is m "audio" then
              if nonempty (streamSid cl) then
                let chunk := ag_audio m ≫= audio_chunk in
                let b64 := ag_audio_event m ≫= audio_base_64 in
                if truthy_str chunk
                then ws_send (twilioSocket cl) (Media (streamSid cl) (default EmptyString chunk)) w
                else if truthy_str b64
                then ws_send (twilioSocket cl) (Media (streamSid cl) (default EmptyString b64)) w
                else (w, [])
              else (w, [])
            else if type_is m "interruption" then
              if nonempty (streamSid cl)
              then ws_send (twilioSocket cl) (Clear (streamSid cl)) w
              else (w, [])
            else if type_is m "ping" then
              match ag_ping_event m ≫= ping_event_id with
              | Some eid =>
                  if truthy eid then
                    match ws cl with
                    | Some a => ws_send a (Pong eid) w
                    | None => (w, [ConsoleError "[ElevenLabs] Error processing message:"])
                    end
                  else (w, [])
              | None => (w, [])
              end
            else (w, [])
        end
    end.

(** The first ['error'] listener (lines 561-563). *)
Definition on_error (c : ClientId) : @Act Connection :=
  emit (ConsoleError "[ElevenLabs] WebSocket error:").

(** The ['close'] listener (lines 565-568). *)
Definition on_close (c : ClientId) : @Act Connection :=
  fun w =>
    match clients w !! c with
    | None => (w, [])
    | Some cl => write_client c (client_with_isConnected false cl) w
    end.

(** *** The [/call-stream] handler (lines 1481-1656) *)

(** [connection.audioQueue.push(payload)], then the size limit
    (lines 1595-1600). *)
Definition enqueue (payload : string) (q : list string) : list string :=
  let q1 := q ++ [payload] in
  if 50 <? length q1 then tail q1 else q1.

(** The [.then] callback of [startConversation()] (lines 1543-1563),
    made by the [start] branch of connection [s] for the client [c] it
    had just built. *)
Definition start_then (s : SockId) (c : ClientId) : @Act Connection :=
  fun w =>
    match closures w !! s ≫= cl_streamSid with
    | None => (w, [])
    | Some sid =>
        match activeConnections w !! sid with
        | None => (w, [])
        | Some e =>
            let ready := conn_with_isReady true e in
            if 0 <? length (audioQueue e)
            then (update (set_activeConnections (<[sid := conn_with_audioQueue [] ready]>))
                  >> forEach (sendAudio c) (audioQueue e)) w
            else update (set_activeConnections (<[sid := ready]>)) w
        end
    end.

(** The [.catch] callback of [startConversation()] (lines 1564-1573):
    it logs, and that is all. *)
Definition start_catch (s : SockId) (c : ClientId) : @Act Connection :=
  emit (ConsoleError "Error starting conversation:").

(** [getSignedUrl()] up to its first [await] (lines 410-419 and
    438-441), which [startConversation()] runs inside the handler that
    calls it.  [configured] says that [ELEVENLABS_API_KEY] and
    [ELEVENLABS_AGENT_ID] are both set: without them it throws before
    any [await] and its [catch] logs at once; the two [catch] that
    follow see the rejection only after the handler has returned. *)
Definition getSignedUrl_begin (configured : bool) : @Act Connection :=
  if configured then skip else emit (ConsoleError "Error getting signed URL:").

(** The [start] branch of the ['message'] listener (lines 1506-1577),
    given whether the environment is configured. *)
Definition handle_start (configured : bool) (s : SockId) (m : TwilioMessage) (now : Z)
    : @Act Connection :=
  fun w =>
    let sid := tw_start m ≫= start_streamSid in
    let callSid := tw_start m ≫= start_callSid in
    let w1 := set_closures (<[s := mkClosure sid callSid]>) w in
    if negb (truthy_str sid) || negb (truthy_str callSid)
    then (w1, [ConsoleError "Missing streamSid or callSid in start event"])
    else
      let parameters := tw_start m ≫= start_customParameters in
      let p := or_default (parameters ≫= cp_prompt) default_prompt in
      let fm := or_default (parameters ≫= cp_first_message) default_firstMessage in
      match ElevenLabsClient_new (default EmptyString sid) s p fm with
      | None => (w1, [ConsoleError "Error initializing ElevenLabs client:"])
      | Some cl =>
          let c := nextId w1 in
          (update (set_nextId (S c))
           >> write_client c cl
           >> update (set_activeConnections
                        (<[default EmptyString sid := mkConnection s c false [] now]>))
           >> update (set_calls (<[c := mkStartCall s None false Pending]>))
           >> getSignedUrl_begin configured) w1
      end.

(** The [media] branch (lines 1579-1611), entered with a truthy
    [streamSid]. *)
Definition handle_media (sid : string) (m : TwilioMessage) (now : Z) : @Act Connection :=
  fun w =>
    let payload := tw_media m ≫= media_payload in
    if truthy_str payload then
      match activeConnections w !! sid with
      | None => (w, [])
      | Some e =>
          if isReady e
          then sendAudio (elevenLabsClient e) (default EmptyString payload) w
          else
            let q := enqueue (default EmptyString payload) (audioQueue e) in
            (update (set_activeConnections (<[sid := conn_with_audioQueue q e]>))
             >> (if (10000 <? now - startTime e)%Z && (length q mod 10 =? 0)
                 then emit (ConsoleWarn "Still waiting for ElevenLabs connection")
                 else skip)) w
      end
    else (w, []).

(** The [stop] branch (lines 1613-1628) and the body of the ['close']
    listener (lines 1635-1650). *)
Definition teardown (sid : string) : @Act Connection :=
  fun w =>
    match activeConnections w !! sid with
    | None => (w, [])
    | Some e =>
        (endConversation (elevenLabsClient e)
         >> update (set_activeConnections (delete sid))) w
    end.

(** The ['message'] listener of connection [s], given whether the
    environment is configured. *)
Definition twilio_on_message (configured : bool) (s : SockId) (p : Parsed TwilioMessage)
    (now : Z) : @Act Connection :=
  fun w =>
    match closures w !! s with
    | None => (w, [])
    | Some k =>
        match p with
        | SyntaxError => (w, [ConsoleError "Error processing WebSocket message:"])
        | JsNull => (w, [ConsoleError "Error processing WebSocket message:"])
        | Js m =>
            if event_is m "start" then handle_start configured s m now w
            else if event_is m "media" && truthy_str (cl_streamSid k)
            then handle_media (default EmptyString (cl_streamSid k)) m now w
            else if event_is m "stop" && truthy_str (cl_streamSid k)
            then teardown (default EmptyString (cl_streamSid k)) w
            else (w, [])
        end
    end.

(** The ['close'] listener of connection [s]. *)
Definition twilio_on_close (s : SockId) : @Act Connection :=
  fun w =>
    match closures w !! s with
    | None => (w, [])
    | Some k =>
        if truthy_str (cl_streamSid k)
        then teardown (default EmptyString (cl_streamSid k)) w
        else (w, [])
    end.

(** The ['error'] listener of connection [s]. *)
Definition twilio_on_error (s : SockId) : @Act Connection :=
  emit (ConsoleError "WebSocket error:").

(** *** The promise returned by [startConversation()] (lines 444-595) *)

Definition clearTimeout (c : ClientId) : @Act Connection :=
  update (set_calls (alter (call_with_timer false) c)).

(** [resolve()]: the first settlement runs the [.then] callback. *)
Definition resolve (c : ClientId) : @Act Connection :=
  fun w =>
    match calls w !! c with
    | Some k =>
        match call_promise k with
        | Pending =>
            (update (set_calls (<[c := call_with_promise Fulfilled k]>))
             >> start_then (call_closure k) c) w
        | _ => (w, [])
        end
    | None => (w, [])
    end.

(** [reject(error)]: the first settlement runs the [.catch] callback. *)
Definition reject (c : ClientId) : @Act Connection :=
  fun w =>
    match calls w !! c with
    | Some k =>
        match call_promise k with
        | Pending =>
            (update (set_calls (<[c := call_with_promise Rejected k]>))
             >> start_catch (call_closure k) c) w
        | _ => (w, [])
        end
    | None => (w, [])
    end.

(** [startConversation()] after [await this.getSignedUrl()] returned:
    [this.ws = new WebSocket(signedUrl)], the listeners, the promise
    with its ten-second timer. *)
Definition startConversation_connect (c : ClientId) : @Act Connection :=
  fun w =>
    match clients w !! c with
    | None => (w, [])
    | Some cl =>
        let a := nextId w in
        (update (set_nextId (S a))
         >> update (set_readyState (<[a := CONNECTING]>))
         >> write_client c (client_with_ws (Some a) cl)
         >> update (set_calls
                      (alter (fun k => call_with_timer true (call_with_ws (Some a) k)) c))) w
    end.

(** [startConversation()] when [getSignedUrl()] threw: both [catch]
    blocks log and rethrow, the promise is rejected. *)
Definition startConversation_fail (c : ClientId) : @Act Connection :=
  emit (ConsoleError "Error getting signed URL:")
  >> emit (ConsoleError "Error starting conversation:")
  >> reject c.

(** The timer callback. *)
Definition on_timeout (c : ClientId) : @Act Connection :=
  fun w =>
    match clients w !! c with
    | None => (w, [])
    | Some cl => if isConnected cl then (w, []) else reject c w
    end.

(** *** The event loop *)

(** What the outside can make happen: a telephony connection is
    accepted, a frame or a close or an error arrives on it, the signed
    URL request of a client settles, the agent socket of a client
    opens, delivers a frame, errors or closes, the connect timer of a
    client fires. *)
Inductive Event : Type :=
  | TwilioConnect
  | TwilioFrame (s : SockId) (p : Parsed TwilioMessage) (now : Z)
  | TwilioClose (s : SockId)
  | TwilioError (s : SockId)
  | SignedUrl (c : ClientId) (ok : bool)
  | AgentOpen (c : ClientId)
  | AgentFrame (c : ClientId) (p : Parsed AgentMessage)
  | AgentError (c : ClientId)
  | AgentClose (c : ClientId)
  | ConnectTimeout (c : ClientId).

(** The agent socket on which the listeners of client [c] sit. *)
Definition agent_socket (w : World Connection) (c : ClientId) : option SockId :=
  calls w !! c ≫= call_ws.

(** The listeners run for one event, in a process whose environment
    is configured: there the signed URL is asked for over the network,
    and [SignedUrl c false] is that request failing.  An event that
    cannot happen in the current world (a frame on a socket that does
    not exist, a second ['open']) changes nothing. *)
Definition dispatch (ev : Event) : @Act Connection :=
  fun w =>
    match ev with
    | TwilioConnect =>
        let s := nextId w in
        (update (set_nextId (S s))
         >> update (set_readyState (<[s := OPEN]>))
         >> update (set_closures (<[s := mkClosure None None]>))) w
    | TwilioFrame s p now => twilio_on_message true s p now w
    | TwilioClose s =>
        if is_closed (readyState w !! s) then (w, [])
        else (update (set_readyState (<[s := CLOSED]>)) >> twilio_on_close s) w
    | TwilioError s =>
        match closures w !! s with
        | Some _ => twilio_on_error s w
        | None => (w, [])
        end
    | SignedUrl c ok =>
        match calls w !! c with
        | Some (mkStartCall _ None _ Pending) =>
            if ok then startConversation_connect c w else startConversation_fail c w
        | _ => (w, [])
        end
    | AgentOpen c =>
        match agent_socket w c with
        | Some a =>
            if is_connecting (readyState w !! a)
            then (update (set_readyState (<[a := OPEN]>))
                  >> on_open c
                  >> (fun w1 => if crashed w1 then (w1, [])
                                else (clearTimeout c >> resolve c) w1)) w
            else (w, [])
        | None => (w, [])
        end
    | AgentFrame c p =>
        match agent_socket w c with
        | Some a =>
            match readyState w !! a with
            | Some OPEN => on_message c p w
            | Some CLOSING => on_message c p w
            | _ => (w, [])
            end
        | None => (w, [])
        end
    | AgentError c =>
        match agent_socket w c with
        | Some a =>
            if is_closed (readyState w !! a) then (w, [])
            else (on_error c >> clearTimeout c >> reject c) w
        | None => (w, [])
        end
    | AgentClose c =>
        match agent_socket w c with
        | Some a =>
            if is_closed (readyState w !! a) then (w, [])
            else (update (set_readyState (<[a := CLOSED]>)) >> on_close c) w
        | None => (w, [])
        end
    | ConnectTimeout c =>
        match calls w !! c with
        | Some k =>
            if call_timer k then (clearTimeout c >> on_timeout c) w else (w, [])
        | None => (w, [])
        end
    end.

(** One turn of the event loop; after an uncaught exception the
    process is gone. *)
Definition step (ev : Event) : @Act Connection :=
  fun w => if crashed w then (w, []) else dispatch ev w.

Definition run (evs : list Event) : @Act Connection := forEach step evs.

(** Worlds the server can be in: the start, and what any event makes
    of such a world. *)
Inductive reachable : World Connection → Prop :=
  | reach_initial : reachable initial
  | reach_step ev w : reachable w → reachable (fst (step ev w)).

(** No queue is longer than the limit, and every client carries the
    truthy [streamSid] its constructor insisted on. *)
Record wf (w : World Connection) : Prop := mkWf {
  wf_queues : ∀ sid e, activeConnections w !! sid = Some e → length (audioQueue e) ≤ 50;
  wf_clients : ∀ c cl, clients w !! c = Some cl → nonempty (streamSid cl) = true
}.

End Standalone.

(** ** The client of [dist/services/elevenlabs.js]

    It is the build output of the TypeScript client of the sources. *)

Module Service.

(** A frame from the agent as this client reads it:
    [{type, text, audio}], the audio a base64 string. *)
Record Message : Type := mkMessage {
  msg_type : option string;
  msg_text : option string;
  msg_audio : option string
}.

Section Methods.
Context {E : Type}.

(** [async sendAudio(payload)]. *)
Definition sendAudio (c : ClientId) (payload : string) : @Act E :=
  fun w =>
    match clients w !! c with
    | None => (w, [])
    | Some cl =>
        match isConnected cl, ws cl with
        | true, Some a => ws_send a (LegacyAudio payload) w
        | _, _ => (w, [ConsoleWarn "Cannot send audio: WebSocket not connected"])
        end
    end.

(** The part of [endConversation] under [if (this.ws)]. *)
Definition close_agent (c : ClientId) (cl : Client) : @Act E :=
  fun w =>
    match ws cl with
    | Some a =>
        ((match readyState w !! a with
          | Some OPEN => ws_close_with a 1000 "Conversation ended by user or system"
          | Some CONNECTING => ws_terminate a
          | _ => skip
          end)
         >> write_client c (client_with_ws None cl)) w
    | None => (w, [])
    end.

(** The part of [endConversation] that signals completion to the
    telephony side. *)
Definition send_mark (cl : Client) : @Act E :=
  fun w =>
    if is_open (readyState w !! twilioSocket cl)
    then ws_send (twilioSocket cl) (Mark (streamSid cl) "conversation-complete") w
    else (w, []).

(** [async endConversation()]. *)
Definition endConversation (c : ClientId) : @Act E :=
  fun w =>
    match clients w !! c with
    | None => (w, [])
    | Some cl =>
        (close_agent c cl
         >> write_client c (client_with_isConnected false (client_with_ws None cl))
         >> send_mark cl) w
    end.
(** [connectionTimeout] of [startConversation]: after ten seconds
    without ['open'] the socket is terminated and forgotten. *)
Definition on_connectionTimeout (c : ClientId) : @Act E :=
  fun w =>
    match clients w !! c with
    | None => (w, [])
    | Some cl =>
        match isConnected cl, ws cl with
        | false, Some a =>
            (emit (ConsoleError "ElevenLabs WebSocket connection timed out after 10 seconds")
             >> ws_terminate a
             >> write_client c (client_with_ws None cl)) w
        | _, _ => (w, [])
        end
    end.
(** [async startConversation()] (lines 17-49), given the two
    environment variables it reads.  It has no [await] and catches what
    it throws: it runs to its end inside the caller and its promise
    always resolves. *)
Definition startConversation (apiKey agentId : option string) (c : ClientId) : @Act E :=
  fun w =>
    match clients w !! c with
    | None => (w, [])
    | Some cl =>
        if negb (truthy_str apiKey) || negb (truthy_str agentId)
        then (w, [ConsoleError "Error starting conversation:"])
        else
          let a := nextId w in
          (update (set_nextId (S a))
           >> update (set_readyState (<[a := CONNECTING]>))
           >> write_client c (client_with_ws (Some a) cl)) w
    end.

(** [handleOpen()] (lines 118-142). *)
Definition handleOpen (c : ClientId) : @Act E :=
  fun w =>
    match clients w !! c with
    | None => (w, [])
    | Some cl =>
        (write_client c (client_with_isConnected true cl)
         >> match ws cl with
            | Some a => ws_send a (LegacyConfig (firstMessage cl) (prompt cl))
            | None => emit (ConsoleError
                        "WebSocket not available when trying to send initial configuration")
            end) w
    end.

(** [handleMessage(data)] (lines 146-182). *)
Definition handleMessage (c : ClientId) (p : Parsed Message) : @Act E :=
  fun w =>
    match clients w !! c with
    | None => (w, [])
    | Some cl =>
        match p with
        | SyntaxError => (w, [ConsoleError "Error handling message from ElevenLabs:"])
        | JsNull => (w, [ConsoleError "Error handling message from ElevenLabs:"])
        | Js m =>
            ((match msg_type m with
              | Some t => if String.eqb t "error"
                          then emit (ConsoleError "ElevenLabs reported an error:")
                          else skip
              | None => skip
              end)
             >> (if truthy_str (msg_audio m)
                 then ws_send (twilioSocket cl)
                        (Media (streamSid cl) (default EmptyString (msg_audio m)))
                 else skip)) w
        end
    end.

(** [handleError(error)] (lines 186-188). *)
Definition handleError (c : ClientId) : @Act E :=
  emit (ConsoleError "ElevenLabs WebSocket error:").

(** [handleClose(code, reason)] (lines 192-195). *)
Definition handleClose (c : ClientId) : @Act E :=
  fun w =>
    match clients w !! c with
    | None => (w, [])
    | Some cl => write_client c (client_with_isConnected false cl) w
    end.
End Methods.
End Service.

(** ** The compiled server ([dist/index.js], lines 1 to 383) *)

Module Compiled.

(** The object stored in [activeConnections]. *)
Record Link : Type := mkLink {
  link_twilioSocket : SockId;
  link_elevenLabsClient : ClientId
}.

(** [function cleanupConnection(sid)] (lines 352-369). *)
Definition cleanupConnection (sid : string) : @Act Link :=
  fun w =>
    match activeConnections w !! sid with
    | None => (w, [])
    | Some connection =>
        (Service.endConversation (link_elevenLabsClient connection)
         >> update (set_activeConnections (delete sid))) w
    end.

(** The [stop] branch of the ['message'] listener: [streamSid] is
    truthy there. *)
Definition on_stop (sid : string) : @Act Link := cleanupConnection sid.

(** The ['close'] listener and the cleanup of the ['error'] listener
    and of the [.catch] callback of [startConversation()]:
    [if (streamSid && activeConnections.has(streamSid))]. *)
Definition cleanup_if_active (streamSid : option string) : @Act Link :=
  fun w =>
    if truthy_str streamSid then
      match activeConnections w !! default EmptyString streamSid with
      | Some _ => cleanupConnection (default EmptyString streamSid) w
      | None => (w, [])
      end
    else (w, []).

Definition on_close (streamSid : option string) : @Act Link :=
  cleanup_if_active streamSid.

Definition on_error (streamSid : option string) : @Act Link :=
  emit (ConsoleError "WebSocket error:") >> cleanup_if_active streamSid.

Definition start_catch (streamSid : option string) : @Act Link :=
  emit (ConsoleError "Error starting conversation:") >> cleanup_if_active streamSid.
(** [streamSid = message.start?.streamSid || null]. *)
Definition or_null (o : option string) : option string :=
  if truthy_str o then o else None.

(** The [start] branch of the ['message'] listener (lines 278-311),
    given the two environment variables [startConversation] reads.  The
    promise of [startConversation()] always resolves, so the [.catch]
    callback attached here never runs. *)
Definition handle_start (apiKey agentId : option string) (s : SockId)
    (m : TwilioMessage) : @Act Link :=
  fun w =>
    let sid := or_null (tw_start m ≫= start_streamSid) in
    let callSid := or_null (tw_start m ≫= start_callSid) in
    let w1 := set_closures (<[s := mkClosure sid callSid]>) w in
    if negb (truthy_str sid) || negb (truthy_str callSid)
    then (w1, [ConsoleError "Missing streamSid or callSid in start event"])
    else
      let parameters := tw_start m ≫= start_customParameters in
      let p := or_default (parameters ≫= cp_prompt) "You are a friendly AI assistant." in
      let fm := or_default (parameters ≫= cp_first_message)
                  "Hello, this is an AI assistant calling you." in
      let c := nextId w1 in
      (update (set_nextId (S c))
       >> write_client c (mkClient (default EmptyString sid) s p fm None false)
       >> update (set_activeConnections (<[default EmptyString sid := mkLink s c]>))
       >> Service.startConversation apiKey agentId c) w1.

(** The [media] branch (lines 312-322), entered with a truthy
    [streamSid]. *)
Definition handle_media (sid : string) (m : TwilioMessage) : @Act Link :=
  fun w =>
    let payload := tw_media m ≫= media_payload in
    if truthy_str payload then
      match activeConnections w !! sid with
      | Some connection =>
          Service.sendAudio (link_elevenLabsClient connection)
            (default EmptyString payload) w
      | None => (w, [])
      end
    else (w, []).

(** The ['message'] listener of connection [s] (lines 273-334). *)
Definition twilio_on_message (apiKey agentId : option string) (s : SockId)
    (p : Parsed TwilioMessage) : @Act Link :=
  fun w =>
    match closures w !! s with
    | None => (w, [])
    | Some k =>
        match p with
        | SyntaxError => (w, [ConsoleError "Error processing WebSocket message:"])
        | JsNull => (w, [ConsoleError "Error processing WebSocket message:"])
        | Js m =>
            if event_is m "start" then handle_start apiKey agentId s m w
            else if event_is m "media" && truthy_str (cl_streamSid k)
            then handle_media (default EmptyString (cl_streamSid k)) m w
            else if event_is m "stop" && truthy_str (cl_streamSid k)
            then on_stop (default EmptyString (cl_streamSid k)) w
            else (w, [])
        end
    end.
End Compiled.

(** ** The HTTP routes *)

Module Http.

(** [phoneNumber.startsWith('+') ? phoneNumber : `+${phoneNumber}`]
    ([dist/index.js], lines 235-237, 1401-1403, 1448-1450). *)
Definition formatNumber (phoneNumber : string) : string :=
  if String.prefix "+" phoneNumber then phoneNumber else "+" +:+ phoneNumber.

(** What is left of [s] after the literal [pat] at its start, if [s]
    starts with it. *)
Fixpoint strip_prefix (pat s : string) : option string :=
  match pat with
  | EmptyString => Some s
  | String x pat' =>
      match s with
      | EmptyString => None
      | String y s' => if Ascii.eqb x y then strip_prefix pat' s' else None
      end
  end.

(** [s.replace(/^pat/, rep)] for a literal [pat]. *)
Definition replace_prefix (pat rep s : string) : string :=
  match strip_prefix pat s with
  | Some rest => rep +:+ rest
  | None => s
  end.

(** The stream URL of [/call-twiml] in the stand-alone server (line
    1348): [baseUrl.replace(/^http/, 'ws').replace(/^https/, 'wss') +
    '/call-stream']. *)
Definition streamUrl (baseUrl : string) : string :=
  replace_prefix "https" "wss" (replace_prefix "http" "ws" baseUrl) +:+ "/call-stream".

(** [s.substring(start)] for an integer [start]: a negative [start]
    counts as 0. *)
Definition substring_from (start : Z) (s : string) : string :=
  String.substring (Z.to_nat start) (String.length s - Z.to_nat start) s.

(** The API key as the test page shows it (line 947):
    [apiKey ? '****' + apiKey.substring(apiKey.length - 6) : 'Not Set']. *)
Definition maskedKey (apiKey : option string) : string :=
  if truthy_str apiKey then
    let key := default EmptyString apiKey in
    "****" +:+ substring_from (Z.of_nat (String.length key) - 6) key
  else "Not Set".











End Http.

(** ** [utils/elevenlabs] of the TypeScript sources *)

Module Utils.

(** [safeJsonParse(text)]: the parsed value, or [null] after a
    [console.error] when [JSON.parse] throws. *)
Definition safeJsonParse {M : Type} (p : Parsed M) : option M * list Effect :=
  match p with
  | SyntaxError => (None, [ConsoleError "Error parsing JSON:"])
  | JsNull => (None, [])
  | Js m => (Some m, [])
  end.
End Utils.

(** ** The JavaScript server ([src/index.js], lines 1 to 372) *)

Module Plain.

(** [async endConversation()] of its client class (lines 103-113):
    [close()] whatever the state of the socket, and no word to the
    telephony side. *)
Definition endConversation (c : ClientId) : @Act Compiled.Link :=
  fun w =>
    match clients w !! c with
    | None => (w, [])
    | Some cl =>
        ((match ws cl with
          | Some a =>
              (if is_closed (readyState w !! a) then emit (Close a) else ws_close a)
              >> write_client c (client_with_ws None cl)
          | None => skip
          end)
         >> write_client c (client_with_isConnected false (client_with_ws None cl))) w
    end.

(** The ['open'] listener (lines 35-49): [this.ws.send] with no guard. *)
Definition on_open (c : ClientId) : @Act Compiled.Link :=
  fun w =>
    match clients w !! c with
    | None => (w, [])
    | Some cl =>
        (write_client c (client_with_isConnected true cl)
         >> match ws cl with
            | Some a => ws_send a (LegacyConfig (firstMessage cl) (prompt cl))
            | None =>
                emit (Uncaught "TypeError: Cannot read properties of null (reading 'send')")
                >> update (set_crashed true)
            end) w
    end.

(** The teardown of the [stop] branch (lines 324-336) and of the
    ['close'] listener (lines 342-354), entered with a truthy
    [streamSid]. *)
Definition teardown (sid : string) : @Act Compiled.Link :=
  fun w =>
    match activeConnections w !! sid with
    | Some connection =>
        (endConversation (Compiled.link_elevenLabsClient connection)
         >> update (set_activeConnections (delete sid))) w
    | None => (w, [])
    end.

(** The [start] branch (lines 276-310); [startConversation] has the
    statements of the service client's, without the timer. *)
Definition handle_start (apiKey agentId : option string) (s : SockId)
    (m : TwilioMessage) : @Act Compiled.Link :=
  fun w =>
    let sid := tw_start m ≫= start_streamSid in
    let callSid := tw_start m ≫= start_callSid in
    let w1 := set_closures (<[s := mkClosure sid callSid]>) w in
    if negb (truthy_str sid) || negb (truthy_str callSid)
    then (w1, [ConsoleError "Missing streamSid or callSid in start event"])
    else
      let parameters := tw_start m ≫= start_customParameters in
      let p := or_default (parameters ≫= cp_prompt) "You are a friendly AI assistant." in
      let fm := or_default (parameters ≫= cp_first_message)
                  "Hello, this is an AI assistant calling you." in
      let c := nextId w1 in
      (update (set_nextId (S c))
       >> write_client c (mkClient (default EmptyString sid) s p fm None false)
       >> update (set_activeConnections
                    (<[default EmptyString sid := Compiled.mkLink s c]>))
       >> Service.startConversation apiKey agentId c) w1.

(** The ['message'] listener of connection [s] (lines 269-340); the
    [media] branch has the statements of the compiled server's. *)
Definition twilio_on_message (apiKey agentId : option string) (s : SockId)
    (p : Parsed TwilioMessage) : @Act Compiled.Link :=
  fun w =>
    match closures w !! s with
    | None => (w, [])
    | Some k =>
        match p with
        | SyntaxError => (w, [ConsoleError "Error processing WebSocket message:"])
        | JsNull => (w, [ConsoleError "Error processing WebSocket message:"])
        | Js m =>
            if event_is m "start" then handle_start apiKey agentId s m w
            else if event_is m "media" && truthy_str (cl_streamSid k)
            then Compiled.handle_media (default EmptyString (cl_streamSid k)) m w
            else if event_is m "stop" && truthy_str (cl_streamSid k)
            then teardown (default EmptyString (cl_streamSid k)) w
            else (w, [])
        end
    end.

(** The ['close'] listener of connection [s] (lines 342-354). *)
Definition twilio_on_close (s : SockId) : @Act Compiled.Link :=
  fun w =>
    match closures w !! s with
    | None => (w, [])
    | Some k =>
        if truthy_str (cl_streamSid k)
        then teardown (default EmptyString (cl_streamSid k)) w
        else (w, [])
    end.
End Plain.

(** ** The TypeScript handler ([src/index.js], lines 373 to 769) *)

Module Typed.

(** [createSignedUrl()] (lines 380-392), given the two environment
    variables it reads: the URL, or [None] when it throws. *)
Definition createSignedUrl (apiKey agentId : option string) : option string :=
  if negb (truthy_str apiKey) || negb (truthy_str agentId) then None
  else Some ("wss://api.elevenlabs.io/v1/conversation-stream?xi-api-key="
             +:+ default EmptyString apiKey
             +:+ "&agent_id=" +:+ default EmptyString agentId).

(** The object stored in [activeConnections]: the two sockets. *)
Record Link : Type := mkLink {
  link_twilioWs : SockId;
  link_elevenLabsWs : SockId
}.

(** The [let] variables of one call of [handleMediaStream]; [None]
    stands for [null] and [undefined]. *)
Record Vars : Type := mkVars {
  v_elevenLabsWs : option SockId;
  v_streamSid : option string;
  v_customPrompt : option string;
  v_firstMessage : option string
}.

(** One call of [handleMediaStream] and the process around it: the
    telephony socket, the variables, the number of [start] branches
    that wait at their [await], the agent sockets that carry the
    listeners of this call, and the process. *)
Record Stream : Type := mkStream {
  twilioWs : SockId;
  vars : Vars;
  suspended : nat;
  listening : list SockId;
  world : World Link
}.

Definition Handler : Type := Stream → Stream * list Effect.

(** [handleMediaStream(connection)] (lines 586-593): the variables
    start as [null], no listener of an agent socket exists yet. *)
Definition handleMediaStream (s : SockId) (w : World Link) : Stream :=
  mkStream s (mkVars None None None None) 0 [] w.

Definition with_vars (v : Vars) (st : Stream) : Stream :=
  mkStream (twilioWs st) v (suspended st) (listening st) (world st).

Definition with_world (w : World Link) (st : Stream) : Stream :=
  mkStream (twilioWs st) (vars st) (suspended st) (listening st) w.

(** The [ws] library: [close()] on a socket that is not closed starts
    the closing handshake. *)
Definition closing (a : SockId) (w : World Link) : World Link :=
  if is_closed (readyState w !! a) then w else set_readyState (<[a := CLOSING]>) w.

(** [case 'start'] up to the [await] (lines 610-631). *)
Definition start_begin (m : TwilioMessage) : Handler :=
  fun st =>
    let v := vars st in
    let sid := tw_start m ≫= start_streamSid in
    let callSid := tw_start m ≫= start_callSid in
    if negb (truthy_str sid) || negb (truthy_str callSid)
    then (with_vars (mkVars (v_elevenLabsWs v) sid (v_customPrompt v) (v_firstMessage v)) st,
          [ConsoleError "Missing streamSid or callSid in start event"])
    else
      let parameters := tw_start m ≫= start_customParameters in
      let p := or_default (parameters ≫= cp_prompt)
                 "You are a friendly AI assistant making a phone call." in
      let fm := or_default (parameters ≫= cp_first_message)
                  "Hello, this is an automated call from an AI assistant." in
      (mkStream (twilioWs st) (mkVars (v_elevenLabsWs v) sid (Some p) (Some fm))
         (S (suspended st)) (listening st) (world st), []).

(** [case 'start'] from the [await] on (lines 631-707): the variables
    are read as they are by then.  An entry under a key that is not a
    string is reached by no lookup and is left out of the registry
    here. *)
Definition start_resume (apiKey agentId : option string) : Handler :=
  fun st =>
    match suspended st with
    | O => (st, [])
    | S n =>
        match createSignedUrl apiKey agentId with
        | None =>
            (mkStream (twilioWs st) (vars st) n (listening st) (world st),
             [ConsoleError "Error connecting to ElevenLabs:"])
        | Some _ =>
            let v := vars st in
            let w := world st in
            let a := nextId w in
            let w1 := set_readyState (<[a := CONNECTING]>) (set_nextId (S a) w) in
            let w2 := match v_streamSid v with
                      | Some sid => set_activeConnections (<[sid := mkLink (twilioWs st) a]>) w1
                      | None => w1
                      end in
            (mkStream (twilioWs st)
               (mkVars (Some a) (v_streamSid v) (v_customPrompt v) (v_firstMessage v))
               n (a :: listening st) w2, [])
        end
    end.

(** [case 'media'] (lines 710-722). *)
Definition handle_media (m : TwilioMessage) : Handler :=
  fun st =>
    match v_elevenLabsWs (vars st) with
    | Some a =>
        if truthy_str (v_streamSid (vars st)) && is_open (readyState (world st) !! a)
        then
          let payload := tw_media m ≫= media_payload in
          if truthy_str payload
          then (st, [Send a (LegacyAudio (default EmptyString payload))])
          else (st, [])
        else (st, [])
    | None => (st, [])
    end.

(** [case 'stop'] (lines 729-742) and the ['close'] listener of the
    telephony socket (lines 750-763): the same statements. *)
Definition hangup : Handler :=
  fun st =>
    if truthy_str (v_streamSid (vars st)) then
      let sid := default EmptyString (v_streamSid (vars st)) in
      let w := world st in
      match activeConnections w !! sid with
      | Some connection =>
          (with_world (set_activeConnections (delete sid)
                         (closing (link_elevenLabsWs connection) w)) st,
           [Close (link_elevenLabsWs connection)])
      | None => (with_world (set_activeConnections (delete sid) w) st, [])
      end
    else (st, []).

(** A frame as the two ['message'] listeners of this handler see it.
    They test the parsed value itself ([if (!parsedMessage)]) before
    they read a field of it, so the frames whose JSON is [0], [false]
    or the empty string are told apart here; [Js m] is an object, or a
    truthy number, string or boolean, which has no field. *)
Inductive Received (M : Type) : Type :=
  | Whole (p : Parsed M)
  | Falsy.
Arguments Whole {M} p.
Arguments Falsy {M}.

(** [safeJsonParse] of a frame, its result as the listeners test it:
    [None] where [!result] holds. *)
Definition parsed {M : Type} (r : Received M) : option M * list Effect :=
  match r with
  | Whole p => Utils.safeJsonParse p
  | Falsy => (None, [])
  end.

(** The ['message'] listener of the telephony socket (lines 596-747). *)
Definition twilio_on_message (r : Received TwilioMessage) : Handler :=
  fun st =>
    match parsed r with
    | (None, log) => (st, log ++ [ConsoleError "Invalid JSON message from Twilio"])
    | (Some m, _) =>
        if event_is m "start" then start_begin m st
        else if event_is m "media" then handle_media m st
        else if event_is m "mark" then (st, [])
        else if event_is m "stop" then hangup st
        else (st, [])
    end.

(** The ['open'] listener of an agent socket (lines 641-656); both
    texts were set before the socket was made. *)
Definition agent_on_open : Handler :=
  fun st =>
    match v_elevenLabsWs (vars st) with
    | Some a =>
        (st, [Send a (LegacyConfig (default EmptyString (v_firstMessage (vars st)))
                                   (default EmptyString (v_customPrompt (vars st))))])
    | None => (st, [])
    end.

(** The ['message'] listener of an agent socket (lines 659-690). *)
Definition agent_on_message (r : Received Service.Message) : Handler :=
  fun st =>
    if truthy_str (v_streamSid (vars st)) then
      match parsed r with
      | (None, log) => (st, log ++ [ConsoleError "Invalid JSON message from ElevenLabs"])
      | (Some m, _) =>
          if truthy_str (Service.msg_audio m)
          then (st, [Send (twilioWs st)
                       (Media (default EmptyString (v_streamSid (vars st)))
                              (default EmptyString (Service.msg_audio m)))])
          else (st, [])
      end
    else (st, []).

(** The ['close'] listener of an agent socket (lines 697-704). *)
Definition agent_on_close : Handler :=
  fun st =>
    if truthy_str (v_streamSid (vars st))
    then (with_world (set_activeConnections
                        (delete (default EmptyString (v_streamSid (vars st))))
                        (world st)) st, [])
    else (st, []).

(** What happens to this call: a frame from the telephony side, the
    [await] of a [start] branch coming back, the telephony socket
    closing, an agent socket opening, delivering a frame or closing.
    [TwilioFalsy] and [AgentFalsy] are the frames whose JSON is [0],
    [false] or the empty string. *)
Inductive Event : Type :=
  | TwilioFrame (p : Parsed TwilioMessage)
  | TwilioFalsy
  | Resumed
  | TwilioClose
  | AgentOpen (a : SockId)
  | AgentFrame (a : SockId) (p : Parsed Service.Message)
  | AgentFalsy (a : SockId)
  | AgentClose (a : SockId).

Definition listens (a : SockId) (st : Stream) : bool :=
  existsb (Nat.eqb a) (listening st).

(** The listeners run for one event, given the environment. An event
    on a socket that does not carry this call's listeners, or that the
    socket's state rules out, changes nothing. *)
Definition step (apiKey agentId : option string) (ev : Event) : Handler :=
  fun st =>
    match ev with
    | TwilioFrame p => twilio_on_message (Whole p) st
    | TwilioFalsy => twilio_on_message Falsy st
    | Resumed => start_resume apiKey agentId st
    | TwilioClose => hangup st
    | AgentOpen a =>
        if listens a st && is_connecting (readyState (world st) !! a)
        then agent_on_open (with_world (set_readyState (<[a := OPEN]>) (world st)) st)
        else (st, [])
    | AgentFrame a p =>
        if listens a st
        then match readyState (world st) !! a with
             | Some OPEN => agent_on_message (Whole p) st
             | Some CLOSING => agent_on_message (Whole p) st
             | _ => (st, [])
             end
        else (st, [])
    | AgentFalsy a =>
        if listens a st
        then match readyState (world st) !! a with
             | Some OPEN => agent_on_message Falsy st
             | Some CLOSING => agent_on_message Falsy st
             | _ => (st, [])
             end
        else (st, [])
    | AgentClose a =>
        if listens a st && negb (is_closed (readyState (world st) !! a))
        then agent_on_close (with_world (set_readyState (<[a := CLOSED]>) (world st)) st)
        else (st, [])
    end.

Fixpoint run (apiKey agentId : option string) (evs : list Event) : Handler :=
  fun st =>
    match evs with
    | [] => (st, [])
    | ev :: rest =>
        let r := step apiKey agentId ev st in
        let r' := run apiKey agentId rest (fst r) in
        (fst r', snd r ++ snd r')
    end.

(** Media frames, one for each payload. *)
Definition media (payloads : list string) : list Event :=
  map (fun p => TwilioFrame (Js (mkTwilioMessage (Some "media") None
                                   (Some (mkMediaInfo (Some p)))))) payloads.

(** A [start] frame and the end of its [await]. *)
Definition started (sid callSid : string) (params : option CustomParameters) : list Event :=
  [TwilioFrame (Js (mkTwilioMessage (Some "start")
                      (Some (mkStartInfo (Some sid) (Some callSid) params)) None));
   Resumed].

Definition stop : Event :=
  TwilioFrame (Js (mkTwilioMessage (Some "stop") None None)).

(** Frames from the agent that are objects, in arrival order, on
    socket [a]. *)
Definition agent_frames (a : SockId) (ms : list Service.Message) : list Event :=
  map (fun m => AgentFrame a (Js m)) ms.

(** Frames from the agent of any kind, in arrival order, on socket [a]. *)
Definition agent_received (a : SockId) (rs : list (Received Service.Message))
    : list Event :=
  map (fun r => match r with
                | Whole p => AgentFrame a p
                | Falsy => AgentFalsy a
                end) rs.

(** The audio an agent frame carries, if any. *)
Definition received_audio (r : Received Service.Message) : option string :=
  match r with
  | Whole (Js m) =>
      if truthy_str (Service.msg_audio m) then Service.msg_audio m else None
  | _ => None
  end.

(** A call with its agent socket [a] open and registered under [sid]. *)
Record live (st : Stream) (sid : string) (a : SockId) : Prop := mkLive {
  live_socket : v_elevenLabsWs (vars st) = Some a;
  live_sid : v_streamSid (vars st) = Some sid;
  live_truthy : nonempty sid = true;
  live_listens : listens a st = true;
  live_open : readyState (world st) !! a = Some OPEN;
  live_entry : link_elevenLabsWs <$> activeConnections (world st) !! sid = Some a
}.
End Typed.

(** ** Vocabulary of the statements *)

(** Well-formed frames of the two wire protocols. *)
Definition startFrame (sid callSid : string) (params : option CustomParameters)
    : Parsed TwilioMessage :=
  Js (mkTwilioMessage (Some "start") (Some (mkStartInfo (Some sid) (Some callSid) params)) None).

Definition mediaFrame (payload : string) : Parsed TwilioMessage :=
  Js (mkTwilioMessage (Some "media") None (Some (mkMediaInfo (Some payload)))).

Definition stopFrame : Parsed TwilioMessage :=
  Js (mkTwilioMessage (Some "stop") None None).

Definition pingFrame (au : option AudioInfo) (ae : option AudioEvent)
    (pe : option PingEvent) : Parsed AgentMessage :=
  Js (mkAgentMessage (Some "ping") au ae pe).

Definition interruptionFrame (au : option AudioInfo) (ae : option AudioEvent)
    (pe : option PingEvent) : Parsed AgentMessage :=
  Js (mkAgentMessage (Some "interruption") au ae pe).

(** The last [n] items of a list. *)
Definition lastn {A : Type} (n : nat) (l : list A) : list A :=
  drop (length l - n) l.

(** The frames handed to [send] on socket [a], in order. *)
Definition sent_on (a : SockId) (out : list Effect) : list Frame :=
  omap (fun e => match e with
                 | Send b f => if Nat.eqb a b then Some f else None
                 | _ => None
                 end) out.

(** The calls that close a socket, in order. *)
Definition closings (out : list Effect) : list Effect :=
  List.filter (fun e => match e with
                        | Close _ => true
                        | CloseWith _ _ _ => true
                        | Terminate _ => true
                        | _ => false
                        end) out.

Definition is_pong (f : Frame) : bool :=
  match f with
  | Pong _ => true
  | _ => false
  end.

Definition is_mark (f : Frame) : bool :=
  match f with
  | Mark _ _ => true
  | _ => false
  end.

(** Media frames on connection [s] of the compiled server. *)
Definition compiled_media (apiKey agentId : option string) (s : SockId)
    (payloads : list string) : @Act Compiled.Link :=
  forEach (fun p => Compiled.twilio_on_message apiKey agentId s (mediaFrame p)) payloads.

(** Media frames of the JavaScript server on connection [s]. *)
Definition plain_media (apiKey agentId : option string) (s : SockId)
    (payloads : list string) : @Act Compiled.Link :=
  forEach (fun p => Plain.twilio_on_message apiKey agentId s (mediaFrame p)) payloads.

(** The payload the service client forwards from a frame, if any. *)
Definition service_audio (m : Service.Message) : option string :=
  if truthy_str (Service.msg_audio m) then Service.msg_audio m else None.

Module Scenario.
Import Standalone.

(** Media frames arriving on connection [s], each with the clock
    reading at its arrival. *)
Definition media_events (s : SockId) (frames : list (string * Z)) : list Event :=
  map (fun f => TwilioFrame s (mediaFrame (fst f)) (snd f)) frames.

(** The payloads the [media] branch acts on: the truthy ones. *)
Definition payloads (frames : list (string * Z)) : list string :=
  List.filter nonempty (map fst frames).

(** Connection [s] has started the session [sid]; its entry [e] is
    not ready; its client [c] is [cl], whose agent socket [a] is still
    connecting, and the promise of [startConversation()] is pending. *)
Record awaiting (w : World Connection) (s : SockId) (sid : string)
    (c : ClientId) (a : SockId) (e : Connection) (cl : Client) : Prop := mkAwaiting {
  aw_alive : crashed w = false;
  aw_closure : closures w !! s ≫= cl_streamSid = Some sid;
  aw_sid : nonempty sid = true;
  aw_entry : activeConnections w !! sid = Some e;
  aw_not_ready : isReady e = false;
  aw_client_id : elevenLabsClient e = c;
  aw_client : clients w !! c = Some cl;
  aw_ws : ws cl = Some a;
  aw_call_closure : call_closure <$> calls w !! c = Some s;
  aw_call_ws : calls w !! c ≫= call_ws = Some a;
  aw_call_promise : call_promise <$> calls w !! c = Some Pending;
  aw_connecting : readyState w !! a = Some CONNECTING
}.

(** Connection [s] has started the session [sid] and its entry [e] is
    not ready: the [media] branch queues. *)
Record queueing (w : World Connection) (s : SockId) (sid : string)
    (e : Connection) : Prop := mkQueueing {
  qu_alive : crashed w = false;
  qu_closure : closures w !! s ≫= cl_streamSid = Some sid;
  qu_sid : nonempty sid = true;
  qu_entry : activeConnections w !! sid = Some e;
  qu_not_ready : isReady e = false
}.

(** The session [sid] of connection [s] has just started: its client
    [c] waits for the signed URL and has no socket yet. *)
Record starting (w : World Connection) (s : SockId) (sid : string)
    (c : ClientId) (e : Connection) (cl : Client) : Prop := mkStarting {
  sg_alive : crashed w = false;
  sg_closure : closures w !! s ≫= cl_streamSid = Some sid;
  sg_sid : nonempty sid = true;
  sg_entry : activeConnections w !! sid = Some e;
  sg_not_ready : isReady e = false;
  sg_client_id : elevenLabsClient e = c;
  sg_client : clients w !! c = Some cl;
  sg_call : ∃ t, calls w !! c = Some (mkStartCall s None t Pending)
}.

(** The entry of session [sid] is ready with its queue drained, and its
    client [c] is connected on the open agent socket [a]. *)
Record streaming (w : World Connection) (s : SockId) (sid : string)
    (c : ClientId) (a : SockId) (e : Connection) (cl : Client) : Prop := mkStreaming {
  st_alive : crashed w = false;
  st_closure : closures w !! s ≫= cl_streamSid = Some sid;
  st_sid : nonempty sid = true;
  st_entry : activeConnections w !! sid = Some e;
  st_ready : isReady e = true;
  st_drained : audioQueue e = [];
  st_client_id : elevenLabsClient e = c;
  st_client : clients w !! c = Some cl;
  st_connected : isConnected cl = true;
  st_ws : ws cl = Some a;
  st_open : readyState w !! a = Some OPEN
}.

(** A session that is up: connect, [start], the signed URL arrives,
    the agent socket opens.  The connection is socket 0, the client is
    object 1, its agent socket is socket 2. *)
Definition session_up (sid callSid : string) : list Event :=
  [TwilioConnect; TwilioFrame 0 (startFrame sid callSid None) 0%Z;
   SignedUrl 1 true; AgentOpen 1].

(** A session whose agent socket is still connecting. *)
Definition session_connecting (sid callSid : string) : list Event :=
  [TwilioConnect; TwilioFrame 0 (startFrame sid callSid None) 0%Z;
   SignedUrl 1 true].

(** Fifty-two one-letter payloads, "A", "B", ... *)
Definition fifty_two_frames : list (string * Z) :=
  map (fun n => (String (Ascii.ascii_of_nat (65 + n)) EmptyString, Z.of_nat n)) (seq 0 52).
(** Every registered entry satisfies [P]. *)
Definition every_entry (P : Connection → Prop) (w : World Connection) : Prop :=
  ∀ sid e, activeConnections w !! sid = Some e → P e.

(** A ready entry has nothing left in its queue. *)
Definition drained (e : Connection) : Prop :=
  isReady e = true → audioQueue e = [].

(** The session, if any, that the closure [k] of a connection points
    to: its [streamSid] is truthy and registered. *)
Definition session_of (w : World Connection) (k : Closure) : option Connection :=
  if truthy_str (cl_streamSid k)
  then activeConnections w !! default EmptyString (cl_streamSid k)
  else None.

(** Frames of connection [s] that are not [start] frames, each with
    the clock reading at its arrival. *)
Definition frame_events (s : SockId) (frames : list (TwilioMessage * Z)) : list Event :=
  map (fun f => TwilioFrame s (Js (fst f)) (snd f)) frames.

(** An [audio] frame from the agent. *)
Definition audioFrame (chunk b64 : option string) (pe : option PingEvent)
    : Parsed AgentMessage :=
  Js (mkAgentMessage (Some "audio") (Some (mkAudioInfo chunk))
        (Some (mkAudioEvent b64)) pe).
(** Two more facts about the worlds the server can be in: a ready entry
    has an empty queue, and no client object exists under an identifier
    that has not been handed out yet. *)
Record settled (w : World Connection) : Prop := mkSettled {
  settled_drained : every_entry drained w;
  settled_fresh : ∀ i, nextId w ≤ i → clients w !! i = None
}.

(** The payload the [audio] case forwards, if any: [audio.chunk] when
    truthy, else [audio_event.audio_base_64] when truthy. *)
Definition audio_payload (f : option AudioInfo * option AudioEvent) : option string :=
  if truthy_str (fst f ≫= audio_chunk) then fst f ≫= audio_chunk
  else if truthy_str (snd f ≫= audio_base_64) then snd f ≫= audio_base_64
  else None.

Definition audio_frames (frames : list (option AudioInfo * option AudioEvent))
    : list (Parsed AgentMessage) :=
  map (fun f => Js (mkAgentMessage (Some "audio") (fst f) (snd f) None)) frames.
End Scenario.

(** * Properties *)

(** ** Sequencing *)

Section ActFacts.
Context {E : Type}.
Implicit Types (a b : @Act E) (w : World E) (P : World E → Prop).

Lemma andThen_eq a b w :
  (a >> b) w = (fst (b (fst (a w))), snd (a w) ++ snd (b (fst (a w)))).
Proof.
  unfold andThen. destruct (a w) as [w1 o1]. simpl.
  destruct (b w1) as [w2 o2]. reflexivity.
Qed.

Lemma forEach_app {A : Type} (f : A -> @Act E) (xs ys : list A) w :
  forEach f (xs ++ ys) w = (forEach f xs >> forEach f ys) w.
Proof.
  revert w. induction xs as [|x xs IH]; intros w.
  - simpl. rewrite andThen_eq. simpl. destruct (forEach f ys w). reflexivity.
  - simpl. rewrite !andThen_eq. simpl. rewrite IH, andThen_eq. simpl.
    rewrite app_assoc. reflexivity.
Qed.

(** Listeners that only talk: when [f x] leaves every world as it is,
    so does the loop, and its effects are those of each item in turn. *)
Lemma forEach_silent {A : Type} (f : A -> @Act E) (xs : list A) w :
  (∀ x v, fst (f x v) = v) →
  forEach f xs w = (w, concat (map (fun x => snd (f x w)) xs)).
Proof.
  intros Hf. induction xs as [|x xs IH].
  - reflexivity.
  - simpl. rewrite andThen_eq, Hf, IH. reflexivity.
Qed.

Lemma preserves_andThen P a b :
  preserves P a → preserves P b → preserves P (a >> b).
Proof.
  intros Ha Hb w Hw. rewrite andThen_eq. simpl. apply Hb, Ha, Hw.
Qed.

Lemma preserves_skip P : preserves P skip.
Proof. intros w Hw. exact Hw. Qed.

Lemma preserves_emit P e : preserves P (emit e).
Proof. intros w Hw. exact Hw. Qed.

Lemma preserves_forEach {A : Type} P (f : A -> @Act E) xs :
  (∀ x, preserves P (f x)) → preserves P (forEach f xs).
Proof.
  intros Hf. induction xs as [|x xs IH]; simpl.
  - apply preserves_skip.
  - apply preserves_andThen; [apply Hf | exact IH].
Qed.
End ActFacts.

(** ** Well-formed worlds of the stand-alone server *)

Module StandaloneFacts.
Import Standalone.
Implicit Types (w : World Connection) (c : ClientId) (s a : SockId).

Lemma wf_initial : wf initial.
Proof. split; intros ? ? H; simpl in H; rewrite lookup_empty in H; discriminate. Qed.

Lemma wf_same w w' :
  activeConnections w' = activeConnections w → clients w' = clients w → wf w → wf w'.
Proof. intros H1 H2 [Hq Hc]. split; rewrite ?H1, ?H2; assumption. Qed.

Lemma wf_set_entry sid e :
  length (audioQueue e) ≤ 50 →
  preserves wf (update (set_activeConnections (<[sid := e]>))).
Proof.
  intros He w [Hq Hc]. split; simpl; [|exact Hc].
  intros sid' e'. rewrite lookup_insert. case_decide.
  - intros [= <-]. exact He.
  - apply Hq.
Qed.

Lemma wf_delete_entry sid :
  preserves wf (update (set_activeConnections (delete sid))).
Proof.
  intros w [Hq Hc]. split; simpl; [|exact Hc].
  intros sid' e'. rewrite lookup_delete. case_decide; [discriminate|apply Hq].
Qed.

Lemma wf_write_client c cl :
  nonempty (streamSid cl) = true → preserves wf (write_client c cl).
Proof.
  intros Hn w [Hq Hc]. split; simpl; [exact Hq|].
  intros c' cl'. rewrite lookup_insert. case_decide.
  - intros [= <-]. exact Hn.
  - apply Hc.
Qed.

Lemma wf_other (f : World Connection → World Connection) :
  (∀ w, activeConnections (f w) = activeConnections w) →
  (∀ w, clients (f w) = clients w) →
  preserves wf (update f).
Proof. intros H1 H2 w Hw. simpl. apply (wf_same w); auto. Qed.

Lemma enqueue_length p q : length q ≤ 50 → length (enqueue p q) ≤ 50.
Proof.
  intros H. unfold enqueue. destruct (50 <? length (q ++ [p])) eqn:Hlt.
  - destruct q; simpl in *; [lia|]. rewrite length_app. simpl. lia.
  - apply Nat.ltb_ge in Hlt. exact Hlt.
Qed.

(** *** What each listener leaves alone *)

Lemma sendAudio_state c p w : fst (sendAudio c p w) = w.
Proof. unfold sendAudio. repeat case_match; reflexivity. Qed.

Lemma on_message_state c p w : fst (on_message c p w) = w.
Proof. unfold on_message. repeat case_match; reflexivity. Qed.

Lemma drain_eq c ps w :
  forEach (sendAudio c) ps w = (w, concat (map (fun p => snd (sendAudio c p w)) ps)).
Proof. apply forEach_silent. intros. apply sendAudio_state. Qed.

(** *** Every listener keeps the world well formed *)

Ltac wf_other := apply wf_other; intros; reflexivity.

Lemma wf_ws_close a : preserves wf (ws_close a).
Proof. apply preserves_andThen; [wf_other | apply preserves_emit]. Qed.

Lemma wf_sendAudio c p : preserves wf (sendAudio c p).
Proof. intros w Hw. rewrite sendAudio_state. exact Hw. Qed.

Lemma wf_on_message c p : preserves wf (on_message c p).
Proof. intros w Hw. rewrite on_message_state. exact Hw. Qed.

Lemma wf_endConversation c : preserves wf (endConversation c).
Proof.
  intros w Hw. unfold endConversation.
  destruct (clients w !! c) as [cl|] eqn:Hc; [|exact Hw].
  destruct (ws cl) as [a|]; [|exact Hw].
  apply preserves_andThen; [| |exact Hw].
  - destruct (is_open _); [apply wf_ws_close | apply preserves_skip].
  - apply wf_write_client. simpl. eapply wf_clients; eauto.
Qed.

Lemma wf_on_open c : preserves wf (on_open c).
Proof.
  intros w Hw. unfold on_open.
  destruct (clients w !! c) as [cl|] eqn:Hc; [|exact Hw].
  apply preserves_andThen; [| |exact Hw].
  - apply wf_write_client. simpl. eapply wf_clients; eauto.
  - destruct (ws cl).
    + apply preserves_emit.
    + apply preserves_andThen; [wf_other | apply preserves_emit].
Qed.

Lemma wf_on_close c : preserves wf (on_close c).
Proof.
  intros w Hw. unfold on_close.
  destruct (clients w !! c) as [cl|] eqn:Hc; [|exact Hw].
  apply wf_write_client; [|exact Hw]. simpl. eapply wf_clients; eauto.
Qed.

Lemma wf_start_then s c : preserves wf (start_then s c).
Proof.
  intros w Hw. unfold start_then.
  destruct (closures w !! s ≫= cl_streamSid) as [sid|]; [|exact Hw].
  destruct (activeConnections w !! sid) as [e|] eqn:He; [|exact Hw].
  destruct (0 <? length (audioQueue e)).
  - apply preserves_andThen; [| |exact Hw].
    + apply wf_set_entry. simpl. lia.
    + apply preserves_forEach. intros p. apply wf_sendAudio.
  - apply wf_set_entry; [|exact Hw]. simpl. eapply wf_queues; eauto.
Qed.

Lemma wf_resolve c : preserves wf (resolve c).
Proof.
  intros w Hw. unfold resolve.
  destruct (calls w !! c) as [k|]; [|exact Hw].
  destruct (call_promise k); try exact Hw.
  apply preserves_andThen; [wf_other | apply wf_start_then | exact Hw].
Qed.

Lemma wf_reject c : preserves wf (reject c).
Proof.
  intros w Hw. unfold reject.
  destruct (calls w !! c) as [k|]; [|exact Hw].
  destruct (call_promise k); try exact Hw.
  apply preserves_andThen; [wf_other | apply preserves_emit | exact Hw].
Qed.

Lemma wf_clearTimeout c : preserves wf (clearTimeout c).
Proof. wf_other. Qed.

Lemma preserves_getSignedUrl_begin (P : World Connection → Prop) b :
  preserves P (getSignedUrl_begin b).
Proof. destruct b; [apply preserves_skip | apply preserves_emit]. Qed.

Lemma getSignedUrl_begin_state b w : fst (getSignedUrl_begin b w) = w.
Proof. destruct b; reflexivity. Qed.

Lemma wf_handle_start b s m now : preserves wf (handle_start b s m now).
Proof.
  intros w Hw. unfold handle_start.
  assert (Hw1 : wf (set_closures (<[s := mkClosure (tw_start m ≫= start_streamSid)
                                        (tw_start m ≫= start_callSid)]>) w))
    by (apply (wf_same w); [reflexivity | reflexivity | exact Hw]).
  destruct (negb _ || negb _); [exact Hw1|].
  destruct (ElevenLabsClient_new _ _ _ _) as [cl|] eqn:Hnew; [|exact Hw1].
  unfold ElevenLabsClient_new in Hnew.
  destruct (nonempty (default EmptyString (tw_start m ≫= start_streamSid))) eqn:Hn; [|discriminate].
  injection Hnew as <-.
  repeat apply preserves_andThen; try exact Hw1; try wf_other;
    try apply preserves_getSignedUrl_begin.
  - apply wf_write_client. exact Hn.
  - apply wf_set_entry. simpl. lia.
Qed.

Lemma wf_handle_media sid m now : preserves wf (handle_media sid m now).
Proof.
  intros w Hw. unfold handle_media.
  destruct (truthy_str _); [|exact Hw].
  destruct (activeConnections w !! sid) as [e|] eqn:He; [|exact Hw].
  destruct (isReady e); [apply wf_sendAudio, Hw|].
  apply preserves_andThen; [| |exact Hw].
  - apply wf_set_entry. simpl. apply enqueue_length. eapply wf_queues; eauto.
  - destruct (_ && _); [apply preserves_emit | apply preserves_skip].
Qed.

Lemma wf_teardown sid : preserves wf (teardown sid).
Proof.
  intros w Hw. unfold teardown.
  destruct (activeConnections w !! sid) as [e|]; [|exact Hw].
  apply preserves_andThen; [apply wf_endConversation | apply wf_delete_entry | exact Hw].
Qed.

Lemma wf_twilio_on_message b s p now : preserves wf (twilio_on_message b s p now).
Proof.
  intros w Hw. unfold twilio_on_message.
  destruct (closures w !! s) as [k|]; [|exact Hw].
  destruct p as [| |m]; try exact Hw.
  destruct (event_is m "start"); [apply wf_handle_start, Hw|].
  destruct (_ && _); [apply wf_handle_media, Hw|].
  destruct (_ && _); [apply wf_teardown, Hw|exact Hw].
Qed.

Lemma wf_twilio_on_close s : preserves wf (twilio_on_close s).
Proof.
  intros w Hw. unfold twilio_on_close.
  destruct (closures w !! s) as [k|]; [|exact Hw].
  destruct (truthy_str _); [apply wf_teardown, Hw|exact Hw].
Qed.

Lemma wf_startConversation_connect c : preserves wf (startConversation_connect c).
Proof.
  intros w Hw. unfold startConversation_connect.
  destruct (clients w !! c) as [cl|] eqn:Hc; [|exact Hw].
  repeat apply preserves_andThen; try exact Hw; try wf_other.
  apply wf_write_client. simpl. eapply wf_clients; eauto.
Qed.

Lemma wf_startConversation_fail c : preserves wf (startConversation_fail c).
Proof.
  repeat apply preserves_andThen; try apply preserves_emit. apply wf_reject.
Qed.

Lemma wf_on_timeout c : preserves wf (on_timeout c).
Proof.
  intros w Hw. unfold on_timeout.
  destruct (clients w !! c) as [cl|]; [|exact Hw].
  destruct (isConnected cl); [exact Hw | apply wf_reject, Hw].
Qed.

Lemma wf_dispatch ev : preserves wf (dispatch ev).
Proof.
  intros w Hw. destruct ev; simpl.
  - apply (wf_same w); [reflexivity | reflexivity | exact Hw].
  - apply wf_twilio_on_message, Hw.
  - destruct (is_closed _); [exact Hw|].
    apply preserves_andThen; [wf_other | apply wf_twilio_on_close | exact Hw].
  - destruct (closures w !! s); exact Hw.
  - destruct (calls w !! c) as [[? [?|] ? []]|]; try exact Hw.
    destruct ok; [apply wf_startConversation_connect, Hw
                 | apply wf_startConversation_fail, Hw].
  - destruct (agent_socket w c) as [a|]; [|exact Hw].
    destruct (is_connecting _); [|exact Hw].
    repeat apply preserves_andThen; try exact Hw; try wf_other.
    + apply wf_on_open.
    + intros w1 Hw1. destruct (crashed w1); [exact Hw1|].
      apply preserves_andThen; [apply wf_clearTimeout | apply wf_resolve | exact Hw1].
  - destruct (agent_socket w c) as [a|]; [|exact Hw].
    destruct (readyState w !! a) as [[]|]; try exact Hw; apply wf_on_message, Hw.
  - destruct (agent_socket w c) as [a|]; [|exact Hw].
    destruct (is_closed _); [exact Hw|].
    repeat apply preserves_andThen; try exact Hw.
    + apply preserves_emit.
    + apply wf_clearTimeout.
    + apply wf_reject.
  - destruct (agent_socket w c) as [a|]; [|exact Hw].
    destruct (is_closed _); [exact Hw|].
    apply preserves_andThen; [wf_other | apply wf_on_close | exact Hw].
  - destruct (calls w !! c) as [k|]; [|exact Hw].
    destruct (call_timer k); [|exact Hw].
    apply preserves_andThen; [apply wf_clearTimeout | apply wf_on_timeout | exact Hw].
Qed.

Lemma wf_step ev : preserves wf (step ev).
Proof.
  intros w Hw. unfold step. destruct (crashed w); [exact Hw | apply wf_dispatch, Hw].
Qed.

Lemma reachable_wf w : reachable w → wf w.
Proof.
  induction 1 as [|ev w _ IH]; [apply wf_initial | apply wf_step, IH].
Qed.

Lemma reachable_run evs w : reachable w → reachable (fst (run evs w)).
Proof.
  revert w. induction evs as [|ev evs IH]; intros w Hw; [exact Hw|].
  change (run (ev :: evs) w) with ((step ev >> run evs) w).
  rewrite andThen_eq. simpl. apply IH. constructor. exact Hw.
Qed.
End StandaloneFacts.

(** ** Agent-side frames *)

Section AgentFrames.
Import Standalone StandaloneFacts.
Implicit Types (w : World Connection) (c : ClientId).

(** C7. An [interruption] from the agent makes the listener send one
    [clear] frame carrying the session's [streamSid] to the telephony
    socket and do nothing else.  The world is left as it was, so
    nothing is kept back for later: in a run of agent frames, what
    was forwarded for the frames before the interrupt stands before
    the [clear], and what follows it comes from the frames after. *)
Theorem interruption_sends_one_clear w c cl au ae pe pre post :
  reachable w →
  clients w !! c = Some cl →
  on_message c (interruptionFrame au ae pe) w
    = (w, [Send (twilioSocket cl) (Clear (streamSid cl))])
  ∧ forEach (on_message c) (pre ++ interruptionFrame au ae pe :: post) w
    = (w, snd (forEach (on_message c) pre w)
          ++ [Send (twilioSocket cl) (Clear (streamSid cl))]
          ++ snd (forEach (on_message c) post w)).
Proof.
  intros Hr Hc.
  assert (Hone : on_message c (interruptionFrame au ae pe) w
                 = (w, [Send (twilioSocket cl) (Clear (streamSid cl))])).
  { unfold on_message, interruptionFrame. rewrite Hc. simpl.
    rewrite (wf_clients w (reachable_wf w Hr) c cl Hc). reflexivity. }
  split; [exact Hone|].
  rewrite !forEach_silent by apply on_message_state.
  rewrite map_app, concat_app. simpl. rewrite Hone. reflexivity.
Qed.

(** C6, as the code has it. A [ping] whose [ping_event.event_id] is
    truthy, handled while the client still holds its agent socket,
    makes the listener send one [pong] with the same [event_id] on
    that socket and do nothing else. *)
Theorem ping_answered_by_pong w c cl a eid au ae :
  clients w !! c = Some cl →
  ws cl = Some a →
  truthy eid = true →
  on_message c (pingFrame au ae (Some (mkPingEvent (Some eid)))) w
    = (w, [Send a (Pong eid)]).
Proof.
  intros Hc Ha He. unfold on_message, pingFrame. rewrite Hc. simpl.
  rewrite He, Ha. reflexivity.
Qed.

(** C10. A [ping] without [ping_event.event_id], be it that the
    [ping_event] object is missing or that it has no [event_id],
    makes the listener do nothing at all: no frame, no change. *)
Theorem ping_without_event_id_ignored w c au ae pe :
  pe ≫= ping_event_id = None →
  on_message c (pingFrame au ae pe) w = (w, []).
Proof.
  intros Hpe. unfold on_message, pingFrame.
  destruct (clients w !! c) as [cl|]; [|reflexivity].
  simpl. rewrite Hpe. reflexivity.
Qed.
End AgentFrames.

(** ** Malformed frames *)

Section Malformed.
Import Standalone StandaloneFacts.
Implicit Types (w : World Connection) (c : ClientId) (s a : SockId).

Lemma run_cons ev evs w : run (ev :: evs) w = (step ev >> run evs) w.
Proof. reflexivity. Qed.

(** C8. A frame that [JSON.parse] rejects, on the telephony socket or
    on the agent socket, costs one [console.error] line and nothing
    else: the world is the same afterwards, and every later event is
    handled as if the frame had never come.  [safeJsonParse] of the
    TypeScript sources likewise logs and hands back [null]. *)
Theorem malformed_frame_only_logged w evs :
  crashed w = false →
  (∀ s now, is_Some (closures w !! s) →
     run (TwilioFrame s SyntaxError now :: evs) w
       = (fst (run evs w),
          ConsoleError "Error processing WebSocket message:" :: snd (run evs w)))
  ∧ (∀ c a, is_Some (clients w !! c) →
       agent_socket w c = Some a →
       readyState w !! a = Some OPEN →
       run (AgentFrame c SyntaxError :: evs) w
         = (fst (run evs w),
            ConsoleError "[ElevenLabs] Error processing message:" :: snd (run evs w)))
  ∧ (Utils.safeJsonParse (@SyntaxError TwilioMessage)
       = (None, [ConsoleError "Error parsing JSON:"])).
Proof.
  intros Hlive. repeat split.
  - intros s now [k Hk].
    assert (Hstep : step (TwilioFrame s SyntaxError now) w
                    = (w, [ConsoleError "Error processing WebSocket message:"])).
    { unfold step. rewrite Hlive. simpl. unfold twilio_on_message. rewrite Hk. reflexivity. }
    rewrite run_cons, andThen_eq, Hstep. reflexivity.
  - intros c a [cl Hc] Ha Hopen.
    assert (Hstep : step (AgentFrame c SyntaxError) w
                    = (w, [ConsoleError "[ElevenLabs] Error processing message:"])).
    { unfold step. rewrite Hlive. simpl. rewrite Ha, Hopen.
      unfold on_message. rewrite Hc. reflexivity. }
    rewrite run_cons, andThen_eq, Hstep. reflexivity.
Qed.
End Malformed.

(** ** Teardown *)

Section Teardown.
Import Compiled.

Lemma again_noop {E : Type} (a : @Act E) n w : a w = (w, []) → again n a w = (w, []).
Proof.
  intros Ha. induction n as [|n IH]; [reflexivity|].
  simpl. rewrite andThen_eq, Ha. simpl. rewrite IH. reflexivity.
Qed.

Lemma then_again_noop {E : Type} (a : @Act E) n w :
  a (fst (a w)) = (fst (a w), []) → (a >> again n a) w = a w.
Proof.
  intros Ha. rewrite andThen_eq, (again_noop a n _ Ha). simpl.
  rewrite app_nil_r. destruct (a w); reflexivity.
Qed.

Lemma service_endConversation_registry {E : Type} c (w : World E) :
  activeConnections (fst (Service.endConversation c w)) = activeConnections w.
Proof.
  unfold Service.endConversation. destruct (clients w !! c) as [cl|]; [|reflexivity].
  rewrite !andThen_eq. simpl. unfold Service.send_mark.
  match goal with |- context [if ?b then _ else _] => destruct b end; simpl.
  all: unfold Service.close_agent; destruct (ws cl) as [a|]; [|reflexivity..].
  all: rewrite andThen_eq; simpl.
  all: destruct (readyState w !! a) as [[]|]; reflexivity.
Qed.

Lemma cleanupConnection_gone sid (w : World Link) :
  activeConnections (fst (cleanupConnection sid w)) !! sid = None.
Proof.
  unfold cleanupConnection. destruct (activeConnections w !! sid) as [k|] eqn:Hk; [|exact Hk].
  rewrite andThen_eq. simpl. apply lookup_delete_eq.
Qed.

Lemma cleanupConnection_absent sid (w : World Link) :
  activeConnections w !! sid = None → cleanupConnection sid w = (w, []).
Proof. intros H. unfold cleanupConnection. rewrite H. reflexivity. Qed.

Lemma standalone_endConversation_twice c (w : World Standalone.Connection) :
  Standalone.endConversation c (fst (Standalone.endConversation c w))
  = (fst (Standalone.endConversation c w), []).
Proof.
  unfold Standalone.endConversation at 2 3.
  destruct (clients w !! c) as [cl|] eqn:Hc; simpl.
  - destruct (ws cl) as [a|] eqn:Ha; simpl.
    + rewrite andThen_eq. simpl. unfold Standalone.endConversation. simpl.
      rewrite lookup_insert_eq. reflexivity.
    + unfold Standalone.endConversation. rewrite Hc, Ha. reflexivity.
  - unfold Standalone.endConversation. rewrite Hc. reflexivity.
Qed.

Lemma standalone_endConversation_registry c (w : World Standalone.Connection) :
  activeConnections (fst (Standalone.endConversation c w)) = activeConnections w.
Proof.
  unfold Standalone.endConversation. destruct (clients w !! c) as [cl|]; [|reflexivity].
  destruct (ws cl) as [a|]; [|reflexivity]. rewrite andThen_eq. simpl.
  destruct (is_open _); reflexivity.
Qed.

Lemma standalone_teardown_twice sid (w : World Standalone.Connection) :
  Standalone.teardown sid (fst (Standalone.teardown sid w))
  = (fst (Standalone.teardown sid w), []).
Proof.
  assert (H : activeConnections (fst (Standalone.teardown sid w)) !! sid = None).
  { unfold Standalone.teardown.
    destruct (activeConnections w !! sid) as [e|] eqn:He; [|exact He].
    rewrite andThen_eq. simpl. apply lookup_delete_eq. }
  unfold Standalone.teardown at 1. rewrite H. reflexivity.
Qed.

(** C5. Teardown is idempotent. After [cleanupConnection(sid)] of the
    compiled server has run once, running it any number of times more
    changes nothing and performs no effect: no close, no frame, no
    removal, no exception, whatever the state of the sockets and
    whether or not [sid] was registered.  The same holds for
    [endConversation] of the stand-alone client and for the teardown
    the stand-alone server runs on [stop] and on ['close']. *)
Theorem teardown_idempotent sid c n (w : World Link) (v : World Standalone.Connection) :
  (cleanupConnection sid >> again n (cleanupConnection sid)) w = cleanupConnection sid w
  ∧ (Standalone.endConversation c >> again n (Standalone.endConversation c)) v
    = Standalone.endConversation c v
  ∧ (Standalone.teardown sid >> again n (Standalone.teardown sid)) v
    = Standalone.teardown sid v.
Proof.
  repeat split; apply then_again_noop.
  - apply cleanupConnection_absent, cleanupConnection_gone.
  - apply standalone_endConversation_twice.
  - apply standalone_teardown_twice.
Qed.
End Teardown.

(** ** The end-of-conversation mark *)

Section CompletionMark.
Import Compiled.

Lemma sent_on_app a o1 o2 : sent_on a (o1 ++ o2) = sent_on a o1 ++ sent_on a o2.
Proof. unfold sent_on. apply omap_app. Qed.

(** C9, as the code has it. When the compiled server shuts a session
    down ([cleanupConnection], run by [stop]), [endConversation] of the
    service client sends the [conversation-complete] mark on the
    telephony socket exactly when that socket is still open, and
    nothing else on it; the agent socket is closed when open and
    aborted when still connecting, and that comes before the mark; the
    session leaves the registry; and further cleanup triggers send
    nothing any more.  The telephony socket itself is not closed: its
    state is what it was, and the shutdown has no other effect than the
    closing of the agent socket and the mark. *)
Theorem completion_mark_iff_signaling_open sid link cl n (w : World Link) :
  activeConnections w !! sid = Some link →
  clients w !! link_elevenLabsClient link = Some cl →
  ws cl ≠ Some (twilioSocket cl) →
  sent_on (twilioSocket cl) (snd (on_stop sid w))
    = (if is_open (readyState w !! twilioSocket cl)
       then [Mark (streamSid cl) "conversation-complete"] else [])
  ∧ closings (snd (on_stop sid w))
    = match ws cl with
      | Some a =>
          match readyState w !! a with
          | Some OPEN => [CloseWith a 1000 "Conversation ended by user or system"]
          | Some CONNECTING => [Terminate a]
          | _ => []
          end
      | None => []
      end
  ∧ activeConnections (fst (on_stop sid w)) !! sid = None
  ∧ again n (on_stop sid) (fst (on_stop sid w)) = (fst (on_stop sid w), [])
  ∧ readyState (fst (on_stop sid w)) !! twilioSocket cl = readyState w !! twilioSocket cl
  ∧ snd (on_stop sid w)
    = closings (snd (on_stop sid w))
      ++ map (Send (twilioSocket cl)) (sent_on (twilioSocket cl) (snd (on_stop sid w))).
Proof.
  intros Hlink Hcl Hdistinct.
  assert (Hout : snd (on_stop sid w)
                 = snd (Service.endConversation (link_elevenLabsClient link) w)).
  { unfold on_stop, cleanupConnection. rewrite Hlink, andThen_eq. simpl.
    apply app_nil_r. }
  split; [|split; [|split; [|split; [|split]]]].
  - rewrite Hout. unfold Service.endConversation. rewrite Hcl.
    rewrite !andThen_eq. simpl. rewrite app_nil_r, sent_on_app.
    unfold Service.close_agent, Service.send_mark.
    destruct (ws cl) as [a|] eqn:Ha; simpl.
    + assert (Hne : a ≠ twilioSocket cl) by congruence.
      rewrite andThen_eq. simpl. rewrite app_nil_r.
      destruct (readyState w !! a) as [[]|] eqn:Hr; simpl;
        rewrite ?lookup_insert_ne by exact Hne;
        destruct (is_open (readyState w !! twilioSocket cl)); simpl;
        rewrite ?Nat.eqb_refl; reflexivity.
    + destruct (is_open (readyState w !! twilioSocket cl)); simpl;
        rewrite ?Nat.eqb_refl; reflexivity.
  - rewrite Hout. unfold Service.endConversation. rewrite Hcl.
    rewrite !andThen_eq. simpl. rewrite app_nil_r.
    unfold closings. rewrite List.filter_app.
    unfold Service.close_agent, Service.send_mark.
    destruct (ws cl) as [a|] eqn:Ha; simpl.
    + rewrite andThen_eq. simpl.
      destruct (readyState w !! a) as [[]|] eqn:Hr; simpl;
        match goal with |- context [if ?b then _ else _] => destruct b end;
        reflexivity.
    + match goal with |- context [if ?b then _ else _] => destruct b end; reflexivity.
  - apply cleanupConnection_gone.
  - apply again_noop. apply cleanupConnection_absent, cleanupConnection_gone.
  - unfold on_stop, cleanupConnection. rewrite Hlink, andThen_eq. simpl.
    unfold Service.endConversation. rewrite Hcl. rewrite !andThen_eq. simpl.
    unfold Service.close_agent, Service.send_mark.
    destruct (ws cl) as [a|] eqn:Ha; simpl.
    + assert (Hne : a ≠ twilioSocket cl) by congruence.
      rewrite andThen_eq. simpl.
      destruct (readyState w !! a) as [[]|] eqn:Hr; simpl;
        rewrite ?lookup_insert_ne by exact Hne;
        destruct (is_open (readyState w !! twilioSocket cl)); simpl;
        rewrite ?lookup_insert_ne by exact Hne; reflexivity.
    + destruct (is_open (readyState w !! twilioSocket cl)); reflexivity.
  - rewrite Hout. unfold Service.endConversation. rewrite Hcl.
    rewrite !andThen_eq. simpl. rewrite app_nil_r.
    unfold Service.close_agent, Service.send_mark.
    destruct (ws cl) as [a|] eqn:Ha; simpl.
    + assert (Hne : a ≠ twilioSocket cl) by congruence.
      rewrite andThen_eq. simpl. rewrite app_nil_r.
      destruct (readyState w !! a) as [[]|] eqn:Hr; simpl;
        rewrite ?lookup_insert_ne by exact Hne;
        destruct (is_open (readyState w !! twilioSocket cl)); simpl;
        rewrite ?Nat.eqb_refl; reflexivity.
    + destruct (is_open (readyState w !! twilioSocket cl)); simpl;
        rewrite ?Nat.eqb_refl; reflexivity.
Qed.

(** C9 fails as stated. Session [S1] has both sockets open when its
    [stop] frame arrives.  The compiled server closes the agent socket
    and sends the mark, and that is all: the telephony socket is not
    closed and is open afterwards, so the two transports are not both
    closed.  The JavaScript server, on the same frame in the same
    state, closes the agent socket and sends no mark although the
    telephony socket is open. *)
Lemma shutdown_leaves_signaling_open :
  let cl := mkClient "S1" 0 "prompt" "hello" (Some 2) true in
  let w : World Link :=
    mkWorld (<["S1" := mkLink 0 1]> ∅) (<[1 := cl]> ∅)
            (<[0 := OPEN]> (<[2 := OPEN]> ∅))
            (<[0 := mkClosure (Some "S1") (Some "C1")]> ∅) ∅ 3 false in
  let r := twilio_on_message (Some "key") (Some "agent") 0 stopFrame w in
  let r' := Plain.twilio_on_message (Some "key") (Some "agent") 0 stopFrame w in
  is_open (readyState w !! 0) = true
  ∧ (snd r = [CloseWith 2 1000 "Conversation ended by user or system";
              Send 0 (Mark "S1" "conversation-complete")]
     ∧ activeConnections (fst r) !! "S1" = None
     ∧ readyState (fst r) !! 0 = Some OPEN)
  ∧ (snd r' = [Close 2]
     ∧ activeConnections (fst r') !! "S1" = None
     ∧ sent_on 0 (snd r') = []
     ∧ readyState (fst r') !! 0 = Some OPEN).
Proof.
  vm_compute. repeat split.
Qed.
End CompletionMark.

(** ** Session start *)

Section SessionStart.
Import Standalone StandaloneFacts Scenario.
Implicit Types (w : World Connection) (c : ClientId) (s a : SockId).

(** The inline [endConversation] never writes to the telephony socket:
    the stand-alone server sends no completion mark. *)
Lemma standalone_endConversation_sends_nothing c w b :
  sent_on b (snd (endConversation c w)) = [].
Proof.
  unfold endConversation. destruct (clients w !! c) as [cl|]; [|reflexivity].
  destruct (ws cl) as [a|]; [|reflexivity]. rewrite andThen_eq. simpl.
  destruct (is_open _); reflexivity.
Qed.

(** C2, as the code has it. A [start] frame with truthy [streamSid] and
    [callSid] always registers a fresh entry under its [streamSid]: a
    new client, not ready, an empty queue.  An entry already there is
    replaced and the entries of other sessions stay as they are.  The
    handler logs nothing about the entry it replaces: with the
    environment configured it has no effect besides the registration,
    and without the API key or the agent id its one line is the error
    of [getSignedUrl], the same with and without an earlier entry. *)
Theorem start_registers_fresh_entry configured w s sid callSid params now :
  is_Some (closures w !! s) →
  nonempty sid = true →
  nonempty callSid = true →
  let r := twilio_on_message configured s (startFrame sid callSid params) now w in
  activeConnections (fst r) !! sid = Some (mkConnection s (nextId w) false [] now)
  ∧ (∀ sid', sid' ≠ sid → activeConnections (fst r) !! sid' = activeConnections w !! sid')
  ∧ snd r = (if configured then [] else [ConsoleError "Error getting signed URL:"]).
Proof.
  intros [k Hk] Hsid Hcall. unfold twilio_on_message, startFrame. rewrite Hk. simpl.
  unfold handle_start. simpl. rewrite Hsid, Hcall. simpl.
  unfold ElevenLabsClient_new. rewrite Hsid. rewrite !andThen_eq. simpl.
  split; [|split].
  - destruct configured; simpl; apply lookup_insert_eq.
  - intros sid' Hne. destruct configured; simpl; apply lookup_insert_ne; congruence.
  - destruct configured; reflexivity.
Qed.

(** C2 fails as stated: session [S1] has one queued frame when a second
    [start] for [S1] arrives; the entry is replaced by one with another
    client and an empty queue, and no line is logged. *)
Lemma duplicate_start_replaces_entry :
  let w := fst (run [TwilioConnect; TwilioFrame 0 (startFrame "S1" "C1" None) 0%Z;
                     TwilioFrame 0 (mediaFrame "a") 1%Z] initial) in
  let r := step (TwilioFrame 0 (startFrame "S1" "C1" None) 2%Z) w in
  activeConnections w !! "S1" = Some (mkConnection 0 1 false ["a"] 0%Z)
  ∧ activeConnections (fst r) !! "S1" = Some (mkConnection 0 2 false [] 2%Z)
  ∧ activeConnections (fst r) !! "S1" ≠ activeConnections w !! "S1"
  ∧ snd r = [].
Proof.
  vm_compute. repeat split; discriminate.
Qed.

(** C4 at its failing inputs. Session [S1] has two frames queued when
    the agent connection fails, once because the signed URL cannot be
    fetched and once because the socket does not open within ten
    seconds.  Both times the [.catch] callback only logs: [S1] is still
    registered, the two frames are still queued, nothing reached an
    agent socket. *)
Lemma connect_failure_keeps_session :
  let before := [TwilioConnect; TwilioFrame 0 (startFrame "S1" "C1" None) 0%Z] in
  let frames := [TwilioFrame 0 (mediaFrame "a") 1%Z; TwilioFrame 0 (mediaFrame "b") 2%Z] in
  let r1 := run (before ++ frames ++ [SignedUrl 1 false]) initial in
  let r2 := run (before ++ [SignedUrl 1 true] ++ frames ++ [ConnectTimeout 1]) initial in
  (activeConnections (fst r1) !! "S1" = Some (mkConnection 0 1 false ["a"; "b"] 0%Z)
   ∧ snd r1 = [ConsoleError "Error getting signed URL:";
               ConsoleError "Error starting conversation:";
               ConsoleError "Error starting conversation:"])
  ∧ (activeConnections (fst r2) !! "S1" = Some (mkConnection 0 1 false ["a"; "b"] 0%Z)
     ∧ call_promise <$> calls (fst r2) !! 1 = Some Rejected
     ∧ snd r2 = [ConsoleError "Error starting conversation:"]).
Proof.
  vm_compute. repeat split.
Qed.
End SessionStart.

(** ** The pending-audio queue *)

Section PendingAudio.
Import Standalone StandaloneFacts Scenario.
Implicit Types (w : World Connection) (c : ClientId) (s a : SockId)
  (e : Connection) (q : list string).

Lemma lastn_all {A : Type} n (l : list A) : length l ≤ n → lastn n l = l.
Proof. intros H. unfold lastn. replace (length l - n) with 0 by lia. apply drop_0. Qed.

Lemma lastn_length {A : Type} n (l : list A) : length (lastn n l) ≤ n.
Proof. unfold lastn. rewrite length_drop. lia. Qed.

Lemma lastn_app_lastn {A : Type} n (l k : list A) :
  lastn n (lastn n l ++ k) = lastn n (l ++ k).
Proof.
  destruct (decide (length l ≤ n)) as [Hle|Hgt].
  - rewrite (lastn_all n l Hle). reflexivity.
  - unfold lastn. rewrite !length_app, length_drop.
    replace (length l - (length l - n) + length k - n) with (length k) by lia.
    replace (length l + length k - n) with ((length l - n) + length k) by lia.
    rewrite <- drop_drop. rewrite (drop_app_le l k (length l - n)) by lia.
    reflexivity.
Qed.

Lemma enqueue_lastn p q : length q ≤ 50 → enqueue p q = lastn 50 (q ++ [p]).
Proof.
  intros Hq. unfold enqueue, lastn. rewrite length_app. simpl.
  destruct (50 <? length q + 1) eqn:Hlt.
  - apply Nat.ltb_lt in Hlt. replace (length q + 1 - 50) with 1 by lia.
    destruct q; reflexivity.
  - apply Nat.ltb_ge in Hlt. replace (length q + 1 - 50) with 0 by lia.
    reflexivity.
Qed.

(** Writing back what is there changes nothing. *)
Lemma requeue_same w sid e :
  activeConnections w !! sid = Some e →
  set_activeConnections (<[sid := conn_with_audioQueue (audioQueue e) e]>) w = w.
Proof.
  intros He. destruct w as [ac cls rs cs ks n cr]. destruct e as [t cl r q st].
  unfold set_activeConnections, conn_with_audioQueue. simpl in *.
  rewrite (insert_id ac sid _ He). reflexivity.
Qed.

Lemma queueing_requeue w s sid e q :
  queueing w s sid e →
  queueing (set_activeConnections (<[sid := conn_with_audioQueue q e]>) w)
           s sid (conn_with_audioQueue q e).
Proof.
  intros [H1 H2 H3 H4 H5]. split; simpl; try assumption.
  apply lookup_insert_eq.
Qed.

(** One media frame while the entry is not ready. *)
Lemma media_step_queueing w s sid e p now :
  queueing w s sid e →
  fst (step (TwilioFrame s (mediaFrame p) now) w)
    = (if nonempty p
       then set_activeConnections
              (<[sid := conn_with_audioQueue (enqueue p (audioQueue e)) e]>) w
       else w)
  ∧ ∀ b, sent_on b (snd (step (TwilioFrame s (mediaFrame p) now) w)) = [].
Proof.
  intros [Hlive Hcl Hsid He Hnr]. unfold step. rewrite Hlive. simpl.
  unfold twilio_on_message.
  destruct (closures w !! s) as [k|]; [|discriminate]. simpl in Hcl.
  unfold mediaFrame. simpl. rewrite Hcl. simpl. rewrite Hsid.
  unfold handle_media. simpl.
  destruct (nonempty p); [|split; reflexivity].
  rewrite He, Hnr, andThen_eq.
  match goal with |- context [if ?b then emit _ else skip] => destruct b end;
    simpl; split; reflexivity.
Qed.

(** A run of media frames while the entry is not ready: the queue ends
    up holding the last fifty truthy payloads, and nothing is sent. *)
Lemma media_run_queueing frames : ∀ w s sid e,
  queueing w s sid e →
  length (audioQueue e) ≤ 50 →
  fst (run (media_events s frames) w)
    = set_activeConnections
        (<[sid := conn_with_audioQueue (lastn 50 (audioQueue e ++ payloads frames)) e]>) w
  ∧ ∀ b, sent_on b (snd (run (media_events s frames) w)) = [].
Proof.
  induction frames as [|[p now] frames IH]; intros w s sid e Hq Hlen.
  - simpl. unfold payloads. simpl. rewrite app_nil_r, (lastn_all 50 _ Hlen).
    split; [|reflexivity]. symmetry. apply requeue_same, Hq.
  - change (media_events s ((p, now) :: frames))
      with (TwilioFrame s (mediaFrame p) now :: media_events s frames).
    rewrite run_cons, andThen_eq. simpl.
    destruct (media_step_queueing w s sid e p now Hq) as [Hst Hout].
    rewrite Hst. unfold payloads. simpl. fold (payloads frames).
    destruct (nonempty p) eqn:Hp.
    + pose proof (queueing_requeue w s sid e (enqueue p (audioQueue e)) Hq) as Hq1.
      destruct (IH _ s sid _ Hq1) as [IH1 IH2].
      { simpl. apply enqueue_length, Hlen. }
      split.
      * rewrite IH1. simpl. unfold set_activeConnections. simpl.
        rewrite insert_insert_eq.
        rewrite (enqueue_lastn p _ Hlen), lastn_app_lastn, <- app_assoc.
        reflexivity.
      * intros b. rewrite sent_on_app, Hout, IH2. reflexivity.
    + destruct (IH w s sid e Hq Hlen) as [IH1 IH2]. split.
      * exact IH1.
      * intros b. rewrite sent_on_app, Hout, IH2. reflexivity.
Qed.

(** C3. While the entry of a session is not ready, its queue never
    holds more than fifty payloads: after any run of media frames it
    holds the last fifty of what was queued before followed by the
    truthy payloads of the run, in arrival order, so only the oldest
    are dropped.  And whatever events follow, no queue of a reachable
    world ever exceeds fifty. *)
Theorem pending_queue_keeps_last_fifty w s sid e frames :
  reachable w →
  queueing w s sid e →
  (∃ e', activeConnections (fst (run (media_events s frames) w)) !! sid = Some e'
         ∧ audioQueue e' = lastn 50 (audioQueue e ++ payloads frames)
         ∧ length (audioQueue e') ≤ 50
         ∧ isReady e' = false)
  ∧ (∀ evs sid' e', activeConnections (fst (run evs w)) !! sid' = Some e' →
                    length (audioQueue e') ≤ 50).
Proof.
  intros Hr Hq. split.
  - assert (Hlen : length (audioQueue e) ≤ 50).
    { eapply wf_queues; [apply reachable_wf, Hr | apply Hq]. }
    destruct (media_run_queueing frames w s sid e Hq Hlen) as [Hst _].
    eexists. rewrite Hst. simpl. split; [apply lookup_insert_eq|].
    simpl. split; [reflexivity|]. split; [apply lastn_length | apply Hq].
  - intros evs sid' e'. apply wf_queues, reachable_wf, reachable_run, Hr.
Qed.
End PendingAudio.

Section Readiness.
Import Standalone StandaloneFacts Scenario.
Implicit Types (w : World Connection) (c : ClientId) (s a : SockId)
  (e : Connection) (q : list string).

Lemma awaiting_queueing w s sid c a e cl :
  awaiting w s sid c a e cl → queueing w s sid e.
Proof. intros H. split; apply H. Qed.

Lemma awaiting_requeue w s sid c a e cl q :
  awaiting w s sid c a e cl →
  awaiting (set_activeConnections (<[sid := conn_with_audioQueue q e]>) w)
           s sid c a (conn_with_audioQueue q e) cl.
Proof.
  intros H. split; simpl; try apply H. apply lookup_insert_eq.
Qed.

(** Draining on a connected client whose socket is open sends every
    payload, in order. *)
Lemma drain_connected w c cl a q :
  clients w !! c = Some cl →
  isConnected cl = true →
  ws cl = Some a →
  readyState w !! a = Some OPEN →
  forEach (sendAudio c) q w = (w, map (fun p => Send a (UserAudioChunk p)) q).
Proof.
  intros Hc Hcon Hws Hopen. rewrite drain_eq. f_equal.
  induction q as [|p q IH]; [reflexivity|].
  simpl. rewrite IH. unfold sendAudio at 1. rewrite Hc, Hcon, Hws, Hopen. reflexivity.
Qed.

Lemma sent_on_chunks a q :
  sent_on a (map (fun p => Send a (UserAudioChunk p)) q) = map UserAudioChunk q.
Proof.
  induction q as [|p q IH]; [reflexivity|].
  simpl. rewrite Nat.eqb_refl. simpl. f_equal. exact IH.
Qed.

(** The agent socket opens while the session is waiting for it. *)
Lemma agent_open_awaiting w s sid c a e cl :
  awaiting w s sid c a e cl →
  sent_on a (snd (step (AgentOpen c) w))
    = InitiationData (prompt cl) (firstMessage cl) :: map UserAudioChunk (audioQueue e)
  ∧ streaming (fst (step (AgentOpen c) w)) s sid c a
      (conn_with_audioQueue [] (conn_with_isReady true e))
      (client_with_isConnected true cl).
Proof.
  intros [Hlive Hcl Hsid He Hnr Hid Hc Hws Hkc Hkw Hkp Hconn].
  destruct (calls w !! c) as [k|] eqn:Hk; [|discriminate].
  simpl in Hkc, Hkw, Hkp. injection Hkc as Hkc. injection Hkp as Hkp.
  set (w1 := set_readyState (<[a := OPEN]>) w).
  set (cl1 := client_with_isConnected true cl).
  set (w2 := set_clients (<[c := cl1]>) w1).
  assert (Hopen : on_open c w1 = (w2, [Send a (InitiationData (prompt cl) (firstMessage cl))])).
  { unfold on_open. simpl. rewrite Hc, andThen_eq. simpl. rewrite Hws. reflexivity. }
  set (w3 := set_calls (alter (call_with_timer false) c) w2).
  set (k4 := call_with_promise Fulfilled (call_with_timer false k)).
  set (w4 := set_calls (<[c := k4]>) w3).
  set (e5 := conn_with_audioQueue [] (conn_with_isReady true e)).
  set (w5 := set_activeConnections (<[sid := e5]>) w4).
  assert (Hthen : start_then s c w4
                  = (w5, map (fun p => Send a (UserAudioChunk p)) (audioQueue e))).
  { unfold start_then. simpl. rewrite Hcl, He.
    destruct (audioQueue e) as [|p q] eqn:Hq.
    - simpl. unfold w5, e5. destruct e as [t ci r qq st]. simpl in *. subst qq. reflexivity.
    - change (0 <? length (p :: q)) with true. cbv iota. rewrite andThen_eq.
      match goal with |- context [forEach (sendAudio c) ?l ?v] =>
        rewrite (drain_connected v c cl1 a l) end.
      + reflexivity.
      + simpl. apply lookup_insert_eq.
      + reflexivity.
      + exact Hws.
      + simpl. apply lookup_insert_eq. }
  assert (Hres : resolve c w3
                 = (w5, map (fun p => Send a (UserAudioChunk p)) (audioQueue e))).
  { unfold resolve. simpl. rewrite lookup_alter_eq, Hk. simpl. rewrite Hkp.
    rewrite andThen_eq. simpl. fold k4. fold w4. rewrite Hkc, Hthen. reflexivity. }
  assert (Hstep : step (AgentOpen c) w
                  = (w5, Send a (InitiationData (prompt cl) (firstMessage cl))
                         :: map (fun p => Send a (UserAudioChunk p)) (audioQueue e))).
  { unfold step. rewrite Hlive. unfold dispatch, agent_socket. rewrite Hk.
    change (Some k ≫= call_ws) with (call_ws k). rewrite Hkw, Hconn.
    change (is_connecting (Some CONNECTING)) with true. cbv iota.
    rewrite (andThen_eq _ _ w), (andThen_eq _ _ w).
    change (fst (update (set_readyState (<[a := OPEN]>)) w)) with w1.
    rewrite Hopen. cbn [fst snd].
    change (crashed w2) with (crashed w). rewrite Hlive.
    rewrite andThen_eq.
    change (fst (clearTimeout c w2)) with w3. rewrite Hres. reflexivity. }
  rewrite Hstep. cbn [fst snd]. split.
  - simpl. rewrite Nat.eqb_refl. f_equal. apply sent_on_chunks.
  - split; simpl; try assumption; try reflexivity.
    + apply lookup_insert_eq.
    + apply lookup_insert_eq.
    + apply lookup_insert_eq.
Qed.
(** One media frame once the session streams. *)
Lemma media_step_streaming w s sid c a e cl p now :
  streaming w s sid c a e cl →
  step (TwilioFrame s (mediaFrame p) now) w
    = (w, if nonempty p then [Send a (UserAudioChunk p)] else []).
Proof.
  intros [Hlive Hcl Hsid He Hr Hq Hid Hc Hcon Hws Hopen].
  unfold step. rewrite Hlive. simpl. unfold twilio_on_message.
  destruct (closures w !! s) as [k|]; [|discriminate]. simpl in Hcl.
  unfold mediaFrame. simpl. rewrite Hcl. simpl. rewrite Hsid.
  unfold handle_media. simpl.
  destruct (nonempty p); [|reflexivity].
  rewrite He, Hr, Hid. unfold sendAudio. rewrite Hc, Hcon, Hws, Hopen. reflexivity.
Qed.

Lemma media_run_streaming w s sid c a e cl frames :
  streaming w s sid c a e cl →
  run (media_events s frames) w
    = (w, map (fun p => Send a (UserAudioChunk p)) (payloads frames)).
Proof.
  intros Hs. induction frames as [|[p now] frames IH]; [reflexivity|].
  change (media_events s ((p, now) :: frames))
    with (TwilioFrame s (mediaFrame p) now :: media_events s frames).
  rewrite run_cons, andThen_eq, (media_step_streaming w s sid c a e cl p now Hs).
  cbn [fst snd]. rewrite IH. unfold payloads. simpl.
  destruct (nonempty p); reflexivity.
Qed.

Lemma run_app evs1 evs2 w : run (evs1 ++ evs2) w = (run evs1 >> run evs2) w.
Proof. apply forEach_app. Qed.

(** A session is waiting for its agent socket.  Media frames [pre]
    arrive, the socket opens, media frames [post] arrive.  What is sent
    on the agent socket is the handshake, then the queued payloads in
    arrival order, then the payloads of [post] in arrival order. *)
Lemma forwarded_once_connected w s sid c a e cl pre post :
  reachable w →
  awaiting w s sid c a e cl →
  let r := run (media_events s pre ++ AgentOpen c :: media_events s post) w in
  sent_on a (snd r)
    = InitiationData (prompt cl) (firstMessage cl)
      :: map UserAudioChunk (lastn 50 (audioQueue e ++ payloads pre) ++ payloads post)
  ∧ streaming (fst r) s sid c a
      (conn_with_audioQueue [] (conn_with_isReady true e))
      (client_with_isConnected true cl).
Proof.
  intros Hr Haw r. subst r.
  assert (Hlen : length (audioQueue e) ≤ 50).
  { eapply wf_queues; [apply reachable_wf, Hr | apply Haw]. }
  destruct (media_run_queueing pre w s sid e (awaiting_queueing _ _ _ _ _ _ _ Haw) Hlen)
    as [Hpre Hout].
  set (q1 := lastn 50 (audioQueue e ++ payloads pre)) in *.
  pose proof (awaiting_requeue w s sid c a e cl q1 Haw) as Haw1.
  rewrite <- Hpre in Haw1.
  destruct (agent_open_awaiting _ s sid c a _ cl Haw1) as [Hsent Hstr].
  rewrite run_app, andThen_eq, run_cons, andThen_eq.
  rewrite (media_run_streaming _ s sid c a _ _ post Hstr).
  cbn [fst snd]. split.
  - rewrite !sent_on_app, Hout, Hsent, sent_on_chunks. simpl.
    rewrite map_app. reflexivity.
  - exact Hstr.
Qed.
Lemma starting_queueing w s sid c e cl :
  starting w s sid c e cl → queueing w s sid e.
Proof. intros H. split; apply H. Qed.

Lemma starting_requeue w s sid c e cl q :
  starting w s sid c e cl →
  starting (set_activeConnections (<[sid := conn_with_audioQueue q e]>) w)
           s sid c (conn_with_audioQueue q e) cl.
Proof.
  intros H. split; simpl; try apply H. apply lookup_insert_eq.
Qed.

(** The signed URL arrives: the client gets its socket, which starts
    connecting; the registry is not touched. *)
Lemma signed_url_starting w s sid c e cl :
  starting w s sid c e cl →
  snd (step (SignedUrl c true) w) = []
  ∧ awaiting (fst (step (SignedUrl c true) w)) s sid c (nextId w) e
             (client_with_ws (Some (nextId w)) cl).
Proof.
  intros [Hlive Hcl Hsid He Hnr Hid Hc [t Hk]].
  unfold step. rewrite Hlive. simpl. rewrite Hk.
  unfold startConversation_connect. rewrite Hc, !andThen_eq. simpl.
  split; [reflexivity|].
  split; simpl; try assumption; try reflexivity.
  - apply lookup_insert_eq.
  - rewrite lookup_alter_eq, Hk. reflexivity.
  - rewrite lookup_alter_eq, Hk. reflexivity.
  - rewrite lookup_alter_eq, Hk. reflexivity.
  - apply lookup_insert_eq.
Qed.

(** C1. A session has started.  Media frames [pre1] arrive while the
    signed URL is fetched, media frames [pre2] while the agent socket
    (a fresh object, [nextId w]) connects; the socket opens; media
    frames [post] arrive.  What is sent on the agent socket is the
    handshake, then the queued payloads in arrival order (the last fifty
    of what was queued), then the payloads of [post] in arrival order,
    each once.  Afterwards the entry is ready and its queue is empty,
    however many frames came after readiness. *)
Theorem queued_audio_forwarded_in_order w s sid c e cl pre1 pre2 post :
  reachable w →
  starting w s sid c e cl →
  let r := run (media_events s pre1
                ++ SignedUrl c true :: media_events s pre2
                ++ AgentOpen c :: media_events s post) w in
  sent_on (nextId w) (snd r)
    = InitiationData (prompt cl) (firstMessage cl)
      :: map UserAudioChunk
           (lastn 50 (audioQueue e ++ payloads pre1 ++ payloads pre2) ++ payloads post)
  ∧ streaming (fst r) s sid c (nextId w)
      (conn_with_audioQueue [] (conn_with_isReady true e))
      (client_with_isConnected true (client_with_ws (Some (nextId w)) cl)).
Proof.
  intros Hr Hsg r. subst r.
  assert (Hlen : length (audioQueue e) ≤ 50).
  { eapply wf_queues; [apply reachable_wf, Hr | apply Hsg]. }
  destruct (media_run_queueing pre1 w s sid e (starting_queueing _ _ _ _ _ _ Hsg) Hlen)
    as [Hpre Hout].
  set (q1 := lastn 50 (audioQueue e ++ payloads pre1)) in *.
  pose proof (starting_requeue w s sid c e cl q1 Hsg) as Hsg1.
  rewrite <- Hpre in Hsg1.
  destruct (signed_url_starting _ s sid c _ cl Hsg1) as [Hnone Haw].
  assert (Hr1 : reachable (fst (step (SignedUrl c true)
                                  (fst (run (media_events s pre1) w))))).
  { constructor. apply reachable_run, Hr. }
  pose proof (forwarded_once_connected _ s sid c _ _ _ pre2 post Hr1 Haw) as [Hsent Hstr].
  assert (Hn : nextId (fst (run (media_events s pre1) w)) = nextId w)
    by (rewrite Hpre; reflexivity).
  rewrite Hn in Hsent, Hstr.
  rewrite run_app, andThen_eq, run_cons, andThen_eq. cbn [fst snd]. split.
  - rewrite !sent_on_app, Hout, Hnone. simpl. rewrite Hsent. simpl.
    unfold q1. rewrite lastn_app_lastn, <- app_assoc. reflexivity.
  - exact Hstr.
Qed.
End Readiness.

(** ** The statements at concrete sessions *)

Section Instances.
Import Standalone StandaloneFacts Scenario.

(** C6 fails as stated. Session [S1] is up. A [ping] whose [event_id]
    is the number 0 gets no answer at all; and once [stop] has ended the
    conversation, a [ping] with [event_id] "abc123" that still arrives
    on the closing agent socket gets a [console.error] line and no
    [pong]. *)
Lemma ping_left_without_pong :
  let up := fst (run (session_up "S1" "C1") initial) in
  let stopped := fst (step (TwilioFrame 0 stopFrame 5%Z) up) in
  let ping eid := AgentFrame 1 (pingFrame None None (Some (mkPingEvent (Some eid)))) in
  snd (step (ping (JNum 0)) up) = []
  ∧ snd (step (ping (JStr "abc123")) stopped)
    = [ConsoleError "[ElevenLabs] Error processing message:"]
  ∧ List.filter is_pong (sent_on 2 (snd (step (ping (JNum 0)) up))) ≠ [Pong (JNum 0)]
  ∧ List.filter is_pong (sent_on 2 (snd (step (ping (JStr "abc123")) stopped)))
    ≠ [Pong (JStr "abc123")].
Proof.
  vm_compute. repeat split; discriminate.
Qed.

Lemma ping_answered_by_pong_witness :
  let up := fst (run (session_up "S1" "C1") initial) in
  let cl := mkClient "S1" 0 default_prompt default_firstMessage (Some 2) true in
  (clients up !! 1 = Some cl ∧ ws cl = Some 2 ∧ truthy (JStr "abc123") = true)
  ∧ on_message 1 (pingFrame None None (Some (mkPingEvent (Some (JStr "abc123"))))) up
    = (up, [Send 2 (Pong (JStr "abc123"))]).
Proof.
  intros up cl.
  assert (H1 : clients up !! 1 = Some cl) by (vm_compute; reflexivity).
  assert (H2 : ws cl = Some 2) by reflexivity.
  assert (H3 : truthy (JStr "abc123") = true) by reflexivity.
  split; [repeat split; assumption|].
  apply (ping_answered_by_pong up 1 cl 2 (JStr "abc123") None None H1 H2 H3).
Defined.

Lemma ping_without_event_id_ignored_witness :
  let up := fst (run (session_up "S1" "C1") initial) in
  (@None PingEvent ≫= ping_event_id = None
   ∧ Some (mkPingEvent None) ≫= ping_event_id = None)
  ∧ on_message 1 (pingFrame None None None) up = (up, [])
  ∧ on_message 1 (pingFrame None None (Some (mkPingEvent None))) up = (up, []).
Proof.
  intros up. split; [split; reflexivity|]. split.
  - apply (ping_without_event_id_ignored up 1 None None None). reflexivity.
  - apply (ping_without_event_id_ignored up 1 None None (Some (mkPingEvent None))).
    reflexivity.
Defined.

Lemma interruption_sends_one_clear_witness :
  let up := fst (run (session_up "S1" "C1") initial) in
  let cl := mkClient "S1" 0 default_prompt default_firstMessage (Some 2) true in
  let audio := Js (mkAgentMessage (Some "audio") (Some (mkAudioInfo (Some "QUJD"))) None None) in
  (reachable up ∧ clients up !! 1 = Some cl)
  ∧ on_message 1 (interruptionFrame None None None) up = (up, [Send 0 (Clear "S1")])
  ∧ forEach (on_message 1) ([audio] ++ interruptionFrame None None None :: [audio]) up
    = (up, snd (forEach (on_message 1) [audio] up)
           ++ [Send 0 (Clear "S1")]
           ++ snd (forEach (on_message 1) [audio] up)).
Proof.
  intros up cl audio.
  assert (H1 : reachable up) by (apply reachable_run, reach_initial).
  assert (H2 : clients up !! 1 = Some cl) by (vm_compute; reflexivity).
  split; [split; assumption|].
  apply (interruption_sends_one_clear up 1 cl None None None [audio] [audio] H1 H2).
Defined.

Lemma malformed_frame_only_logged_witness :
  let up := fst (run (session_up "S1" "C1") initial) in
  let later := [TwilioFrame 0 (mediaFrame "QUJD") 9%Z] in
  crashed up = false
  ∧ run (TwilioFrame 0 SyntaxError 5%Z :: later) up
    = (fst (run later up),
       ConsoleError "Error processing WebSocket message:" :: snd (run later up))
  ∧ run (AgentFrame 1 SyntaxError :: later) up
    = (fst (run later up),
       ConsoleError "[ElevenLabs] Error processing message:" :: snd (run later up)).
Proof.
  intros up later.
  assert (H0 : crashed up = false) by reflexivity.
  destruct (malformed_frame_only_logged up later H0) as [Ht [Ha _]].
  split; [exact H0|]. split.
  - apply Ht. exists (mkClosure (Some "S1") (Some "C1")). vm_compute. reflexivity.
  - apply (Ha 1 2).
    + exists (mkClient "S1" 0 default_prompt default_firstMessage (Some 2) true).
      vm_compute. reflexivity.
    + vm_compute. reflexivity.
    + vm_compute. reflexivity.
Defined.

Lemma completion_mark_iff_signaling_open_witness :
  let cl := mkClient "S1" 0 "prompt" "hello" (Some 2) true in
  let w : World Compiled.Link :=
    mkWorld (<["S1" := Compiled.mkLink 0 1]> ∅) (<[1 := cl]> ∅)
            (<[0 := OPEN]> (<[2 := OPEN]> ∅)) ∅ ∅ 3 false in
  (activeConnections w !! "S1" = Some (Compiled.mkLink 0 1)
   ∧ clients w !! 1 = Some cl
   ∧ ws cl ≠ Some (twilioSocket cl))
  ∧ sent_on 0 (snd (Compiled.on_stop "S1" w)) = [Mark "S1" "conversation-complete"]
  ∧ closings (snd (Compiled.on_stop "S1" w))
    = [CloseWith 2 1000 "Conversation ended by user or system"]
  ∧ activeConnections (fst (Compiled.on_stop "S1" w)) !! "S1" = None
  ∧ again 3 (Compiled.on_stop "S1") (fst (Compiled.on_stop "S1" w))
    = (fst (Compiled.on_stop "S1" w), [])
  ∧ readyState (fst (Compiled.on_stop "S1" w)) !! 0 = readyState w !! 0
  ∧ snd (Compiled.on_stop "S1" w)
    = closings (snd (Compiled.on_stop "S1" w))
      ++ map (Send 0) (sent_on 0 (snd (Compiled.on_stop "S1" w))).
Proof.
  intros cl w.
  assert (H1 : activeConnections w !! "S1" = Some (Compiled.mkLink 0 1))
    by (vm_compute; reflexivity).
  assert (H2 : clients w !! 1 = Some cl) by (vm_compute; reflexivity).
  assert (H3 : ws cl ≠ Some (twilioSocket cl)) by (simpl; discriminate).
  split; [repeat split; assumption|].
  exact (completion_mark_iff_signaling_open "S1" (Compiled.mkLink 0 1) cl 3 w H1 H2 H3).
Defined.

Lemma start_registers_fresh_entry_witness :
  let w := fst (run [TwilioConnect; TwilioFrame 0 (startFrame "S1" "C1" None) 0%Z;
                     TwilioFrame 0 (mediaFrame "a") 1%Z] initial) in
  let r := twilio_on_message false 0 (startFrame "S1" "C1" None) 2%Z w in
  (is_Some (closures w !! 0) ∧ nonempty "S1" = true ∧ nonempty "C1" = true)
  ∧ activeConnections (fst r) !! "S1" = Some (mkConnection 0 (nextId w) false [] 2%Z)
  ∧ (∀ sid', sid' ≠ "S1" → activeConnections (fst r) !! sid' = activeConnections w !! sid')
  ∧ snd r = [ConsoleError "Error getting signed URL:"].
Proof.
  intros w r.
  assert (H1 : is_Some (closures w !! 0)).
  { exists (mkClosure (Some "S1") (Some "C1")). vm_compute. reflexivity. }
  assert (H2 : nonempty "S1" = true) by reflexivity.
  assert (H3 : nonempty "C1" = true) by reflexivity.
  split; [repeat split; assumption|].
  exact (start_registers_fresh_entry false w 0 "S1" "C1" None 2%Z H1 H2 H3).
Defined.

Lemma pending_queue_keeps_last_fifty_witness :
  let w := fst (run [TwilioConnect; TwilioFrame 0 (startFrame "S1" "C1" None) 0%Z] initial) in
  let e := mkConnection 0 1 false [] 0%Z in
  (reachable w ∧ queueing w 0 "S1" e)
  ∧ ∃ e', activeConnections (fst (run (media_events 0 fifty_two_frames) w)) !! "S1" = Some e'
          ∧ audioQueue e' = lastn 50 (audioQueue e ++ payloads fifty_two_frames)
          ∧ length (audioQueue e') ≤ 50
          ∧ isReady e' = false.
Proof.
  intros w e.
  assert (H1 : reachable w) by (apply reachable_run, reach_initial).
  assert (H2 : queueing w 0 "S1" e) by (split; vm_compute; reflexivity).
  split; [split; assumption|].
  exact (proj1 (pending_queue_keeps_last_fifty w 0 "S1" e fifty_two_frames H1 H2)).
Defined.

(** The same run, computed: the two oldest payloads are gone. *)
Lemma fifty_two_frames_queue :
  let w := fst (run [TwilioConnect; TwilioFrame 0 (startFrame "S1" "C1" None) 0%Z] initial) in
  audioQueue <$> activeConnections (fst (run (media_events 0 fifty_two_frames) w)) !! "S1"
    = Some (drop 2 (map fst fifty_two_frames)).
Proof. vm_compute. reflexivity. Qed.

Lemma queued_audio_forwarded_in_order_witness :
  let w := fst (run [TwilioConnect; TwilioFrame 0 (startFrame "S1" "C1" None) 0%Z] initial) in
  let e := mkConnection 0 1 false [] 0%Z in
  let cl := mkClient "S1" 0 default_prompt default_firstMessage None false in
  let pre1 := [("a", 1%Z)] in
  let pre2 := [("b", 2%Z); ("c", 3%Z)] in
  let post := [("d", 4%Z); ("e", 5%Z)] in
  let r := run (media_events 0 pre1
                ++ SignedUrl 1 true :: media_events 0 pre2
                ++ AgentOpen 1 :: media_events 0 post) w in
  (reachable w ∧ starting w 0 "S1" 1 e cl)
  ∧ sent_on (nextId w) (snd r)
    = InitiationData default_prompt default_firstMessage
      :: map UserAudioChunk
           (lastn 50 (audioQueue e ++ payloads pre1 ++ payloads pre2) ++ payloads post)
  ∧ streaming (fst r) 0 "S1" 1 (nextId w)
      (conn_with_audioQueue [] (conn_with_isReady true e))
      (client_with_isConnected true (client_with_ws (Some (nextId w)) cl)).
Proof.
  intros w e cl pre1 pre2 post r.
  assert (H1 : reachable w) by (apply reachable_run, reach_initial).
  assert (H2 : starting w 0 "S1" 1 e cl).
  { split; try (vm_compute; reflexivity). exists false. vm_compute. reflexivity. }
  split; [split; assumption|].
  exact (queued_audio_forwarded_in_order w 0 "S1" 1 e cl pre1 pre2 post H1 H2).
Defined.

(** The scenario of three queued frames, computed. *)
Lemma three_queued_frames_then_ready :
  let w := fst (run (session_connecting "S1" "C1") initial) in
  let pre := [("a", 1%Z); ("b", 2%Z); ("c", 3%Z)] in
  let post := [("d", 4%Z)] in
  snd (run (media_events 0 pre ++ AgentOpen 1 :: media_events 0 post) w)
    = [Send 2 (InitiationData default_prompt default_firstMessage);
       Send 2 (UserAudioChunk "a"); Send 2 (UserAudioChunk "b");
       Send 2 (UserAudioChunk "c"); Send 2 (UserAudioChunk "d")].
Proof. vm_compute. reflexivity. Qed.
End Instances.

(** * Further properties of the stand-alone server *)

Section Outside.
Import Standalone StandaloneFacts Scenario.
Implicit Types (w : World Connection) (c : ClientId) (s a : SockId)
  (e : Connection) (k : Closure).

Lemma non_start_frame_outside b w s k m now :
  closures w !! s = Some k →
  session_of w k = None →
  event_is m "start" = false →
  twilio_on_message b s (Js m) now w = (w, []).
Proof.
  intros Hk Hnone Hns. unfold twilio_on_message. rewrite Hk, Hns.
  unfold session_of in Hnone.
  destruct (truthy_str (cl_streamSid k)); rewrite ?andb_false_r, ?andb_true_r.
  - unfold handle_media, teardown. rewrite Hnone.
    destruct (event_is m "media"); [destruct (truthy_str _)|destruct (event_is m "stop")];
      reflexivity.
  - reflexivity.
Qed.

Lemma close_outside w s k :
  closures w !! s = Some k → session_of w k = None → twilio_on_close s w = (w, []).
Proof.
  intros Hk Hnone. unfold twilio_on_close. rewrite Hk. unfold session_of in Hnone.
  destruct (truthy_str (cl_streamSid k)); [|reflexivity].
  unfold teardown. rewrite Hnone. reflexivity.
Qed.

Lemma frames_outside w s k frames :
  crashed w = false →
  closures w !! s = Some k →
  session_of w k = None →
  Forall (fun f => event_is (fst f) "start" = false) frames →
  run (frame_events s frames) w = (w, []).
Proof.
  intros Hlive Hk Hnone Hall. induction Hall as [|[m now] frames Hm _ IH]; [reflexivity|].
  change (frame_events s ((m, now) :: frames))
    with (TwilioFrame s (Js m) now :: frame_events s frames).
  assert (Hstep : step (TwilioFrame s (Js m) now) w = (w, [])).
  { unfold step. rewrite Hlive. simpl.
    apply (non_start_frame_outside true w s k m now Hk Hnone Hm). }
  rewrite run_cons, andThen_eq, Hstep. cbn [fst snd]. rewrite IH. reflexivity.
Qed.

(** X1. Frames outside a session are ignored. When the connection has no
    truthy [streamSid] yet, or the [streamSid] it has is not registered
    (any more), any run of frames that are not [start] frames, media and
    stop included, changes nothing, sends nothing and logs no warning or
    error, and so does the closing of the connection. *)
Theorem frames_outside_session_ignored w s k frames :
  crashed w = false →
  closures w !! s = Some k →
  session_of w k = None →
  Forall (fun f => event_is (fst f) "start" = false) frames →
  run (frame_events s frames) w = (w, [])
  ∧ twilio_on_close s w = (w, []).
Proof.
  intros Hlive Hk Hnone Hall. split.
  - apply (frames_outside w s k frames Hlive Hk Hnone Hall).
  - apply (close_outside w s k Hk Hnone).
Qed.

(** The effects of [endConversation] of the client [c]. *)
Lemma endConversation_effects w c :
  snd (endConversation c w)
  = match clients w !! c ≫= ws with
    | Some a => if is_open (readyState w !! a) then [Close a] else []
    | None => []
    end.
Proof.
  unfold endConversation. destruct (clients w !! c) as [cl|]; [|reflexivity]. simpl.
  destruct (ws cl) as [a|]; [|reflexivity]. rewrite andThen_eq. simpl.
  destruct (is_open _); reflexivity.
Qed.

Lemma endConversation_closures w c :
  closures (fst (endConversation c w)) = closures w
  ∧ crashed (fst (endConversation c w)) = crashed w.
Proof.
  unfold endConversation. destruct (clients w !! c) as [cl|]; [|split; reflexivity].
  destruct (ws cl) as [a|]; [|split; reflexivity]. rewrite andThen_eq. simpl.
  destruct (is_open _); split; reflexivity.
Qed.

Lemma media_frames_not_start s frames :
  media_events s frames
  = frame_events s (map (fun f => (mkTwilioMessage (Some "media") None
                                     (Some (mkMediaInfo (Some (fst f)))), snd f)) frames).
Proof.
  unfold media_events, frame_events. rewrite map_map. reflexivity.
Qed.

(** X2. A [stop] frame ends the session of its connection: the entry
    leaves the registry, the other entries stay, the agent socket of the
    client gets one [close()] when it is open and nothing when it is
    not, no frame is sent to anyone (the stand-alone server sends no
    completion mark); and every media frame that still arrives on the
    connection afterwards is dropped: nothing is sent and no warning is
    logged. *)
Theorem stop_ends_session w s k sid e now frames :
  crashed w = false →
  closures w !! s = Some k →
  cl_streamSid k = Some sid →
  nonempty sid = true →
  activeConnections w !! sid = Some e →
  let r := step (TwilioFrame s stopFrame now) w in
  activeConnections (fst r) !! sid = None
  ∧ (∀ sid', sid' ≠ sid → activeConnections (fst r) !! sid' = activeConnections w !! sid')
  ∧ snd r = match clients w !! elevenLabsClient e ≫= ws with
            | Some a => if is_open (readyState w !! a) then [Close a] else []
            | None => []
            end
  ∧ run (media_events s frames) (fst r) = (fst r, []).
Proof.
  intros Hlive Hk Hsid Hne He r.
  assert (Hr : r = (endConversation (elevenLabsClient e)
                    >> update (set_activeConnections (delete sid))) w).
  { unfold r, step. rewrite Hlive. simpl. unfold twilio_on_message. rewrite Hk. simpl.
    rewrite Hsid. simpl. rewrite Hne. unfold teardown. rewrite He. reflexivity. }
  rewrite andThen_eq in Hr. rewrite Hr. cbn [fst snd].
  destruct (endConversation_closures w (elevenLabsClient e)) as [Hcl Hcr].
  split; [|split; [|split]].
  - simpl. apply lookup_delete_eq.
  - intros sid' Hd. simpl. rewrite lookup_delete_ne by congruence.
    rewrite standalone_endConversation_registry. reflexivity.
  - simpl. rewrite app_nil_r. apply endConversation_effects.
  - rewrite media_frames_not_start. apply (frames_outside _ s k).
    + simpl. rewrite Hcr. exact Hlive.
    + simpl. rewrite Hcl. exact Hk.
    + unfold session_of. rewrite Hsid. simpl. rewrite Hne. simpl. apply lookup_delete_eq.
    + apply Forall_forall. intros f Hf. apply list_elem_of_fmap in Hf as [f' [-> _]].
      reflexivity.
Qed.
End Outside.

Section AgentLoss.
Import Standalone StandaloneFacts Scenario.
Implicit Types (w : World Connection) (c : ClientId) (s a : SockId)
  (e : Connection) (k : Closure).

(** One media frame on a ready session whose client is not connected. *)
Lemma media_step_disconnected w s k sid e cl p now :
  crashed w = false →
  closures w !! s = Some k →
  cl_streamSid k = Some sid →
  nonempty sid = true →
  activeConnections w !! sid = Some e →
  isReady e = true →
  clients w !! elevenLabsClient e = Some cl →
  isConnected cl = false →
  step (TwilioFrame s (mediaFrame p) now) w
    = (w, if nonempty p
          then [ConsoleWarn "Cannot send audio: WebSocket not connected"] else []).
Proof.
  intros Hlive Hk Hsid Hne He Hr Hc Hcon. unfold step. rewrite Hlive. simpl.
  unfold twilio_on_message. rewrite Hk. unfold mediaFrame. simpl.
  rewrite Hsid. simpl. rewrite Hne. unfold handle_media. simpl.
  destruct (nonempty p); [|reflexivity].
  rewrite He, Hr. unfold sendAudio. rewrite Hc, Hcon. reflexivity.
Qed.

(** X3. When the agent socket of a streaming session closes, the session
    is not ended: its entry stays registered and ready, the closing
    itself sends nothing and logs no warning or error, and from then on
    every media frame of the caller is dropped with the warning that the
    socket is not connected. *)
Theorem agent_close_drops_audio w s sid c a e cl frames :
  streaming w s sid c a e cl →
  agent_socket w c = Some a →
  let r := step (AgentClose c) w in
  snd r = []
  ∧ activeConnections (fst r) = activeConnections w
  ∧ isConnected <$> clients (fst r) !! c = Some false
  ∧ run (media_events s frames) (fst r)
    = (fst r, map (fun _ => ConsoleWarn "Cannot send audio: WebSocket not connected")
                  (payloads frames)).
Proof.
  intros [Hlive Hcl Hsid He Hr Hq Hid Hc Hcon Hws Hopen] Hsock r.
  assert (Hstep : r = (set_clients (<[c := client_with_isConnected false cl]>)
                         (set_readyState (<[a := CLOSED]>) w), [])).
  { unfold r, step. rewrite Hlive. unfold dispatch. rewrite Hsock, Hopen.
    change (is_closed (Some OPEN)) with false. cbv iota.
    rewrite andThen_eq. unfold on_close. simpl. rewrite Hc. reflexivity. }
  rewrite Hstep. cbn [fst snd]. repeat split.
  - simpl. rewrite lookup_insert_eq. reflexivity.
  - destruct (closures w !! s) as [k|] eqn:Hk; [|discriminate]. simpl in Hcl.
    induction frames as [|[p now] frames IH]; [reflexivity|].
    change (media_events s ((p, now) :: frames))
      with (TwilioFrame s (mediaFrame p) now :: media_events s frames).
    rewrite run_cons, andThen_eq.
    rewrite (media_step_disconnected _ s k sid e (client_with_isConnected false cl) p now);
      try assumption; try reflexivity.
    + cbn [fst snd]. rewrite IH. unfold payloads. simpl.
      destruct (nonempty p); reflexivity.
    + simpl. rewrite Hid. apply lookup_insert_eq.
Qed.

(** X4. A [start] frame without a truthy [streamSid] costs one
    [console.error] line and registers nothing, but it overwrites the
    [streamSid] of the connection.  Whatever session the connection had
    started before stays in the registry, and the connection can no
    longer reach it: every later frame that is not a [start] frame, stop
    included, and the closing of the connection do nothing. *)
Theorem start_without_streamSid_orphans_session w s k st now frames :
  crashed w = false →
  closures w !! s = Some k →
  truthy_str (st ≫= start_streamSid) = false →
  Forall (fun f => event_is (fst f) "start" = false) frames →
  let r := step (TwilioFrame s (Js (mkTwilioMessage (Some "start") st None)) now) w in
  snd r = [ConsoleError "Missing streamSid or callSid in start event"]
  ∧ activeConnections (fst r) = activeConnections w
  ∧ clients (fst r) = clients w
  ∧ run (frame_events s frames) (fst r) = (fst r, [])
  ∧ twilio_on_close s (fst r) = (fst r, []).
Proof.
  intros Hlive Hk Hsid Hall r.
  assert (Hstep : r = (set_closures (<[s := mkClosure (st ≫= start_streamSid)
                                              (st ≫= start_callSid)]>) w,
                       [ConsoleError "Missing streamSid or callSid in start event"])).
  { unfold r, step. rewrite Hlive. simpl. unfold twilio_on_message. rewrite Hk. simpl.
    unfold handle_start. simpl. rewrite Hsid. reflexivity. }
  rewrite Hstep. cbn [fst snd].
  set (w1 := set_closures (<[s := mkClosure (st ≫= start_streamSid)
                                   (st ≫= start_callSid)]>) w).
  assert (Hk' : closures w1 !! s
                = Some (mkClosure (st ≫= start_streamSid) (st ≫= start_callSid)))
    by apply lookup_insert_eq.
  assert (Hnone : session_of w1 (mkClosure (st ≫= start_streamSid) (st ≫= start_callSid))
                  = None).
  { unfold session_of. simpl. rewrite Hsid. reflexivity. }
  split; [reflexivity|]. split; [reflexivity|]. split; [reflexivity|]. split.
  - apply (frames_outside w1 s _ frames Hlive Hk' Hnone Hall).
  - apply (close_outside w1 s _ Hk' Hnone).
Qed.
End AgentLoss.

Section Lifecycle.
Import Standalone StandaloneFacts Scenario.
Implicit Types (w : World Connection) (c : ClientId) (s a : SockId)
  (e : Connection) (k : Closure).

Lemma or_default_nonempty o d : nonempty d = true → nonempty (or_default o d) = true.
Proof.
  intros Hd. unfold or_default. destruct o as [x|]; [|exact Hd].
  destruct (nonempty x) eqn:Hx; [exact Hx | exact Hd].
Qed.

Lemma or_default_again o d :
  nonempty d = true → or_default (Some (or_default o d)) d = or_default o d.
Proof.
  intros Hd. unfold or_default at 1. rewrite (or_default_nonempty o d Hd). reflexivity.
Qed.

(** A [start] frame with truthy identifiers on a live connection. *)
Lemma start_establishes w s k sid callSid params now :
  crashed w = false →
  closures w !! s = Some k →
  nonempty sid = true →
  nonempty callSid = true →
  let r := step (TwilioFrame s (startFrame sid callSid params) now) w in
  snd r = []
  ∧ nextId (fst r) = S (nextId w)
  ∧ starting (fst r) s sid (nextId w) (mkConnection s (nextId w) false [] now)
      (mkClient sid s (or_default (params ≫= cp_prompt) default_prompt)
         (or_default (params ≫= cp_first_message) default_firstMessage) None false).
Proof.
  intros Hlive Hk Hsid Hcall r.
  assert (Hr : r = twilio_on_message true s (startFrame sid callSid params) now w).
  { unfold r, step. rewrite Hlive. reflexivity. }
  rewrite Hr. unfold twilio_on_message, startFrame. rewrite Hk. simpl.
  unfold handle_start. simpl. rewrite Hsid, Hcall. simpl.
  unfold ElevenLabsClient_new. rewrite Hsid.
  rewrite !or_default_again by reflexivity.
  rewrite !andThen_eq. simpl.
  split; [reflexivity|]. split; [reflexivity|].
  split; simpl; try assumption; try reflexivity.
  - rewrite lookup_insert_eq. reflexivity.
  - apply lookup_insert_eq.
  - apply lookup_insert_eq.
  - exists false. apply lookup_insert_eq.
Qed.

(** The effects of the opening of the agent socket of a waiting
    session: the handshake, then the queue. *)
Lemma agent_open_effects w s sid c a e cl :
  awaiting w s sid c a e cl →
  snd (step (AgentOpen c) w)
    = Send a (InitiationData (prompt cl) (firstMessage cl))
      :: map (fun p => Send a (UserAudioChunk p)) (audioQueue e).
Proof.
  intros [Hlive Hcl Hsid He Hnr Hid Hc Hws Hkc Hkw Hkp Hconn].
  destruct (calls w !! c) as [k|] eqn:Hk; [|discriminate].
  simpl in Hkc, Hkw, Hkp. injection Hkc as Hkc. injection Hkp as Hkp.
  set (w1 := set_readyState (<[a := OPEN]>) w).
  set (cl1 := client_with_isConnected true cl).
  set (w2 := set_clients (<[c := cl1]>) w1).
  assert (Hopen : on_open c w1 = (w2, [Send a (InitiationData (prompt cl) (firstMessage cl))])).
  { unfold on_open. simpl. rewrite Hc, andThen_eq. simpl. rewrite Hws. reflexivity. }
  set (w3 := set_calls (alter (call_with_timer false) c) w2).
  set (k4 := call_with_promise Fulfilled (call_with_timer false k)).
  set (w4 := set_calls (<[c := k4]>) w3).
  set (e5 := conn_with_audioQueue [] (conn_with_isReady true e)).
  set (w5 := set_activeConnections (<[sid := e5]>) w4).
  assert (Hthen : start_then s c w4
                  = (w5, map (fun p => Send a (UserAudioChunk p)) (audioQueue e))).
  { unfold start_then. simpl. rewrite Hcl, He.
    destruct (audioQueue e) as [|p q] eqn:Hq.
    - simpl. unfold w5, e5. destruct e as [t ci r qq st]. simpl in *. subst qq. reflexivity.
    - change (0 <? length (p :: q)) with true. cbv iota. rewrite andThen_eq.
      match goal with |- context [forEach (sendAudio c) ?l ?v] =>
        rewrite (drain_connected v c cl1 a l) end.
      + reflexivity.
      + simpl. apply lookup_insert_eq.
      + reflexivity.
      + exact Hws.
      + simpl. apply lookup_insert_eq. }
  assert (Hres : resolve c w3
                 = (w5, map (fun p => Send a (UserAudioChunk p)) (audioQueue e))).
  { unfold resolve. simpl. rewrite lookup_alter_eq, Hk. simpl. rewrite Hkp.
    rewrite andThen_eq. simpl. fold k4. fold w4. rewrite Hkc, Hthen. reflexivity. }
  assert (Hstep : step (AgentOpen c) w
                  = (w5, Send a (InitiationData (prompt cl) (firstMessage cl))
                         :: map (fun p => Send a (UserAudioChunk p)) (audioQueue e))).
  { unfold step. rewrite Hlive. unfold dispatch, agent_socket. rewrite Hk.
    change (Some k ≫= call_ws) with (call_ws k). rewrite Hkw, Hconn.
    change (is_connecting (Some CONNECTING)) with true. cbv iota.
    rewrite (andThen_eq _ _ w), (andThen_eq _ _ w).
    change (fst (update (set_readyState (<[a := OPEN]>)) w)) with w1.
    rewrite Hopen. cbn [fst snd].
    change (crashed w2) with (crashed w). rewrite Hlive.
    rewrite andThen_eq.
    change (fst (clearTimeout c w2)) with w3. rewrite Hres. reflexivity. }
  rewrite Hstep. reflexivity.
Qed.

(** X5. The handshake carries the caller's configuration. A session
    started with custom parameters, whose signed URL arrives and whose
    agent socket opens, sends exactly one frame: the initiation data
    with the [prompt] and the [first_message] of the [start] frame,
    each replaced by the built-in default when it is missing or empty.
    The session then streams. *)
Theorem handshake_carries_parameters w s k sid callSid params now :
  crashed w = false →
  closures w !! s = Some k →
  nonempty sid = true →
  nonempty callSid = true →
  let c := nextId w in
  let a := S (nextId w) in
  let p := or_default (params ≫= cp_prompt) default_prompt in
  let fm := or_default (params ≫= cp_first_message) default_firstMessage in
  let r := run [TwilioFrame s (startFrame sid callSid params) now;
                SignedUrl c true; AgentOpen c] w in
  snd r = [Send a (InitiationData p fm)]
  ∧ streaming (fst r) s sid c a (mkConnection s c true [] now)
      (mkClient sid s p fm (Some a) true).
Proof.
  intros Hlive Hk Hsid Hcall c a p fm r.
  destruct (start_establishes w s k sid callSid params now Hlive Hk Hsid Hcall)
    as [Ho1 [Hn1 Hst]].
  set (w1 := fst (step (TwilioFrame s (startFrame sid callSid params) now) w)) in *.
  destruct (signed_url_starting w1 s sid c _ _ Hst) as [Ho2 Haw].
  rewrite Hn1 in Haw. fold a in Haw.
  set (w2 := fst (step (SignedUrl c true) w1)) in *.
  destruct (agent_open_awaiting w2 s sid c a _ _ Haw) as [_ Hstr].
  assert (Hout3 := agent_open_effects w2 s sid c a _ _ Haw). simpl in Hout3.
  unfold r. rewrite run_cons, andThen_eq, run_cons, andThen_eq, run_cons, andThen_eq.
  fold w1. fold w2. cbn [run forEach skip fst snd]. rewrite Ho1, Ho2, Hout3.
  split; [reflexivity|]. exact Hstr.
Qed.
Lemma run_crashed evs w : crashed w = true → run evs w = (w, []).
Proof.
  intros Hc. induction evs as [|ev evs IH]; [reflexivity|].
  rewrite run_cons, andThen_eq. unfold step at 1. rewrite Hc. cbn [fst snd].
  unfold step. rewrite Hc. cbn [fst snd]. rewrite IH. reflexivity.
Qed.

(** X6. Ending a session whose agent socket is still connecting leaves
    that socket alone ([endConversation] closes only an open socket) and
    forgets it.  When the socket then opens, the ['open'] listener reads
    [this.ws], which is [null], outside any [try]: the exception is
    uncaught, the process is gone, and no later event is handled. *)
Theorem stop_while_connecting_crashes_on_open w s sid c a e cl now evs :
  awaiting w s sid c a e cl →
  let r1 := step (TwilioFrame s stopFrame now) w in
  let r2 := step (AgentOpen c) (fst r1) in
  snd r1 = []
  ∧ activeConnections (fst r1) !! sid = None
  ∧ readyState (fst r1) !! a = Some CONNECTING
  ∧ ws <$> clients (fst r1) !! c = Some None
  ∧ snd r2 = [Uncaught "TypeError: Cannot read properties of null (reading 'send')"]
  ∧ crashed (fst r2) = true
  ∧ run evs (fst r2) = (fst r2, []).
Proof.
  intros [Hlive Hcl Hsid He Hnr Hid Hc Hws Hkc Hkw Hkp Hconn] r1 r2.
  destruct (closures w !! s) as [k|] eqn:Hk; [|discriminate]. simpl in Hcl.
  set (cl1 := client_with_isConnected false (client_with_ws None cl)).
  set (w1 := set_activeConnections (delete sid) (set_clients (<[c := cl1]>) w)).
  assert (H1 : r1 = (w1, [])).
  { unfold r1, step. rewrite Hlive. simpl. unfold twilio_on_message. rewrite Hk. simpl.
    rewrite Hcl. simpl. rewrite Hsid. unfold teardown. rewrite He, andThen_eq.
    unfold endConversation. rewrite Hid, Hc, Hws, Hconn.
    change (is_open (Some CONNECTING)) with false. cbv iota.
    rewrite andThen_eq. reflexivity. }
  set (cl2 := client_with_isConnected true cl1).
  set (w2 := set_crashed true
               (set_clients (<[c := cl2]>) (set_readyState (<[a := OPEN]>) w1))).
  assert (H2 : step (AgentOpen c) w1
               = (w2, [Uncaught "TypeError: Cannot read properties of null (reading 'send')"])).
  { unfold step. change (crashed w1) with (crashed w). rewrite Hlive.
    unfold dispatch, agent_socket. change (calls w1) with (calls w). rewrite Hkw.
    change (readyState w1 !! a) with (readyState w !! a). rewrite Hconn.
    change (is_connecting (Some CONNECTING)) with true. cbv iota.
    rewrite (andThen_eq _ _ w1), (andThen_eq _ _ w1).
    unfold on_open. cbn [fst snd update]. simpl clients. rewrite lookup_insert_eq.
    rewrite !andThen_eq. reflexivity. }
  unfold r2. rewrite H1. cbn [fst snd]. rewrite H2. cbn [fst snd].
  split; [reflexivity|]. split; [apply lookup_delete_eq|].
  split; [exact Hconn|]. split; [simpl; rewrite lookup_insert_eq; reflexivity|].
  split; [reflexivity|]. split; [reflexivity|].
  apply run_crashed. reflexivity.
Qed.
(** X7. When the ten-second timer fires before the agent socket has
    opened, the promise is rejected. If the socket opens after all, the
    client connects and sends its handshake, but the [.then] callback
    never runs: the entry is never marked ready, and every media frame
    from then on is queued (the last fifty are kept) and none is sent to
    the agent socket. *)
Theorem late_open_after_timeout_never_ready w s sid c a e cl frames :
  reachable w →
  awaiting w s sid c a e cl →
  call_timer <$> calls w !! c = Some true →
  isConnected cl = false →
  let r := run (ConnectTimeout c :: AgentOpen c :: media_events s frames) w in
  sent_on a (snd r) = [InitiationData (prompt cl) (firstMessage cl)]
  ∧ call_promise <$> calls (fst r) !! c = Some Rejected
  ∧ isConnected <$> clients (fst r) !! c = Some true
  ∧ activeConnections (fst r) !! sid
    = Some (conn_with_audioQueue (lastn 50 (audioQueue e ++ payloads frames)) e).
Proof.
  intros Hreach Haw Htimer Hnc r.
  assert (Hlen : length (audioQueue e) ≤ 50).
  { eapply wf_queues; [apply reachable_wf, Hreach | apply Haw]. }
  destruct Haw as [Hlive Hcl Hsid He Hnr Hid Hc Hws Hkc Hkw Hkp Hconn].
  destruct (calls w !! c) as [k|] eqn:Hk; [|discriminate].
  simpl in Hkc, Hkw, Hkp, Htimer.
  injection Hkc as Hkc. injection Hkp as Hkp. injection Htimer as Htimer.
  set (k1 := call_with_promise Rejected (call_with_timer false k)).
  set (w1 := set_calls (<[c := k1]>) (set_calls (alter (call_with_timer false) c) w)).
  assert (H1 : step (ConnectTimeout c) w = (w1, [ConsoleError "Error starting conversation:"])).
  { unfold step. rewrite Hlive. unfold dispatch. rewrite Hk, Htimer.
    rewrite andThen_eq. unfold on_timeout, clearTimeout. cbn [fst snd update].
    simpl clients. rewrite Hc, Hnc. unfold reject. simpl calls.
    rewrite lookup_alter_eq, Hk. simpl. rewrite Hkp, andThen_eq. reflexivity. }
  set (cl2 := client_with_isConnected true cl).
  set (w1o := set_readyState (<[a := OPEN]>) w1).
  set (w1c := set_clients (<[c := cl2]>) w1o).
  set (w2 := set_calls (alter (call_with_timer false) c) w1c).
  assert (Hopen : on_open c w1o
                  = (w1c, [Send a (InitiationData (prompt cl) (firstMessage cl))])).
  { unfold on_open. simpl. rewrite Hc, andThen_eq. simpl. rewrite Hws. reflexivity. }
  assert (Hres : resolve c w2 = (w2, [])).
  { unfold resolve. simpl. rewrite lookup_alter_eq, lookup_insert_eq. reflexivity. }
  assert (H2 : step (AgentOpen c) w1
               = (w2, [Send a (InitiationData (prompt cl) (firstMessage cl))])).
  { unfold step. change (crashed w1) with (crashed w). rewrite Hlive.
    unfold dispatch, agent_socket. simpl calls. rewrite lookup_insert_eq.
    change (Some k1 ≫= call_ws) with (call_ws k). rewrite Hkw.
    change (readyState w1 !! a) with (readyState w !! a). rewrite Hconn.
    change (is_connecting (Some CONNECTING)) with true. cbv iota.
    rewrite (andThen_eq _ _ w1), (andThen_eq _ _ w1).
    change (fst (update (set_readyState (<[a := OPEN]>)) w1)) with w1o.
    rewrite Hopen. cbn [fst snd].
    change (crashed w1c) with (crashed w). rewrite Hlive.
    rewrite andThen_eq.
    change (fst (clearTimeout c w1c)) with w2. rewrite Hres. reflexivity. }
  assert (Hq : queueing w2 s sid e).
  { split; simpl; assumption. }
  destruct (media_run_queueing frames w2 s sid e Hq Hlen) as [Hst Hout].
  unfold r. rewrite run_cons, andThen_eq, H1. cbn [fst snd].
  rewrite run_cons, andThen_eq, H2. cbn [fst snd].
  rewrite Hst. split; [|split; [|split]].
  - simpl. rewrite Nat.eqb_refl. rewrite Hout. reflexivity.
  - simpl. rewrite lookup_alter_eq, lookup_insert_eq. reflexivity.
  - simpl. rewrite lookup_insert_eq. reflexivity.
  - simpl. apply lookup_insert_eq.
Qed.

(** X8. When the signed URL cannot be fetched, the promise of
    [startConversation()] is rejected and no socket is made for the
    client. The session stays registered and not ready: the media frames
    that follow are queued (the last fifty are kept), nothing is sent on
    any socket, and an ['open'] for that client changes nothing. *)
Theorem signed_url_failure_strands_session w s sid c e cl frames :
  reachable w →
  starting w s sid c e cl →
  let r := run (SignedUrl c false :: media_events s frames ++ [AgentOpen c]) w in
  (∀ b, sent_on b (snd r) = [])
  ∧ agent_socket (fst r) c = None
  ∧ call_promise <$> calls (fst r) !! c = Some Rejected
  ∧ activeConnections (fst r) !! sid
    = Some (conn_with_audioQueue (lastn 50 (audioQueue e ++ payloads frames)) e).
Proof.
  intros Hreach Hsg r.
  assert (Hlen : length (audioQueue e) ≤ 50).
  { eapply wf_queues; [apply reachable_wf, Hreach | apply Hsg]. }
  destruct Hsg as [Hlive Hcl Hsid He Hnr Hid Hc [t Hk]].
  set (k1 := call_with_promise Rejected (mkStartCall s None t Pending)).
  set (w1 := set_calls (<[c := k1]>) w).
  assert (H1 : step (SignedUrl c false) w
               = (w1, [ConsoleError "Error getting signed URL:";
                       ConsoleError "Error starting conversation:";
                       ConsoleError "Error starting conversation:"])).
  { unfold step. rewrite Hlive. unfold dispatch. rewrite Hk.
    unfold startConversation_fail. rewrite !andThen_eq. cbn [fst snd emit].
    unfold reject. rewrite Hk. cbn [call_promise]. rewrite andThen_eq. reflexivity. }
  assert (Hq : queueing w1 s sid e).
  { split; simpl; assumption. }
  destruct (media_run_queueing frames w1 s sid e Hq Hlen) as [Hst Hout].
  set (w2 := fst (run (media_events s frames) w1)) in *.
  assert (H3 : step (AgentOpen c) w2 = (w2, [])).
  { unfold step. rewrite Hst. change (crashed _) with (crashed w). rewrite Hlive.
    unfold dispatch, agent_socket. simpl calls. rewrite lookup_insert_eq. reflexivity. }
  unfold r. rewrite run_cons, andThen_eq, H1. cbn [fst snd].
  rewrite run_app, andThen_eq. fold w2. rewrite run_cons, andThen_eq, H3.
  cbn [fst snd run forEach skip]. rewrite app_nil_r.
  split; [|split; [|split]].
  - intros b. simpl. apply Hout.
  - rewrite Hst. unfold agent_socket. simpl. rewrite lookup_insert_eq. reflexivity.
  - rewrite Hst. simpl. rewrite lookup_insert_eq. reflexivity.
  - rewrite Hst. simpl. apply lookup_insert_eq.
Qed.
End Lifecycle.

(** ** Two more invariants *)

Section Settled.
Import Standalone StandaloneFacts Scenario.
Implicit Types (w : World Connection) (c : ClientId) (s a : SockId)
  (e : Connection) (k : Closure).

Lemma settled_initial : settled initial.
Proof.
  split.
  - intros sid e H. simpl in H. rewrite lookup_empty in H. discriminate.
  - intros i _. apply lookup_empty.
Qed.

Lemma settled_same w w' :
  activeConnections w' = activeConnections w →
  clients w' = clients w →
  nextId w' = nextId w →
  settled w → settled w'.
Proof.
  intros H1 H2 H3 [Hd Hf]. split.
  - unfold every_entry. rewrite H1. exact Hd.
  - rewrite H2, H3. exact Hf.
Qed.

Lemma settled_other (f : World Connection → World Connection) :
  (∀ w, activeConnections (f w) = activeConnections w) →
  (∀ w, clients (f w) = clients w) →
  (∀ w, nextId (f w) = nextId w) →
  preserves settled (update f).
Proof. intros H1 H2 H3 w Hw. simpl. apply (settled_same w); auto. Qed.

Lemma settled_set_entry sid e :
  drained e → preserves settled (update (set_activeConnections (<[sid := e]>))).
Proof.
  intros He w [Hd Hf]. split; simpl; [|exact Hf].
  intros sid' e'. simpl. rewrite lookup_insert. case_decide.
  - intros [= <-]. exact He.
  - apply Hd.
Qed.

Lemma settled_delete_entry sid :
  preserves settled (update (set_activeConnections (delete sid))).
Proof.
  intros w [Hd Hf]. split; simpl; [|exact Hf].
  intros sid' e'. simpl. rewrite lookup_delete. case_decide; [discriminate|apply Hd].
Qed.

(** Writing to a client object that exists. *)
Lemma settled_write_client w c cl cl' :
  clients w !! c = Some cl → settled w → settled (fst (write_client c cl' w)).
Proof.
  intros Hc [Hd Hf]. split; simpl; [exact Hd|].
  intros i Hi. rewrite lookup_insert_ne; [apply Hf, Hi|].
  intros Heq. rewrite <- Heq in Hi.
  assert (Hx : Some cl = None) by (rewrite <- Hc; apply Hf, Hi). discriminate Hx.
Qed.

Ltac settled_other := apply settled_other; intros; reflexivity.

Lemma settled_sendAudio c p : preserves settled (sendAudio c p).
Proof. intros w Hw. rewrite sendAudio_state. exact Hw. Qed.

Lemma settled_endConversation c : preserves settled (endConversation c).
Proof.
  intros w Hw. unfold endConversation.
  destruct (clients w !! c) as [cl|] eqn:Hc; [|exact Hw].
  destruct (ws cl) as [a|]; [|exact Hw].
  rewrite andThen_eq. cbn [fst].
  apply (settled_write_client _ c cl).
  - destruct (is_open _); exact Hc.
  - destruct (is_open _); [|exact Hw].
    apply (preserves_andThen settled); [settled_other | apply preserves_emit | exact Hw].
Qed.

Lemma settled_on_open c : preserves settled (on_open c).
Proof.
  intros w Hw. unfold on_open.
  destruct (clients w !! c) as [cl|] eqn:Hc; [|exact Hw].
  rewrite andThen_eq. cbn [fst].
  pose proof (settled_write_client w c cl (client_with_isConnected true cl) Hc Hw) as H1.
  destruct (ws cl).
  - exact H1.
  - revert H1. apply (preserves_andThen settled); [settled_other | apply preserves_emit].
Qed.

Lemma settled_on_close c : preserves settled (on_close c).
Proof.
  intros w Hw. unfold on_close.
  destruct (clients w !! c) as [cl|] eqn:Hc; [|exact Hw].
  apply (settled_write_client w c cl _ Hc Hw).
Qed.

Lemma settled_start_then s c : preserves settled (start_then s c).
Proof.
  intros w Hw. unfold start_then.
  destruct (closures w !! s ≫= cl_streamSid) as [sid|]; [|exact Hw].
  destruct (activeConnections w !! sid) as [e|] eqn:He; [|exact Hw].
  destruct (0 <? length (audioQueue e)) eqn:Hlen.
  - apply preserves_andThen; [| |exact Hw].
    + apply settled_set_entry. intros _. reflexivity.
    + apply preserves_forEach. intros p. apply settled_sendAudio.
  - apply settled_set_entry; [|exact Hw]. intros _. simpl.
    apply Nat.ltb_ge in Hlen. destruct (audioQueue e); [reflexivity | simpl in Hlen; lia].
Qed.

Lemma settled_resolve c : preserves settled (resolve c).
Proof.
  intros w Hw. unfold resolve.
  destruct (calls w !! c) as [k|]; [|exact Hw].
  destruct (call_promise k); try exact Hw.
  apply preserves_andThen; [settled_other | apply settled_start_then | exact Hw].
Qed.

Lemma settled_reject c : preserves settled (reject c).
Proof.
  intros w Hw. unfold reject.
  destruct (calls w !! c) as [k|]; [|exact Hw].
  destruct (call_promise k); try exact Hw.
  apply preserves_andThen; [settled_other | apply preserves_emit | exact Hw].
Qed.

Lemma settled_clearTimeout c : preserves settled (clearTimeout c).
Proof. settled_other. Qed.

Lemma settled_handle_start b s m now : preserves settled (handle_start b s m now).
Proof.
  intros w Hw. unfold handle_start.
  set (w1 := set_closures _ w).
  assert (Hw1 : settled w1)
    by (apply (settled_same w); [reflexivity | reflexivity | reflexivity | exact Hw]).
  destruct (negb _ || negb _); [exact Hw1|].
  destruct (ElevenLabsClient_new _ _ _ _) as [cl|]; [|exact Hw1].
  rewrite !andThen_eq, getSignedUrl_begin_state. destruct Hw1 as [Hd Hf]. split.
  - intros sid e. simpl. rewrite lookup_insert. case_decide.
    + intros [= <-]. intros Hr. discriminate Hr.
    + apply Hd.
  - intros i Hi. simpl in *. rewrite lookup_insert_ne by lia. apply Hf. lia.
Qed.

Lemma settled_handle_media sid m now : preserves settled (handle_media sid m now).
Proof.
  intros w Hw. unfold handle_media.
  destruct (truthy_str _); [|exact Hw].
  destruct (activeConnections w !! sid) as [e|] eqn:He; [|exact Hw].
  destruct (isReady e) eqn:Hr; [apply settled_sendAudio, Hw|].
  apply preserves_andThen; [| |exact Hw].
  - apply settled_set_entry. intros H. simpl in H. congruence.
  - destruct (_ && _); [apply preserves_emit | apply preserves_skip].
Qed.

Lemma settled_teardown sid : preserves settled (teardown sid).
Proof.
  intros w Hw. unfold teardown.
  destruct (activeConnections w !! sid) as [e|]; [|exact Hw].
  apply preserves_andThen;
    [apply settled_endConversation | apply settled_delete_entry | exact Hw].
Qed.

Lemma settled_twilio_on_message b s p now : preserves settled (twilio_on_message b s p now).
Proof.
  intros w Hw. unfold twilio_on_message.
  destruct (closures w !! s) as [k|]; [|exact Hw].
  destruct p as [| |m]; try exact Hw.
  destruct (event_is m "start"); [apply settled_handle_start, Hw|].
  destruct (_ && _); [apply settled_handle_media, Hw|].
  destruct (_ && _); [apply settled_teardown, Hw|exact Hw].
Qed.

Lemma settled_twilio_on_close s : preserves settled (twilio_on_close s).
Proof.
  intros w Hw. unfold twilio_on_close.
  destruct (closures w !! s) as [k|]; [|exact Hw].
  destruct (truthy_str _); [apply settled_teardown, Hw|exact Hw].
Qed.

Lemma settled_startConversation_connect c :
  preserves settled (startConversation_connect c).
Proof.
  intros w Hw. unfold startConversation_connect.
  destruct (clients w !! c) as [cl|] eqn:Hc; [|exact Hw].
  rewrite !andThen_eq. destruct Hw as [Hd Hf]. split.
  - exact Hd.
  - intros i Hi. simpl in *. rewrite lookup_insert_ne.
    + apply Hf. lia.
    + intros Heq. assert (Hx : Some cl = None) by (rewrite <- Hc; apply Hf; lia).
      discriminate Hx.
Qed.

Lemma settled_startConversation_fail c : preserves settled (startConversation_fail c).
Proof.
  repeat apply preserves_andThen; try apply preserves_emit. apply settled_reject.
Qed.

Lemma settled_on_timeout c : preserves settled (on_timeout c).
Proof.
  intros w Hw. unfold on_timeout.
  destruct (clients w !! c) as [cl|]; [|exact Hw].
  destruct (isConnected cl); [exact Hw | apply settled_reject, Hw].
Qed.

Lemma settled_dispatch ev : preserves settled (dispatch ev).
Proof.
  intros w Hw. destruct ev; simpl.
  - destruct Hw as [Hd Hf]. split; [exact Hd|].
    intros i Hi. simpl in *. apply Hf. lia.
  - apply settled_twilio_on_message, Hw.
  - destruct (is_closed _); [exact Hw|].
    apply preserves_andThen; [settled_other | apply settled_twilio_on_close | exact Hw].
  - destruct (closures w !! s); exact Hw.
  - destruct (calls w !! c) as [[? [?|] ? []]|]; try exact Hw.
    destruct ok; [apply settled_startConversation_connect, Hw
                 | apply settled_startConversation_fail, Hw].
  - destruct (agent_socket w c) as [a|]; [|exact Hw].
    destruct (is_connecting _); [|exact Hw].
    repeat apply preserves_andThen; try exact Hw; try settled_other.
    + apply settled_on_open.
    + intros w1 Hw1. destruct (crashed w1); [exact Hw1|].
      apply preserves_andThen; [apply settled_clearTimeout | apply settled_resolve | exact Hw1].
  - destruct (agent_socket w c) as [a|]; [|exact Hw].
    destruct (readyState w !! a) as [[]|]; try exact Hw;
      rewrite on_message_state; exact Hw.
  - destruct (agent_socket w c) as [a|]; [|exact Hw].
    destruct (is_closed _); [exact Hw|].
    repeat apply preserves_andThen; try exact Hw.
    + apply preserves_emit.
    + apply settled_clearTimeout.
    + apply settled_reject.
  - destruct (agent_socket w c) as [a|]; [|exact Hw].
    destruct (is_closed _); [exact Hw|].
    apply preserves_andThen; [settled_other | apply settled_on_close | exact Hw].
  - destruct (calls w !! c) as [k|]; [|exact Hw].
    destruct (call_timer k); [|exact Hw].
    apply preserves_andThen; [apply settled_clearTimeout | apply settled_on_timeout | exact Hw].
Qed.

Lemma reachable_settled w : reachable w → settled w.
Proof.
  induction 1 as [|ev w _ IH]; [apply settled_initial|].
  unfold step. destruct (crashed w); [exact IH | apply settled_dispatch, IH].
Qed.

(** X9. In every world the server can reach, an entry that is marked
    ready has an empty queue: readiness drains the whole queue, and a
    ready entry is never queued to again. *)
Theorem ready_entry_has_empty_queue w sid e :
  reachable w →
  activeConnections w !! sid = Some e →
  isReady e = true →
  audioQueue e = [].
Proof.
  intros Hr He Hready. exact (settled_drained w (reachable_settled w Hr) sid e He Hready).
Qed.
End Settled.

(** ** Audio from the agent, and two sessions on one connection *)

Section Crossing.
Import Standalone StandaloneFacts Scenario.
Implicit Types (w : World Connection) (c : ClientId) (s a : SockId)
  (e : Connection) (k : Closure).

Lemma truthy_str_default o : truthy_str o = true → o = Some (default EmptyString o).
Proof. destruct o; [reflexivity | discriminate]. Qed.

(** X10. Audio from the agent reaches the caller in arrival order. A
    run of [audio] frames makes the listener send, for each frame that
    carries a payload, one media frame with the session's [streamSid]
    and that payload unchanged to the telephony socket: [audio.chunk]
    when it is truthy, else [audio_event.audio_base_64] when that is
    truthy; a frame with neither is skipped.  Nothing else happens. *)
Theorem agent_audio_forwarded_in_order w c cl frames :
  reachable w →
  clients w !! c = Some cl →
  forEach (on_message c) (audio_frames frames) w
    = (w, map (fun p => Send (twilioSocket cl) (Media (streamSid cl) p))
              (omap audio_payload frames)).
Proof.
  intros Hr Hc. rewrite forEach_silent by apply on_message_state. f_equal.
  pose proof (wf_clients w (reachable_wf w Hr) c cl Hc) as Hsid.
  induction frames as [|[au ae] frames IH]; [reflexivity|].
  simpl. rewrite IH. unfold on_message at 1. rewrite Hc. simpl. rewrite Hsid.
  unfold audio_payload. simpl.
  destruct (truthy_str (au ≫= audio_chunk)) eqn:H1.
  - rewrite (truthy_str_default _ H1) at 2. reflexivity.
  - destruct (truthy_str (ae ≫= audio_base_64)) eqn:H2.
    + rewrite (truthy_str_default _ H2) at 2. reflexivity.
    + reflexivity.
Qed.

(** A [start] frame with truthy identifiers: the world it leaves. *)
Lemma start_step w s k sid callSid params now :
  crashed w = false →
  closures w !! s = Some k →
  nonempty sid = true →
  nonempty callSid = true →
  step (TwilioFrame s (startFrame sid callSid params) now) w
  = (set_calls (<[nextId w := mkStartCall s None false Pending]>)
       (set_activeConnections (<[sid := mkConnection s (nextId w) false [] now]>)
          (set_clients
             (<[nextId w := mkClient sid s (or_default (params ≫= cp_prompt) default_prompt)
                              (or_default (params ≫= cp_first_message) default_firstMessage)
                              None false]>)
             (set_nextId (S (nextId w))
                (set_closures (<[s := mkClosure (Some sid) (Some callSid)]>) w)))),
     []).
Proof.
  intros Hlive Hk Hsid Hcall. unfold step. rewrite Hlive. simpl.
  unfold twilio_on_message, startFrame. rewrite Hk. simpl.
  unfold handle_start. simpl. rewrite Hsid, Hcall. simpl.
  unfold ElevenLabsClient_new. rewrite Hsid.
  rewrite !or_default_again by reflexivity.
  rewrite !andThen_eq. reflexivity.
Qed.

(** The agent socket of client [c] opens while its promise is pending:
    the [.then] callback acts on the entry the connection points to
    now, whichever client that entry holds. *)
Lemma agent_open_pending w s sid c a e cl (k : StartCall) :
  crashed w = false →
  closures w !! s ≫= cl_streamSid = Some sid →
  activeConnections w !! sid = Some e →
  clients w !! c = Some cl →
  ws cl = Some a →
  calls w !! c = Some k →
  call_closure k = s →
  call_ws k = Some a →
  call_promise k = Pending →
  readyState w !! a = Some CONNECTING →
  snd (step (AgentOpen c) w)
    = Send a (InitiationData (prompt cl) (firstMessage cl))
      :: map (fun p => Send a (UserAudioChunk p)) (audioQueue e)
  ∧ activeConnections (fst (step (AgentOpen c) w))
    = <[sid := conn_with_audioQueue [] (conn_with_isReady true e)]> (activeConnections w)
  ∧ clients (fst (step (AgentOpen c) w))
    = <[c := client_with_isConnected true cl]> (clients w).
Proof.
  intros Hlive Hcl He Hc Hws Hk Hkc Hkw Hkp Hconn.
  set (w1 := set_readyState (<[a := OPEN]>) w).
  set (cl1 := client_with_isConnected true cl).
  set (w2 := set_clients (<[c := cl1]>) w1).
  assert (Hopen : on_open c w1 = (w2, [Send a (InitiationData (prompt cl) (firstMessage cl))])).
  { unfold on_open. simpl. rewrite Hc, andThen_eq. simpl. rewrite Hws. reflexivity. }
  set (w3 := set_calls (alter (call_with_timer false) c) w2).
  set (k4 := call_with_promise Fulfilled (call_with_timer false k)).
  set (w4 := set_calls (<[c := k4]>) w3).
  set (e5 := conn_with_audioQueue [] (conn_with_isReady true e)).
  set (w5 := set_activeConnections (<[sid := e5]>) w4).
  assert (Hthen : start_then s c w4
                  = (w5, map (fun p => Send a (UserAudioChunk p)) (audioQueue e))).
  { unfold start_then. simpl. rewrite Hcl, He.
    destruct (audioQueue e) as [|p q] eqn:Hq.
    - simpl. unfold w5, e5. destruct e as [t ci r qq st]. simpl in *. subst qq. reflexivity.
    - change (0 <? length (p :: q)) with true. cbv iota. rewrite andThen_eq.
      match goal with |- context [forEach (sendAudio c) ?l ?v] =>
        rewrite (drain_connected v c cl1 a l) end.
      + reflexivity.
      + simpl. apply lookup_insert_eq.
      + reflexivity.
      + exact Hws.
      + simpl. apply lookup_insert_eq. }
  assert (Hres : resolve c w3
                 = (w5, map (fun p => Send a (UserAudioChunk p)) (audioQueue e))).
  { unfold resolve. simpl. rewrite lookup_alter_eq, Hk. simpl. rewrite Hkp.
    rewrite andThen_eq. simpl. fold k4. fold w4. rewrite Hkc, Hthen. reflexivity. }
  assert (Hstep : step (AgentOpen c) w
                  = (w5, Send a (InitiationData (prompt cl) (firstMessage cl))
                         :: map (fun p => Send a (UserAudioChunk p)) (audioQueue e))).
  { unfold step. rewrite Hlive. unfold dispatch, agent_socket. rewrite Hk.
    change (Some k ≫= call_ws) with (call_ws k). rewrite Hkw, Hconn.
    change (is_connecting (Some CONNECTING)) with true. cbv iota.
    rewrite (andThen_eq _ _ w), (andThen_eq _ _ w).
    change (fst (update (set_readyState (<[a := OPEN]>)) w)) with w1.
    rewrite Hopen. cbn [fst snd].
    change (crashed w2) with (crashed w). rewrite Hlive.
    rewrite andThen_eq.
    change (fst (clearTimeout c w2)) with w3. rewrite Hres. reflexivity. }
  rewrite Hstep. repeat split.
Qed.

(** X11. The [.then] callback reads the [streamSid] of its connection
    when it runs, not when it was made.  If a connection starts a
    second session before the agent socket of its first session has
    opened, the opening of that socket marks the entry of the second
    session ready and drains the audio queued for the second session
    into the agent socket of the first; the entry of the first session
    stays as it was, never ready, and the client of the second session
    still has no socket. *)
Theorem second_start_diverts_queue w s sid1 c1 a1 e1 cl1 sid2 callSid2 params now frames :
  reachable w →
  awaiting w s sid1 c1 a1 e1 cl1 →
  nonempty sid2 = true →
  nonempty callSid2 = true →
  sid2 ≠ sid1 →
  let r := run (TwilioFrame s (startFrame sid2 callSid2 params) now
                :: media_events s frames ++ [AgentOpen c1]) w in
  sent_on a1 (snd r)
    = InitiationData (prompt cl1) (firstMessage cl1)
      :: map UserAudioChunk (lastn 50 (payloads frames))
  ∧ activeConnections (fst r) !! sid1 = Some e1
  ∧ activeConnections (fst r) !! sid2 = Some (mkConnection s (nextId w) true [] now)
  ∧ ws <$> clients (fst r) !! nextId w = Some None.
Proof.
  intros Hreach Haw Hsid2 Hcall2 Hne r.
  pose proof (settled_fresh w (reachable_settled w Hreach)) as Hfresh.
  destruct Haw as [Hlive Hcl Hsid He Hnr Hid Hc Hws Hkc Hkw Hkp Hconn].
  destruct (closures w !! s) as [k|] eqn:Hk; [|discriminate].
  destruct (calls w !! c1) as [k1|] eqn:Hk1; [|discriminate].
  simpl in Hkc, Hkw, Hkp. injection Hkc as Hkc. injection Hkp as Hkp.
  assert (Hc12 : nextId w ≠ c1).
  { intros Heq. assert (Hx : Some cl1 = None) by (rewrite <- Hc; apply Hfresh; lia).
    discriminate Hx. }
  pose proof (start_step w s k sid2 callSid2 params now Hlive Hk Hsid2 Hcall2) as H1.
  set (w1 := fst (step (TwilioFrame s (startFrame sid2 callSid2 params) now) w)) in *.
  set (e2 := mkConnection s (nextId w) false [] now).
  assert (Hq : queueing w1 s sid2 e2).
  { unfold w1. rewrite H1. split; simpl; try assumption; try reflexivity.
    - rewrite lookup_insert_eq. reflexivity.
    - apply lookup_insert_eq. }
  destruct (media_run_queueing frames w1 s sid2 e2 Hq) as [Hst Hout]; [simpl; lia|].
  set (w2 := fst (run (media_events s frames) w1)) in *.
  set (q2 := lastn 50 (audioQueue e2 ++ payloads frames)) in *.
  destruct (agent_open_pending w2 s sid2 c1 a1 (conn_with_audioQueue q2 e2) cl1 k1)
    as [Ho [Hac Hcs]].
  - rewrite Hst. unfold w1. rewrite H1. exact Hlive.
  - rewrite Hst. unfold w1. rewrite H1. simpl. rewrite lookup_insert_eq. reflexivity.
  - rewrite Hst. simpl. apply lookup_insert_eq.
  - rewrite Hst. unfold w1. rewrite H1. simpl. rewrite lookup_insert_ne by exact Hc12.
    exact Hc.
  - exact Hws.
  - rewrite Hst. unfold w1. rewrite H1. simpl. rewrite lookup_insert_ne by exact Hc12.
    exact Hk1.
  - exact Hkc.
  - exact Hkw.
  - exact Hkp.
  - rewrite Hst. unfold w1. rewrite H1. exact Hconn.
  - unfold r. rewrite run_cons, andThen_eq. fold w1. rewrite H1. cbn [snd].
    rewrite run_app, andThen_eq. fold w2. rewrite run_cons, andThen_eq.
    cbn [fst snd run forEach skip]. rewrite app_nil_r.
    split; [|split; [|split]].
    + simpl. rewrite sent_on_app, Hout, Ho. simpl. rewrite Nat.eqb_refl.
      rewrite sent_on_chunks. reflexivity.
    + rewrite Hac, lookup_insert_ne by exact Hne.
      rewrite Hst. simpl. rewrite lookup_insert_ne by exact Hne.
      unfold w1. rewrite H1. simpl. rewrite lookup_insert_ne by exact Hne. exact He.
    + rewrite Hac, lookup_insert_eq. reflexivity.
    + rewrite Hcs, lookup_insert_ne by (intros Heq; apply Hc12; symmetry; exact Heq).
      rewrite Hst. unfold w1. rewrite H1. simpl. rewrite lookup_insert_eq. reflexivity.
Qed.
End Crossing.

(** * The HTTP routes *)

Section Routes.
Import Http.

Lemma prefix_empty s : String.prefix EmptyString s = true.
Proof. destruct s; reflexivity. Qed.

Lemma formatNumber_prefix p : String.prefix "+" (formatNumber p) = true.
Proof.
  unfold formatNumber. destruct (String.prefix "+" p) eqn:Hp; [exact Hp|].
  simpl. apply prefix_empty.
Qed.

(** X12. The number a call is placed to always starts with "+": a
    number that has the sign is kept, any other gets it in front, and
    formatting twice is formatting once. *)
Theorem formatNumber_adds_plus_once p :
  String.prefix "+" (formatNumber p) = true
  ∧ formatNumber (formatNumber p) = formatNumber p
  ∧ (String.prefix "+" p = true → formatNumber p = p)
  ∧ (String.prefix "+" p = false → formatNumber p = "+" +:+ p).
Proof.
  split; [apply formatNumber_prefix|]. split; [|split].
  - unfold formatNumber at 1. rewrite formatNumber_prefix. reflexivity.
  - intros Hp. unfold formatNumber. rewrite Hp. reflexivity.
  - intros Hp. unfold formatNumber. rewrite Hp. reflexivity.
Qed.

Lemma strip_prefix_app p q s :
  strip_prefix (p +:+ q) s = strip_prefix p s ≫= strip_prefix q.
Proof.
  revert s. induction p as [|x p IH]; intros s; [reflexivity|].
  destruct s as [|y s]; [reflexivity|].
  simpl. destruct (Ascii.eqb x y); [apply IH | reflexivity].
Qed.

Lemma strip_http_https s :
  strip_prefix "http" s = None → strip_prefix "https" s = None.
Proof.
  intros Hn. change "https" with ("http" +:+ "s").
  rewrite strip_prefix_app, Hn. reflexivity.
Qed.

(** X13. The stream URL of the call instructions. A base URL that
    starts with "http" gets "ws" in its place, so "https://host"
    becomes "wss://host"; any other base URL is kept; "/call-stream" is
    appended.  The second replacement, of "https" by "wss", never
    applies: after the first there is no "https" at the start. *)
Theorem streamUrl_scheme base rest :
  streamUrl ("http" +:+ rest) = "ws" +:+ rest +:+ "/call-stream"
  ∧ streamUrl ("https://" +:+ rest) = "wss://" +:+ rest +:+ "/call-stream"
  ∧ (strip_prefix "http" base = None → streamUrl base = base +:+ "/call-stream")
  ∧ replace_prefix "https" "wss" (replace_prefix "http" "ws" base)
    = replace_prefix "http" "ws" base.
Proof.
  split; [reflexivity|]. split; [reflexivity|]. split.
  - intros Hn. unfold streamUrl, replace_prefix. rewrite Hn.
    rewrite (strip_http_https base Hn). reflexivity.
  - unfold replace_prefix. destruct (strip_prefix "http" base) as [r|] eqn:Hs.
    + reflexivity.
    + rewrite (strip_http_https base Hs). reflexivity.
Qed.

Lemma substring_all s : String.substring 0 (String.length s) s = s.
Proof. induction s as [|c s IH]; simpl; [reflexivity | rewrite IH; reflexivity]. Qed.

Lemma substring_suffix pre suf :
  String.substring (String.length pre) (String.length suf) (pre +:+ suf) = suf.
Proof.
  induction pre as [|c pre IH]; simpl; [apply substring_all | exact IH].
Qed.

Lemma length_append_str s t :
  String.length (s +:+ t) = String.length s + String.length t.
Proof. induction s as [|c s IH]; simpl; [reflexivity | rewrite IH; reflexivity]. Qed.

(** X14. The API key on the test page is masked down to its last six
    characters, after four asterisks.  A key of six characters or
    fewer is shown whole, and a key that is missing or empty is shown
    as "Not Set". *)
Theorem maskedKey_shows_last_six pre suf key :
  (String.length suf = 6 → maskedKey (Some (pre +:+ suf)) = "****" +:+ suf)
  ∧ (nonempty key = true → String.length key ≤ 6 → maskedKey (Some key) = "****" +:+ key)
  ∧ maskedKey None = "Not Set"
  ∧ maskedKey (Some EmptyString) = "Not Set".
Proof.
  split; [|split; [|split; reflexivity]].
  - intros Hsuf. unfold maskedKey.
    assert (Hne : truthy_str (Some (pre +:+ suf)) = true).
    { destruct pre; [|reflexivity]. destruct suf; [discriminate Hsuf | reflexivity]. }
    rewrite Hne. cbv zeta. change (default EmptyString (Some (pre +:+ suf))) with (pre +:+ suf).
    unfold substring_from. rewrite length_append_str, Hsuf.
    replace (Z.to_nat (Z.of_nat (String.length pre + 6) - 6)) with (String.length pre) by lia.
    replace (String.length pre + 6 - String.length pre) with (String.length suf) by lia.
    rewrite substring_suffix. reflexivity.
  - intros Hne Hlen. unfold maskedKey. cbn [truthy_str]. rewrite Hne. cbv zeta.
    change (default EmptyString (Some key)) with key. unfold substring_from.
    replace (Z.to_nat (Z.of_nat (String.length key) - 6)) with 0 by lia.
    rewrite Nat.sub_0_r, substring_all. reflexivity.
Qed.

End Routes.

(** * The compiled server and its client *)

Section CompiledServer.
Import Compiled.
Implicit Types (w : World Link) (c : ClientId) (s a : SockId).

Lemma service_endConversation_once w c cl :
  clients w !! c = Some cl →
  ws cl ≠ Some (twilioSocket cl) →
  let r := Service.endConversation c w in
  sent_on (twilioSocket cl) (snd r)
    = (if is_open (readyState w !! twilioSocket cl)
       then [Mark (streamSid cl) "conversation-complete"] else [])
  ∧ clients (fst r) !! c = Some (client_with_isConnected false (client_with_ws None cl))
  ∧ readyState (fst r) !! twilioSocket cl = readyState w !! twilioSocket cl.
Proof.
  intros Hc Hd r. subst r. unfold Service.endConversation. rewrite Hc.
  rewrite !andThen_eq. cbn [fst snd write_client update].
  assert (Hrs : readyState (fst (Service.close_agent c cl w)) !! twilioSocket cl
                = readyState w !! twilioSocket cl).
  { unfold Service.close_agent. destruct (ws cl) as [a|] eqn:Ha; [|reflexivity].
    assert (Hne : a ≠ twilioSocket cl) by congruence.
    rewrite andThen_eq. cbn [fst snd write_client update].
    destruct (readyState w !! a) as [[]|]; simpl; try reflexivity;
      apply lookup_insert_ne; exact Hne. }
  assert (Hnos : sent_on (twilioSocket cl) (snd (Service.close_agent c cl w)) = []).
  { unfold Service.close_agent. destruct (ws cl) as [a|]; [|reflexivity].
    rewrite andThen_eq. cbn [fst snd write_client update]. rewrite app_nil_r.
    destruct (readyState w !! a) as [[]|]; reflexivity. }
  split; [|split].
  - rewrite app_nil_r, sent_on_app, Hnos. unfold Service.send_mark.
    cbn [readyState set_clients]. rewrite Hrs.
    destruct (is_open (readyState w !! twilioSocket cl)); simpl;
      rewrite ?Nat.eqb_refl; reflexivity.
  - unfold Service.send_mark. cbn [readyState set_clients]. rewrite Hrs.
    destruct (is_open (readyState w !! twilioSocket cl)); simpl; apply lookup_insert_eq.
  - unfold Service.send_mark. cbn [readyState set_clients]. rewrite Hrs.
    destruct (is_open (readyState w !! twilioSocket cl)); simpl; exact Hrs.
Qed.

(** X16. [endConversation] of the service client is not idempotent by
    itself: every call made while the telephony socket is open sends
    the completion mark again, [n] calls send [n] marks.  That a session
    gets one mark is the doing of [cleanupConnection], which calls it
    once. *)
Theorem endConversation_marks_every_call n w c cl :
  clients w !! c = Some cl →
  ws cl ≠ Some (twilioSocket cl) →
  is_open (readyState w !! twilioSocket cl) = true →
  sent_on (twilioSocket cl) (snd (again n (Service.endConversation c) w))
    = replicate n (Mark (streamSid cl) "conversation-complete").
Proof.
  revert w cl. induction n as [|n IH]; intros w cl Hc Hd Hopen; [reflexivity|].
  cbn [again]. rewrite andThen_eq. cbn [snd]. rewrite sent_on_app.
  destruct (service_endConversation_once w c cl Hc Hd) as [H1 [H2 H3]].
  rewrite H1, Hopen.
  specialize (IH _ _ H2). simpl in IH. rewrite IH.
  - reflexivity.
  - discriminate.
  - rewrite H3. exact Hopen.
Qed.
(** One media frame of the compiled server on a registered session. *)
Lemma compiled_media_step apiKey agentId w s k sid link cl p :
  closures w !! s = Some k →
  cl_streamSid k = Some sid →
  nonempty sid = true →
  activeConnections w !! sid = Some link →
  clients w !! link_elevenLabsClient link = Some cl →
  twilio_on_message apiKey agentId s (mediaFrame p) w
  = (w, if nonempty p
        then match isConnected cl, ws cl with
             | true, Some a => [Send a (LegacyAudio p)]
             | _, _ => [ConsoleWarn "Cannot send audio: WebSocket not connected"]
             end
        else []).
Proof.
  intros Hk Hsid Hne Hl Hc. unfold twilio_on_message. rewrite Hk.
  unfold mediaFrame. simpl. rewrite Hsid. simpl. rewrite Hne.
  unfold handle_media. simpl. destruct (nonempty p); [|reflexivity].
  rewrite Hl. unfold Service.sendAudio. rewrite Hc.
  destruct (isConnected cl); [destruct (ws cl)|]; reflexivity.
Qed.

Lemma compiled_media_run apiKey agentId w s k sid link cl ps :
  closures w !! s = Some k →
  cl_streamSid k = Some sid →
  nonempty sid = true →
  activeConnections w !! sid = Some link →
  clients w !! link_elevenLabsClient link = Some cl →
  compiled_media apiKey agentId s ps w
  = (w, map (fun p => match isConnected cl, ws cl with
                      | true, Some a => Send a (LegacyAudio p)
                      | _, _ => ConsoleWarn "Cannot send audio: WebSocket not connected"
                      end) (List.filter nonempty ps)).
Proof.
  intros Hk Hsid Hne Hl Hc. unfold compiled_media.
  induction ps as [|p ps IH]; [reflexivity|].
  cbn [forEach]. rewrite andThen_eq.
  rewrite (compiled_media_step apiKey agentId w s k sid link cl p Hk Hsid Hne Hl Hc).
  cbn [fst snd]. rewrite IH. simpl.
  destruct (nonempty p); [|reflexivity].
  destruct (isConnected cl); [destruct (ws cl)|]; reflexivity.
Qed.

Lemma sent_on_warnings {A : Type} a msg (l : list A) :
  sent_on a (map (fun _ => ConsoleWarn msg) l) = [].
Proof. induction l as [|x l IH]; [reflexivity | exact IH]. Qed.

Lemma sent_on_legacy a l :
  sent_on a (map (fun p => Send a (LegacyAudio p)) l) = map LegacyAudio l.
Proof.
  induction l as [|p l IH]; [reflexivity|].
  simpl. rewrite Nat.eqb_refl. simpl. f_equal. exact IH.
Qed.

(** X17. The compiled server has no queue. Media frames that arrive
    before the agent socket has opened are dropped, each with a
    warning, and are not sent later: once the socket is open the client
    sends its configuration and then only the payloads that arrive from
    then on, in arrival order. *)
Theorem compiled_audio_before_open_is_lost apiKey agentId w s k sid link cl a pre post :
  closures w !! s = Some k →
  cl_streamSid k = Some sid →
  nonempty sid = true →
  activeConnections w !! sid = Some link →
  clients w !! link_elevenLabsClient link = Some cl →
  isConnected cl = false →
  ws cl = Some a →
  let c := link_elevenLabsClient link in
  let r := (compiled_media apiKey agentId s pre
            >> Service.handleOpen c
            >> compiled_media apiKey agentId s post) w in
  compiled_media apiKey agentId s pre w
    = (w, map (fun _ => ConsoleWarn "Cannot send audio: WebSocket not connected")
              (List.filter nonempty pre))
  ∧ sent_on a (snd r)
    = LegacyConfig (firstMessage cl) (prompt cl)
      :: map LegacyAudio (List.filter nonempty post).
Proof.
  intros Hk Hsid Hne Hl Hc Hnc Hws c r.
  pose proof (compiled_media_run apiKey agentId w s k sid link cl pre Hk Hsid Hne Hl Hc)
    as Hpre.
  rewrite Hnc in Hpre. split; [exact Hpre|].
  unfold r. rewrite !andThen_eq, Hpre. cbn [fst snd].
  assert (Hopen : Service.handleOpen c w
                  = (set_clients (<[c := client_with_isConnected true cl]>) w,
                     [Send a (LegacyConfig (firstMessage cl) (prompt cl))])).
  { unfold Service.handleOpen. fold c in Hc. rewrite Hc, andThen_eq, Hws. reflexivity. }
  rewrite Hopen. cbn [fst snd].
  rewrite (compiled_media_run apiKey agentId _ s k sid link
             (client_with_isConnected true cl) post); try assumption.
  - simpl. rewrite Hws. rewrite !sent_on_app, sent_on_warnings. simpl.
    rewrite Nat.eqb_refl. f_equal. apply sent_on_legacy.
  - simpl. apply lookup_insert_eq.
Qed.

(** X18. A session of the compiled server that is started and at once
    stopped is gone again: the entry the [start] frame registered is
    removed, the agent socket it had begun to connect is terminated,
    and the telephony socket, being open, gets the completion mark.
    Nothing else is done. *)
Theorem compiled_start_then_stop apiKey agentId w s k sid callSid params :
  closures w !! s = Some k →
  nonempty sid = true →
  nonempty callSid = true →
  truthy_str apiKey = true →
  truthy_str agentId = true →
  is_open (readyState w !! s) = true →
  s < nextId w →
  let r := (twilio_on_message apiKey agentId s (startFrame sid callSid params)
            >> twilio_on_message apiKey agentId s stopFrame) w in
  snd r = [Terminate (S (nextId w)); Send s (Mark sid "conversation-complete")]
  ∧ activeConnections (fst r) !! sid = None
  ∧ (∀ sid', sid' ≠ sid → activeConnections (fst r) !! sid' = activeConnections w !! sid')
  ∧ ws <$> clients (fst r) !! nextId w = Some None.
Proof.
  intros Hk Hsid Hcall Hkey Hagent Hopen Hlt r.
  set (c := nextId w). set (a := S (nextId w)).
  set (p := or_default (params ≫= cp_prompt) "You are a friendly AI assistant.").
  set (fm := or_default (params ≫= cp_first_message)
               "Hello, this is an AI assistant calling you.").
  set (cl := mkClient sid s p fm (Some a) false).
  set (w1 := set_clients (<[c := cl]>)
               (set_readyState (<[a := CONNECTING]>)
                  (set_nextId (S a)
                     (set_activeConnections (<[sid := mkLink s c]>)
                        (set_clients (<[c := mkClient sid s p fm None false]>)
                           (set_nextId (S c)
                              (set_closures (<[s := mkClosure (Some sid) (Some callSid)]>)
                                 w))))))).
  assert (H1 : twilio_on_message apiKey agentId s (startFrame sid callSid params) w
               = (w1, [])).
  { unfold twilio_on_message, startFrame. rewrite Hk. simpl.
    unfold handle_start, or_null. cbn [tw_start mbind option_bind start_streamSid
      start_callSid start_customParameters truthy_str]. rewrite Hsid, Hcall.
    cbn [truthy_str]. rewrite Hsid, Hcall.
    cbn [negb orb default]. rewrite !andThen_eq. cbn [fst snd update write_client].
    unfold Service.startConversation. simpl clients. rewrite lookup_insert_eq.
    rewrite Hkey, Hagent. cbn [negb orb]. rewrite !andThen_eq. reflexivity. }
  assert (Hsa : s ≠ a) by (unfold a; lia).
  assert (H2 : twilio_on_message apiKey agentId s stopFrame w1
               = (set_activeConnections (delete sid)
                    (set_clients (<[c := client_with_isConnected false
                                            (client_with_ws None cl)]>)
                       (set_clients (<[c := client_with_ws None cl]>)
                          (set_readyState (<[a := CLOSING]>) w1))),
                  [Terminate a; Send s (Mark sid "conversation-complete")])).
  { unfold twilio_on_message, stopFrame. simpl closures. rewrite lookup_insert_eq.
    simpl. rewrite Hsid. unfold on_stop, cleanupConnection. simpl activeConnections.
    rewrite lookup_insert_eq. rewrite andThen_eq.
    unfold Service.endConversation. simpl clients. rewrite lookup_insert_eq.
    rewrite !andThen_eq. unfold Service.close_agent. cbn [ws cl].
    simpl readyState. rewrite lookup_insert_eq. rewrite !andThen_eq.
    cbn [fst snd update write_client ws_terminate emit].
    unfold Service.send_mark. cbn [twilioSocket cl streamSid].
    simpl readyState. rewrite !lookup_insert_ne by (intros Heq; apply Hsa; symmetry; exact Heq).
    rewrite Hopen. reflexivity. }
  unfold r. rewrite andThen_eq, H1. cbn [fst snd]. rewrite H2. cbn [fst snd].
  split; [reflexivity|]. split; [|split].
  - simpl. apply lookup_delete_eq.
  - intros sid' Hd. simpl. rewrite lookup_delete_ne by congruence.
    rewrite lookup_insert_ne by congruence. reflexivity.
  - simpl. rewrite lookup_insert_eq. reflexivity.
Qed.

(** X19. The connection timer of the service client. Fired on a client
    that is connected, or that has no socket, it does nothing.  Fired
    on a client whose socket has not opened, it logs, terminates the
    socket and forgets it: from then on [sendAudio] only warns, and a
    later [endConversation] finds nothing to close. *)
Theorem connection_timeout_forgets_socket w c cl p :
  clients w !! c = Some cl →
  let r := Service.on_connectionTimeout c w in
  (isConnected cl = true ∨ ws cl = None → r = (w, []))
  ∧ (∀ a, isConnected cl = false →
          ws cl = Some a →
          snd r = [ConsoleError "ElevenLabs WebSocket connection timed out after 10 seconds";
                   Terminate a]
          ∧ ws <$> clients (fst r) !! c = Some None
          ∧ Service.sendAudio c p (fst r)
            = (fst r, [ConsoleWarn "Cannot send audio: WebSocket not connected"])
          ∧ closings (snd (Service.endConversation c (fst r))) = []).
Proof.
  intros Hc r. subst r. unfold Service.on_connectionTimeout. rewrite Hc. split.
  - intros [Hcon | Hws].
    + rewrite Hcon. reflexivity.
    + rewrite Hws. destruct (isConnected cl); reflexivity.
  - intros a Hcon Hws. rewrite Hcon, Hws.
    rewrite !andThen_eq. cbn [fst snd update write_client ws_terminate emit].
    split; [reflexivity|]. split; [simpl; rewrite lookup_insert_eq; reflexivity|].
    split.
    + unfold Service.sendAudio. simpl clients. rewrite lookup_insert_eq. simpl.
      rewrite Hcon. reflexivity.
    + unfold Service.endConversation. simpl clients. rewrite lookup_insert_eq.
      rewrite !andThen_eq. unfold Service.close_agent, Service.send_mark. simpl.
      match goal with |- context [if ?b then _ else _] => destruct b end; reflexivity.
Qed.

Lemma service_handleMessage_state c p w : fst (Service.handleMessage c p w) = w.
Proof.
  unfold Service.handleMessage. destruct (clients w !! c) as [cl|]; [|reflexivity].
  destruct p as [| |m]; try reflexivity. rewrite andThen_eq.
  destruct (Service.msg_type m) as [t|]; [destruct (String.eqb t "error")|];
    destruct (truthy_str (Service.msg_audio m)); reflexivity.
Qed.

Lemma service_handleMessage_sent c cl m w :
  clients w !! c = Some cl →
  sent_on (twilioSocket cl) (snd (Service.handleMessage c (Js m) w))
  = match service_audio m with
    | Some p => [Media (streamSid cl) p]
    | None => []
    end.
Proof.
  intros Hc. unfold Service.handleMessage, service_audio. rewrite Hc, andThen_eq.
  destruct (Service.msg_type m) as [t|]; [destruct (String.eqb t "error")|];
    destruct (Service.msg_audio m) as [x|]; simpl; try reflexivity;
    destruct (nonempty x); simpl; rewrite ?Nat.eqb_refl; reflexivity.
Qed.

(** X20. The service client forwards agent audio in arrival order and
    whatever the type of the frame: each frame whose [audio] is truthy,
    an [error] frame included, gives one media frame with the session's
    [streamSid] to the telephony socket; the frames without audio give
    none.  Handling agent frames never changes the client, and a frame
    that does not parse costs one [console.error] line. *)
Theorem service_audio_forwarded_in_order w c cl ms :
  clients w !! c = Some cl →
  fst (forEach (Service.handleMessage c) (map Js ms) w) = w
  ∧ sent_on (twilioSocket cl) (snd (forEach (Service.handleMessage c) (map Js ms) w))
    = map (Media (streamSid cl)) (omap service_audio ms)
  ∧ Service.handleMessage c SyntaxError w
    = (w, [ConsoleError "Error handling message from ElevenLabs:"]).
Proof.
  intros Hc. rewrite forEach_silent by apply service_handleMessage_state.
  split; [reflexivity|]. split.
  - cbn [snd]. induction ms as [|m ms IH]; [reflexivity|].
    simpl. rewrite sent_on_app, IH, (service_handleMessage_sent c cl m w Hc).
    destruct (service_audio m); reflexivity.
  - unfold Service.handleMessage. rewrite Hc. reflexivity.
Qed.
End CompiledServer.

(** * The further properties at concrete sessions *)

Section FurtherInstances.
Import Standalone StandaloneFacts Scenario.

Lemma frames_outside_session_ignored_witness :
  let w := fst (run [TwilioConnect] initial) in
  let k := mkClosure None None in
  let frames := [(mkTwilioMessage (Some "media") None (Some (mkMediaInfo (Some "QUJD"))), 1%Z);
                 (mkTwilioMessage (Some "stop") None None, 2%Z)] in
  (crashed w = false ∧ closures w !! 0 = Some k ∧ session_of w k = None)
  ∧ run (frame_events 0 frames) w = (w, [])
  ∧ twilio_on_close 0 w = (w, []).
Proof.
  intros w k frames.
  assert (H1 : crashed w = false) by reflexivity.
  assert (H2 : closures w !! 0 = Some k) by (vm_compute; reflexivity).
  assert (H3 : session_of w k = None) by reflexivity.
  assert (H4 : Forall (fun f => event_is (fst f) "start" = false) frames)
    by (repeat constructor).
  split; [repeat split; assumption|].
  exact (frames_outside_session_ignored w 0 k frames H1 H2 H3 H4).
Defined.

Lemma stop_ends_session_witness :
  let w := fst (run (session_up "S1" "C1") initial) in
  let k := mkClosure (Some "S1") (Some "C1") in
  let e := mkConnection 0 1 true [] 0%Z in
  let r := step (TwilioFrame 0 stopFrame 5%Z) w in
  (crashed w = false ∧ closures w !! 0 = Some k ∧ activeConnections w !! "S1" = Some e)
  ∧ activeConnections (fst r) !! "S1" = None
  ∧ (∀ sid', sid' ≠ "S1" → activeConnections (fst r) !! sid' = activeConnections w !! sid')
  ∧ snd r = match clients w !! elevenLabsClient e ≫= ws with
            | Some a => if is_open (readyState w !! a) then [Close a] else []
            | None => []
            end
  ∧ run (media_events 0 [("a", 6%Z); ("b", 7%Z)]) (fst r) = (fst r, []).
Proof.
  intros w k e r.
  assert (H1 : crashed w = false) by reflexivity.
  assert (H2 : closures w !! 0 = Some k) by (vm_compute; reflexivity).
  assert (H3 : activeConnections w !! "S1" = Some e) by (vm_compute; reflexivity).
  split; [repeat split; assumption|].
  exact (stop_ends_session w 0 k "S1" e 5%Z [("a", 6%Z); ("b", 7%Z)]
           H1 H2 eq_refl eq_refl H3).
Defined.

Lemma agent_close_drops_audio_witness :
  let w := fst (run (session_up "S1" "C1") initial) in
  let e := mkConnection 0 1 true [] 0%Z in
  let cl := mkClient "S1" 0 default_prompt default_firstMessage (Some 2) true in
  let frames := [("a", 6%Z); ("b", 7%Z)] in
  let r := step (AgentClose 1) w in
  (streaming w 0 "S1" 1 2 e cl ∧ agent_socket w 1 = Some 2)
  ∧ snd r = []
  ∧ activeConnections (fst r) = activeConnections w
  ∧ isConnected <$> clients (fst r) !! 1 = Some false
  ∧ run (media_events 0 frames) (fst r)
    = (fst r, map (fun _ => ConsoleWarn "Cannot send audio: WebSocket not connected")
                  (payloads frames)).
Proof.
  intros w e cl frames r.
  assert (H1 : streaming w 0 "S1" 1 2 e cl) by (split; vm_compute; reflexivity).
  assert (H2 : agent_socket w 1 = Some 2) by (vm_compute; reflexivity).
  split; [split; assumption|].
  exact (agent_close_drops_audio w 0 "S1" 1 2 e cl frames H1 H2).
Defined.

Lemma start_without_streamSid_orphans_session_witness :
  let w := fst (run (session_connecting "S1" "C1") initial) in
  let k := mkClosure (Some "S1") (Some "C1") in
  let st := Some (mkStartInfo None (Some "C2") None) in
  let frames := [(mkTwilioMessage (Some "media") None (Some (mkMediaInfo (Some "QUJD"))), 6%Z);
                 (mkTwilioMessage (Some "stop") None None, 7%Z)] in
  let r := step (TwilioFrame 0 (Js (mkTwilioMessage (Some "start") st None)) 5%Z) w in
  (crashed w = false ∧ closures w !! 0 = Some k
   ∧ truthy_str (st ≫= start_streamSid) = false)
  ∧ snd r = [ConsoleError "Missing streamSid or callSid in start event"]
  ∧ activeConnections (fst r) = activeConnections w
  ∧ clients (fst r) = clients w
  ∧ run (frame_events 0 frames) (fst r) = (fst r, [])
  ∧ twilio_on_close 0 (fst r) = (fst r, []).
Proof.
  intros w k st frames r.
  assert (H1 : crashed w = false) by reflexivity.
  assert (H2 : closures w !! 0 = Some k) by (vm_compute; reflexivity).
  assert (H3 : truthy_str (st ≫= start_streamSid) = false) by reflexivity.
  assert (H4 : Forall (fun f => event_is (fst f) "start" = false) frames)
    by (repeat constructor).
  split; [repeat split; assumption|].
  exact (start_without_streamSid_orphans_session w 0 k st 5%Z frames H1 H2 H3 H4).
Defined.

Lemma handshake_carries_parameters_witness :
  let w := fst (run [TwilioConnect] initial) in
  let k := mkClosure None None in
  let params := Some (mkCustomParameters (Some "Be brief.") (Some EmptyString)) in
  let r := run [TwilioFrame 0 (startFrame "S1" "C1" params) 3%Z;
                SignedUrl 1 true; AgentOpen 1] w in
  (crashed w = false ∧ closures w !! 0 = Some k)
  ∧ snd r = [Send 2 (InitiationData "Be brief." default_firstMessage)]
  ∧ streaming (fst r) 0 "S1" 1 2 (mkConnection 0 1 true [] 3%Z)
      (mkClient "S1" 0 "Be brief." default_firstMessage (Some 2) true).
Proof.
  intros w k params r.
  assert (H1 : crashed w = false) by reflexivity.
  assert (H2 : closures w !! 0 = Some k) by (vm_compute; reflexivity).
  split; [split; assumption|].
  exact (handshake_carries_parameters w 0 k "S1" "C1" params 3%Z H1 H2 eq_refl eq_refl).
Defined.

Lemma stop_while_connecting_crashes_on_open_witness :
  let w := fst (run (session_connecting "S1" "C1") initial) in
  let e := mkConnection 0 1 false [] 0%Z in
  let cl := mkClient "S1" 0 default_prompt default_firstMessage (Some 2) false in
  let r1 := step (TwilioFrame 0 stopFrame 5%Z) w in
  let r2 := step (AgentOpen 1) (fst r1) in
  awaiting w 0 "S1" 1 2 e cl
  ∧ snd r1 = []
  ∧ activeConnections (fst r1) !! "S1" = None
  ∧ readyState (fst r1) !! 2 = Some CONNECTING
  ∧ ws <$> clients (fst r1) !! 1 = Some None
  ∧ snd r2 = [Uncaught "TypeError: Cannot read properties of null (reading 'send')"]
  ∧ crashed (fst r2) = true
  ∧ run [TwilioFrame 0 (startFrame "S2" "C2" None) 9%Z] (fst r2) = (fst r2, []).
Proof.
  intros w e cl r1 r2.
  assert (H1 : awaiting w 0 "S1" 1 2 e cl) by (split; vm_compute; reflexivity).
  split; [exact H1|].
  exact (stop_while_connecting_crashes_on_open w 0 "S1" 1 2 e cl 5%Z
           [TwilioFrame 0 (startFrame "S2" "C2" None) 9%Z] H1).
Defined.

Lemma late_open_after_timeout_never_ready_witness :
  let w := fst (run (session_connecting "S1" "C1") initial) in
  let e := mkConnection 0 1 false [] 0%Z in
  let cl := mkClient "S1" 0 default_prompt default_firstMessage (Some 2) false in
  let frames := [("a", 11%Z); ("b", 12%Z)] in
  let r := run (ConnectTimeout 1 :: AgentOpen 1 :: media_events 0 frames) w in
  (reachable w ∧ awaiting w 0 "S1" 1 2 e cl
   ∧ call_timer <$> calls w !! 1 = Some true ∧ isConnected cl = false)
  ∧ sent_on 2 (snd r) = [InitiationData (prompt cl) (firstMessage cl)]
  ∧ call_promise <$> calls (fst r) !! 1 = Some Rejected
  ∧ isConnected <$> clients (fst r) !! 1 = Some true
  ∧ activeConnections (fst r) !! "S1"
    = Some (conn_with_audioQueue (lastn 50 (audioQueue e ++ payloads frames)) e).
Proof.
  intros w e cl frames r.
  assert (H1 : reachable w) by (apply reachable_run, reach_initial).
  assert (H2 : awaiting w 0 "S1" 1 2 e cl) by (split; vm_compute; reflexivity).
  assert (H3 : call_timer <$> calls w !! 1 = Some true) by (vm_compute; reflexivity).
  assert (H4 : isConnected cl = false) by reflexivity.
  split; [repeat split; assumption|].
  exact (late_open_after_timeout_never_ready w 0 "S1" 1 2 e cl frames H1 H2 H3 H4).
Defined.

Lemma signed_url_failure_strands_session_witness :
  let w := fst (run [TwilioConnect; TwilioFrame 0 (startFrame "S1" "C1" None) 0%Z] initial) in
  let e := mkConnection 0 1 false [] 0%Z in
  let cl := mkClient "S1" 0 default_prompt default_firstMessage None false in
  let frames := [("a", 1%Z); ("b", 2%Z)] in
  let r := run (SignedUrl 1 false :: media_events 0 frames ++ [AgentOpen 1]) w in
  (reachable w ∧ starting w 0 "S1" 1 e cl)
  ∧ (∀ b, sent_on b (snd r) = [])
  ∧ agent_socket (fst r) 1 = None
  ∧ call_promise <$> calls (fst r) !! 1 = Some Rejected
  ∧ activeConnections (fst r) !! "S1"
    = Some (conn_with_audioQueue (lastn 50 (audioQueue e ++ payloads frames)) e).
Proof.
  intros w e cl frames r.
  assert (H1 : reachable w) by (apply reachable_run, reach_initial).
  assert (H2 : starting w 0 "S1" 1 e cl).
  { split; try (vm_compute; reflexivity). exists false. vm_compute. reflexivity. }
  split; [split; assumption|].
  exact (signed_url_failure_strands_session w 0 "S1" 1 e cl frames H1 H2).
Defined.

Lemma ready_entry_has_empty_queue_witness :
  let w := fst (run (session_up "S1" "C1" ++ media_events 0 [("a", 1%Z)]) initial) in
  let e := mkConnection 0 1 true [] 0%Z in
  (reachable w ∧ activeConnections w !! "S1" = Some e ∧ isReady e = true)
  ∧ audioQueue e = [].
Proof.
  intros w e.
  assert (H1 : reachable w) by (apply reachable_run, reach_initial).
  assert (H2 : activeConnections w !! "S1" = Some e) by (vm_compute; reflexivity).
  assert (H3 : isReady e = true) by reflexivity.
  split; [repeat split; assumption|].
  exact (ready_entry_has_empty_queue w "S1" e H1 H2 H3).
Defined.

Lemma agent_audio_forwarded_in_order_witness :
  let w := fst (run (session_up "S1" "C1") initial) in
  let cl := mkClient "S1" 0 default_prompt default_firstMessage (Some 2) true in
  let frames := [(Some (mkAudioInfo (Some "QUJD")), Some (mkAudioEvent (Some "WFla")));
                 (None, Some (mkAudioEvent (Some "REVG")));
                 (Some (mkAudioInfo (Some EmptyString)), None)] in
  (reachable w ∧ clients w !! 1 = Some cl)
  ∧ forEach (on_message 1) (audio_frames frames) w
    = (w, [Send 0 (Media "S1" "QUJD"); Send 0 (Media "S1" "REVG")]).
Proof.
  intros w cl frames.
  assert (H1 : reachable w) by (apply reachable_run, reach_initial).
  assert (H2 : clients w !! 1 = Some cl) by (vm_compute; reflexivity).
  split; [split; assumption|].
  exact (agent_audio_forwarded_in_order w 1 cl frames H1 H2).
Defined.

Lemma second_start_diverts_queue_witness :
  let w := fst (run (session_connecting "S1" "C1") initial) in
  let e1 := mkConnection 0 1 false [] 0%Z in
  let cl1 := mkClient "S1" 0 default_prompt default_firstMessage (Some 2) false in
  let frames := [("a", 6%Z); ("b", 7%Z)] in
  let r := run (TwilioFrame 0 (startFrame "S2" "C2" None) 5%Z
                :: media_events 0 frames ++ [AgentOpen 1]) w in
  (reachable w ∧ awaiting w 0 "S1" 1 2 e1 cl1 ∧ "S2" ≠ "S1")
  ∧ sent_on 2 (snd r)
    = InitiationData (prompt cl1) (firstMessage cl1)
      :: map UserAudioChunk (lastn 50 (payloads frames))
  ∧ activeConnections (fst r) !! "S1" = Some e1
  ∧ activeConnections (fst r) !! "S2" = Some (mkConnection 0 (nextId w) true [] 5%Z)
  ∧ ws <$> clients (fst r) !! nextId w = Some None.
Proof.
  intros w e1 cl1 frames r.
  assert (H1 : reachable w) by (apply reachable_run, reach_initial).
  assert (H2 : awaiting w 0 "S1" 1 2 e1 cl1) by (split; vm_compute; reflexivity).
  assert (H3 : "S2" ≠ "S1") by discriminate.
  split; [repeat split; assumption|].
  exact (second_start_diverts_queue w 0 "S1" 1 2 e1 cl1 "S2" "C2" None 5%Z frames
           H1 H2 eq_refl eq_refl H3).
Defined.

Lemma formatNumber_adds_plus_once_witness :
  (String.prefix "+" "15551234567" = false ∧ String.prefix "+" "+15551234567" = true)
  ∧ Http.formatNumber "15551234567" = "+15551234567"
  ∧ Http.formatNumber "+15551234567" = "+15551234567".
Proof.
  assert (H1 : String.prefix "+" "15551234567" = false) by reflexivity.
  assert (H2 : String.prefix "+" "+15551234567" = true) by reflexivity.
  split; [split; assumption|]. split.
  - exact (proj2 (proj2 (proj2 (formatNumber_adds_plus_once "15551234567"))) H1).
  - exact (proj1 (proj2 (proj2 (formatNumber_adds_plus_once "+15551234567"))) H2).
Defined.

Lemma streamUrl_scheme_witness :
  Http.strip_prefix "http" "localhost:8000" = None
  ∧ Http.streamUrl "localhost:8000" = "localhost:8000/call-stream".
Proof.
  assert (H1 : Http.strip_prefix "http" "localhost:8000" = None) by reflexivity.
  split; [exact H1|].
  exact (proj1 (proj2 (proj2 (streamUrl_scheme "localhost:8000" EmptyString))) H1).
Defined.

Lemma maskedKey_shows_last_six_witness :
  (String.length "c3d4e5" = 6 ∧ nonempty "abc" = true ∧ String.length "abc" ≤ 6)
  ∧ Http.maskedKey (Some "sk_a1b2c3d4e5") = "****c3d4e5"
  ∧ Http.maskedKey (Some "abc") = "****abc".
Proof.
  assert (H1 : String.length "c3d4e5" = 6) by reflexivity.
  assert (H2 : nonempty "abc" = true) by reflexivity.
  assert (H3 : String.length "abc" ≤ 6) by (simpl; lia).
  split; [repeat split; assumption|]. split.
  - exact (proj1 (maskedKey_shows_last_six "sk_a1b2" "c3d4e5" "abc") H1).
  - exact (proj1 (proj2 (maskedKey_shows_last_six "sk_a1b2" "c3d4e5" "abc")) H2 H3).
Defined.


Lemma endConversation_marks_every_call_witness :
  let cl := mkClient "S1" 0 "prompt" "hello" (Some 2) true in
  let w : World Compiled.Link :=
    mkWorld (<["S1" := Compiled.mkLink 0 1]> ∅) (<[1 := cl]> ∅)
            (<[0 := OPEN]> (<[2 := OPEN]> ∅)) ∅ ∅ 3 false in
  (clients w !! 1 = Some cl ∧ ws cl ≠ Some (twilioSocket cl)
   ∧ is_open (readyState w !! twilioSocket cl) = true)
  ∧ sent_on (twilioSocket cl) (snd (again 3 (Service.endConversation 1) w))
    = replicate 3 (Mark (streamSid cl) "conversation-complete").
Proof.
  intros cl w.
  assert (H1 : clients w !! 1 = Some cl) by (vm_compute; reflexivity).
  assert (H2 : ws cl ≠ Some (twilioSocket cl)) by (simpl; discriminate).
  assert (H3 : is_open (readyState w !! twilioSocket cl) = true) by (vm_compute; reflexivity).
  split; [repeat split; assumption|].
  exact (endConversation_marks_every_call 3 w 1 cl H1 H2 H3).
Defined.

Lemma compiled_audio_before_open_is_lost_witness :
  let cl := mkClient "S1" 0 "prompt" "hello" (Some 2) false in
  let k := mkClosure (Some "S1") (Some "C1") in
  let link := Compiled.mkLink 0 1 in
  let w : World Compiled.Link :=
    mkWorld (<["S1" := link]> ∅) (<[1 := cl]> ∅)
            (<[0 := OPEN]> (<[2 := CONNECTING]> ∅)) (<[0 := k]> ∅) ∅ 3 false in
  let pre := ["a"; EmptyString; "b"] in
  let post := ["c"; "d"] in
  let r := (compiled_media (Some "key") (Some "agent") 0 pre
            >> Service.handleOpen 1
            >> compiled_media (Some "key") (Some "agent") 0 post) w in
  (closures w !! 0 = Some k ∧ activeConnections w !! "S1" = Some link
   ∧ clients w !! 1 = Some cl)
  ∧ compiled_media (Some "key") (Some "agent") 0 pre w
    = (w, map (fun _ => ConsoleWarn "Cannot send audio: WebSocket not connected")
              (List.filter nonempty pre))
  ∧ sent_on 2 (snd r)
    = LegacyConfig (firstMessage cl) (prompt cl)
      :: map LegacyAudio (List.filter nonempty post).
Proof.
  intros cl k link w pre post r.
  assert (H1 : closures w !! 0 = Some k) by (vm_compute; reflexivity).
  assert (H2 : activeConnections w !! "S1" = Some link) by (vm_compute; reflexivity).
  assert (H3 : clients w !! 1 = Some cl) by (vm_compute; reflexivity).
  split; [repeat split; assumption|].
  exact (compiled_audio_before_open_is_lost (Some "key") (Some "agent") w 0 k "S1" link cl 2
           pre post H1 eq_refl eq_refl H2 H3 eq_refl eq_refl).
Defined.

Lemma compiled_start_then_stop_witness :
  let k := mkClosure None None in
  let w : World Compiled.Link :=
    mkWorld ∅ ∅ (<[0 := OPEN]> ∅) (<[0 := k]> ∅) ∅ 1 false in
  let r := (Compiled.twilio_on_message (Some "key") (Some "agent") 0 (startFrame "S1" "C1" None)
            >> Compiled.twilio_on_message (Some "key") (Some "agent") 0 stopFrame) w in
  (closures w !! 0 = Some k ∧ is_open (readyState w !! 0) = true ∧ 0 < nextId w)
  ∧ snd r = [Terminate (S (nextId w)); Send 0 (Mark "S1" "conversation-complete")]
  ∧ activeConnections (fst r) !! "S1" = None
  ∧ (∀ sid', sid' ≠ "S1" → activeConnections (fst r) !! sid' = activeConnections w !! sid')
  ∧ ws <$> clients (fst r) !! nextId w = Some None.
Proof.
  intros k w r.
  assert (H1 : closures w !! 0 = Some k) by (vm_compute; reflexivity).
  assert (H2 : is_open (readyState w !! 0) = true) by (vm_compute; reflexivity).
  assert (H3 : 0 < nextId w) by (simpl; lia).
  split; [repeat split; assumption|].
  exact (compiled_start_then_stop (Some "key") (Some "agent") w 0 k "S1" "C1" None
           H1 eq_refl eq_refl eq_refl eq_refl H2 H3).
Defined.

Lemma connection_timeout_forgets_socket_witness :
  let cl := mkClient "S1" 0 "prompt" "hello" (Some 2) false in
  let idle := mkClient "S2" 0 "prompt" "hello" None false in
  let w : World Compiled.Link :=
    mkWorld (<["S1" := Compiled.mkLink 0 1]> ∅) (<[1 := cl]> (<[4 := idle]> ∅))
            (<[0 := OPEN]> (<[2 := CONNECTING]> ∅)) ∅ ∅ 5 false in
  let r := Service.on_connectionTimeout 1 w in
  (clients w !! 1 = Some cl ∧ ws cl = Some 2 ∧ isConnected cl = false
   ∧ clients w !! 4 = Some idle ∧ ws idle = None)
  ∧ (snd r = [ConsoleError "ElevenLabs WebSocket connection timed out after 10 seconds";
              Terminate 2]
     ∧ ws <$> clients (fst r) !! 1 = Some None
     ∧ Service.sendAudio 1 "QUJD" (fst r)
       = (fst r, [ConsoleWarn "Cannot send audio: WebSocket not connected"])
     ∧ closings (snd (Service.endConversation 1 (fst r))) = [])
  ∧ Service.on_connectionTimeout 4 w = (w, []).
Proof.
  intros cl idle w r.
  assert (H1 : clients w !! 1 = Some cl) by (vm_compute; reflexivity).
  assert (H2 : ws cl = Some 2) by reflexivity.
  assert (H3 : isConnected cl = false) by reflexivity.
  assert (H4 : clients w !! 4 = Some idle) by (vm_compute; reflexivity).
  assert (H5 : ws idle = None) by reflexivity.
  split; [repeat split; assumption|]. split.
  - exact (proj2 (connection_timeout_forgets_socket w 1 cl "QUJD" H1) 2 H3 H2).
  - exact (proj1 (connection_timeout_forgets_socket w 4 idle "QUJD" H4) (or_intror H5)).
Defined.

Lemma service_audio_forwarded_in_order_witness :
  let cl := mkClient "S1" 0 "prompt" "hello" (Some 2) true in
  let w : World Compiled.Link :=
    mkWorld (<["S1" := Compiled.mkLink 0 1]> ∅) (<[1 := cl]> ∅)
            (<[0 := OPEN]> (<[2 := OPEN]> ∅)) ∅ ∅ 3 false in
  let ms := [Service.mkMessage None None (Some "QUJD");
             Service.mkMessage (Some "agent_response") (Some "Hi") None;
             Service.mkMessage (Some "error") (Some "oops") (Some "REVG")] in
  clients w !! 1 = Some cl
  ∧ fst (forEach (Service.handleMessage 1) (map Js ms) w) = w
  ∧ sent_on 0 (snd (forEach (Service.handleMessage 1) (map Js ms) w))
    = [Media "S1" "QUJD"; Media "S1" "REVG"]
  ∧ Service.handleMessage 1 SyntaxError w
    = (w, [ConsoleError "Error handling message from ElevenLabs:"]).
Proof.
  intros cl w ms.
  assert (H1 : clients w !! 1 = Some cl) by (vm_compute; reflexivity).
  split; [exact H1|].
  exact (service_audio_forwarded_in_order w 1 cl ms H1).
Defined.
End FurtherInstances.

(** * The TypeScript handler *)

Section TypedHandler.
Import Typed.
Variables apiKey agentId : option string.
Implicit Types (st : Stream) (a : SockId) (sid : string).

Lemma typed_run_app evs1 evs2 st :
  run apiKey agentId (evs1 ++ evs2) st
  = (fst (run apiKey agentId evs2 (fst (run apiKey agentId evs1 st))),
     snd (run apiKey agentId evs1 st)
       ++ snd (run apiKey agentId evs2 (fst (run apiKey agentId evs1 st)))).
Proof.
  revert st. induction evs1 as [|ev evs1 IH]; intros st.
  - simpl. destruct (run apiKey agentId evs2 st). reflexivity.
  - simpl. rewrite IH. simpl. rewrite app_assoc. reflexivity.
Qed.

Lemma typed_run_cons ev evs st :
  run apiKey agentId (ev :: evs) st
  = (fst (run apiKey agentId evs (fst (step apiKey agentId ev st))),
     snd (step apiKey agentId ev st)
       ++ snd (run apiKey agentId evs (fst (step apiKey agentId ev st)))).
Proof. reflexivity. Qed.

(** Media frames while the agent socket is missing or not open. *)
Lemma typed_media_dropped st ps :
  (∀ a, v_elevenLabsWs (vars st) = Some a → is_open (readyState (world st) !! a) = false) →
  run apiKey agentId (media ps) st = (st, []).
Proof.
  intros Hno. induction ps as [|p ps IH]; [reflexivity|].
  unfold media. simpl map. rewrite typed_run_cons. fold (media ps).
  assert (Hstep : step apiKey agentId
                    (TwilioFrame (Js (mkTwilioMessage (Some "media") None
                                        (Some (mkMediaInfo (Some p)))))) st = (st, [])).
  { simpl. unfold twilio_on_message. simpl. unfold handle_media.
    destruct (v_elevenLabsWs (vars st)) as [a|] eqn:Ha; [|reflexivity].
    rewrite (Hno a eq_refl), andb_false_r. reflexivity. }
  rewrite Hstep. simpl. rewrite IH. reflexivity.
Qed.

(** Media frames while it is open. *)
Lemma typed_media_sent st sid a ps :
  v_elevenLabsWs (vars st) = Some a →
  v_streamSid (vars st) = Some sid →
  nonempty sid = true →
  readyState (world st) !! a = Some OPEN →
  run apiKey agentId (media ps) st
  = (st, map (fun p => Send a (LegacyAudio p)) (List.filter nonempty ps)).
Proof.
  intros Ha Hsid Hne Hopen. induction ps as [|p ps IH]; [reflexivity|].
  unfold media. simpl map. rewrite typed_run_cons. fold (media ps).
  assert (Hstep : step apiKey agentId
                    (TwilioFrame (Js (mkTwilioMessage (Some "media") None
                                        (Some (mkMediaInfo (Some p)))))) st
                  = (st, if nonempty p then [Send a (LegacyAudio p)] else [])).
  { simpl. unfold twilio_on_message. simpl. unfold handle_media.
    rewrite Ha, Hsid, Hopen. simpl. rewrite Hne. simpl.
    destruct (nonempty p); reflexivity. }
  rewrite Hstep. cbn [fst snd]. rewrite IH. simpl.
  destruct (nonempty p); reflexivity.
Qed.

(** A well-formed [start] frame and the end of its [await], with both
    environment variables set. *)
Lemma typed_started st sid callSid params :
  nonempty sid = true →
  nonempty callSid = true →
  truthy_str apiKey = true →
  truthy_str agentId = true →
  run apiKey agentId (started sid callSid params) st
  = (mkStream (twilioWs st)
       (mkVars (Some (nextId (world st))) (Some sid)
          (Some (or_default (params ≫= cp_prompt)
                   "You are a friendly AI assistant making a phone call."))
          (Some (or_default (params ≫= cp_first_message)
                   "Hello, this is an automated call from an AI assistant.")))
       (suspended st) (nextId (world st) :: listening st)
       (set_activeConnections (<[sid := mkLink (twilioWs st) (nextId (world st))]>)
          (set_readyState (<[nextId (world st) := CONNECTING]>)
             (set_nextId (S (nextId (world st))) (world st)))), []).
Proof.
  intros Hsid Hcall Hk Hg.
  unfold started. rewrite typed_run_cons.
  assert (H1 : step apiKey agentId
                 (TwilioFrame (Js (mkTwilioMessage (Some "start")
                                     (Some (mkStartInfo (Some sid) (Some callSid) params))
                                     None))) st
               = (mkStream (twilioWs st)
                    (mkVars (v_elevenLabsWs (vars st)) (Some sid)
                       (Some (or_default (params ≫= cp_prompt)
                                "You are a friendly AI assistant making a phone call."))
                       (Some (or_default (params ≫= cp_first_message)
                                "Hello, this is an automated call from an AI assistant.")))
                    (S (suspended st)) (listening st) (world st), [])).
  { simpl. unfold twilio_on_message. simpl. unfold start_begin. simpl.
    rewrite Hsid, Hcall. reflexivity. }
  rewrite H1. cbn [fst snd]. rewrite typed_run_cons.
  cbn [step]. unfold start_resume. cbn [suspended vars world twilioWs listening].
  unfold createSignedUrl. rewrite Hk, Hg. reflexivity.
Qed.

(** X21. The TypeScript handler keeps no audio. After a well-formed
    [start], with both environment variables set, the media frames that
    arrive before the agent socket has opened are dropped, with no
    warning; when the socket opens it gets the configuration with the
    session's two texts, and from then on every non-empty payload, in
    arrival order. Nothing else is sent, closed or logged as an error in
    the run. *)
Theorem typed_audio_needs_open_socket st sid callSid params pre post :
  nonempty sid = true →
  nonempty callSid = true →
  truthy_str apiKey = true →
  truthy_str agentId = true →
  let a := nextId (world st) in
  let r := run apiKey agentId
             (started sid callSid params ++ media pre ++ [AgentOpen a] ++ media post) st in
  snd r
  = Send a (LegacyConfig
              (or_default (params ≫= cp_first_message)
                 "Hello, this is an automated call from an AI assistant.")
              (or_default (params ≫= cp_prompt)
                 "You are a friendly AI assistant making a phone call."))
    :: map (fun p => Send a (LegacyAudio p)) (List.filter nonempty post)
  ∧ live (fst r) sid a
  ∧ activeConnections (world (fst r)) !! sid = Some (mkLink (twilioWs st) a).
Proof.
  intros Hsid Hcall Hk Hg a r. subst r.
  rewrite typed_run_app, (typed_started st sid callSid params Hsid Hcall Hk Hg).
  cbn [fst snd]. fold a.
  set (st1 := mkStream _ _ _ _ _).
  rewrite typed_run_app.
  assert (Hpre : run apiKey agentId (media pre) st1 = (st1, [])).
  { apply typed_media_dropped. intros b Hb. simpl in Hb. injection Hb as <-.
    simpl. rewrite lookup_insert_eq. reflexivity. }
  rewrite Hpre. cbn [fst snd]. rewrite typed_run_app.
  assert (Hopen : run apiKey agentId [AgentOpen a] st1
                  = (with_world (set_readyState (<[a := OPEN]>) (world st1)) st1,
                     [Send a (LegacyConfig
                                (or_default (params ≫= cp_first_message)
                                   "Hello, this is an automated call from an AI assistant.")
                                (or_default (params ≫= cp_prompt)
                                   "You are a friendly AI assistant making a phone call."))])).
  { simpl. unfold listens. simpl. rewrite Nat.eqb_refl, lookup_insert_eq. reflexivity. }
  rewrite Hopen. cbn [fst snd].
  set (st2 := with_world _ st1).
  assert (Hpost : run apiKey agentId (media post) st2
                  = (st2, map (fun p => Send a (LegacyAudio p)) (List.filter nonempty post))).
  { apply (typed_media_sent st2 sid a); [reflexivity | reflexivity | exact Hsid |].
    simpl. apply lookup_insert_eq. }
  rewrite Hpost. cbn [fst snd]. split; [reflexivity|]. split.
  - split; try reflexivity.
    + exact Hsid.
    + unfold listens. simpl. rewrite Nat.eqb_refl. reflexivity.
    + simpl. apply lookup_insert_eq.
    + simpl. rewrite lookup_insert_eq. reflexivity.
  - simpl. apply lookup_insert_eq.
Qed.

Lemma typed_hangup_absent st sid :
  v_streamSid (vars st) = Some sid →
  activeConnections (world st) !! sid = None →
  hangup st = (st, []).
Proof.
  intros Hsid Hno. unfold hangup. rewrite Hsid. simpl.
  destruct (nonempty sid); [|reflexivity].
  rewrite Hno. unfold with_world, set_activeConnections.
  rewrite delete_id by exact Hno.
  destruct st as [s v n l w]. destruct w. reflexivity.
Qed.

(** X22. When the agent socket of a live call closes, the handler
    removes the call from the registry, sends nothing to the telephony
    side and closes nothing. The call goes on in silence: media frames
    are dropped with no warning, and neither the [stop] frame nor the
    closing of the telephony socket finds anything left to do. *)
Theorem typed_agent_close_forgets_call st sid a ps :
  live st sid a →
  let r := step apiKey agentId (AgentClose a) st in
  snd r = []
  ∧ activeConnections (world (fst r)) !! sid = None
  ∧ (∀ sid', sid' ≠ sid →
       activeConnections (world (fst r)) !! sid' = activeConnections (world st) !! sid')
  ∧ readyState (world (fst r)) !! a = Some CLOSED
  ∧ run apiKey agentId (media ps ++ [stop; TwilioClose]) (fst r) = (fst r, []).
Proof.
  intros [Ha Hsid Hne Hl Hopen Hentry] r.
  assert (Hr : r = (with_world (set_activeConnections (delete sid)
                                  (set_readyState (<[a := CLOSED]>) (world st))) st, [])).
  { subst r. simpl. rewrite Hl, Hopen. simpl. unfold agent_on_close. simpl.
    rewrite Hsid. simpl. rewrite Hne. reflexivity. }
  rewrite Hr. cbn [fst snd].
  set (st1 := with_world _ st).
  assert (Hgone : activeConnections (world st1) !! sid = None)
    by (simpl; apply lookup_delete_eq).
  split; [reflexivity|]. split; [exact Hgone|]. split.
  { intros sid' Hd. simpl. apply lookup_delete_ne. congruence. }
  split; [simpl; apply lookup_insert_eq|].
  rewrite typed_run_app.
  assert (Hm : run apiKey agentId (media ps) st1 = (st1, [])).
  { apply typed_media_dropped. intros b Hb. simpl in Hb. rewrite Ha in Hb.
    injection Hb as <-. simpl. rewrite lookup_insert_eq. reflexivity. }
  rewrite Hm. cbn [fst snd].
  assert (Hh : hangup st1 = (st1, [])) by (apply (typed_hangup_absent st1 sid); assumption).
  assert (Hstop : step apiKey agentId stop st1 = (st1, [])).
  { unfold stop. simpl. unfold twilio_on_message. simpl. exact Hh. }
  rewrite typed_run_cons, Hstop. cbn [fst snd].
  rewrite typed_run_cons. cbn [step]. rewrite Hh. reflexivity.
Qed.

(** X23. Without the API key or the agent id a call never gets an agent.
    The [start] frame costs one [console.error] line when its [await]
    comes back; no socket is made and nothing is registered; the media
    frames that follow are dropped with no warning. *)
Theorem typed_start_without_credentials st sid callSid params ps :
  truthy_str apiKey && truthy_str agentId = false →
  nonempty sid = true →
  nonempty callSid = true →
  v_elevenLabsWs (vars st) = None →
  let r := run apiKey agentId (started sid callSid params ++ media ps) st in
  snd r = [ConsoleError "Error connecting to ElevenLabs:"]
  ∧ world (fst r) = world st
  ∧ v_elevenLabsWs (vars (fst r)) = None
  ∧ listening (fst r) = listening st
  ∧ v_streamSid (vars (fst r)) = Some sid.
Proof.
  intros Henv Hsid Hcall Hnone r. subst r.
  rewrite typed_run_app.
  assert (Hs : run apiKey agentId (started sid callSid params) st
               = (mkStream (twilioWs st)
                    (mkVars None (Some sid)
                       (Some (or_default (params ≫= cp_prompt)
                                "You are a friendly AI assistant making a phone call."))
                       (Some (or_default (params ≫= cp_first_message)
                                "Hello, this is an automated call from an AI assistant.")))
                    (suspended st) (listening st) (world st),
                  [ConsoleError "Error connecting to ElevenLabs:"])).
  { unfold started. rewrite typed_run_cons.
    assert (H1 : step apiKey agentId
                   (TwilioFrame (Js (mkTwilioMessage (Some "start")
                                       (Some (mkStartInfo (Some sid) (Some callSid) params))
                                       None))) st
                 = (mkStream (twilioWs st)
                      (mkVars None (Some sid)
                         (Some (or_default (params ≫= cp_prompt)
                                  "You are a friendly AI assistant making a phone call."))
                         (Some (or_default (params ≫= cp_first_message)
                                  "Hello, this is an automated call from an AI assistant.")))
                      (S (suspended st)) (listening st) (world st), [])).
    { simpl. unfold twilio_on_message. simpl. unfold start_begin. simpl.
      rewrite Hsid, Hcall, Hnone. reflexivity. }
    rewrite H1. cbn [fst snd]. rewrite typed_run_cons.
    cbn [step]. unfold start_resume. cbn [suspended vars world twilioWs listening].
    unfold createSignedUrl.
    assert (He : negb (truthy_str apiKey) || negb (truthy_str agentId) = true).
    { destruct (truthy_str apiKey), (truthy_str agentId); simpl in *; congruence. }
    rewrite He. reflexivity. }
  rewrite Hs. cbn [fst snd].
  set (st1 := mkStream _ _ _ _ _).
  assert (Hm : run apiKey agentId (media ps) st1 = (st1, [])).
  { apply typed_media_dropped. intros b Hb. discriminate Hb. }
  rewrite Hm. cbn [fst snd]. repeat split; reflexivity.
Qed.

(** X24. A second [start] frame on the same connection makes a second
    agent socket and forgets the first: the handler's variable and, if
    the stream id is the same, the registry entry now name the second
    socket.  When the call ends only the second socket is closed; the
    first is never closed by the handler, and under a different stream
    id its entry stays in the registry after the connection is gone. *)
Theorem typed_second_start_leaks_socket st sid callSid params sid2 callSid2 params2 :
  nonempty sid = true →
  nonempty callSid = true →
  nonempty sid2 = true →
  nonempty callSid2 = true →
  truthy_str apiKey = true →
  truthy_str agentId = true →
  let a1 := nextId (world st) in
  let a2 := S a1 in
  let r := run apiKey agentId
             (started sid callSid params ++ started sid2 callSid2 params2
              ++ [stop; TwilioClose]) st in
  snd r = [Close a2]
  ∧ readyState (world (fst r)) !! a1 = Some CONNECTING
  ∧ readyState (world (fst r)) !! a2 = Some CLOSING
  ∧ activeConnections (world (fst r)) !! sid2 = None
  ∧ (sid2 ≠ sid →
     activeConnections (world (fst r)) !! sid = Some (mkLink (twilioWs st) a1)).
Proof.
  intros Hsid Hcall Hsid2 Hcall2 Hk Hg a1 a2 r. subst r.
  rewrite typed_run_app, (typed_started st sid callSid params Hsid Hcall Hk Hg).
  cbn [fst snd]. fold a1.
  set (st1 := mkStream _ _ _ _ _).
  rewrite typed_run_app, (typed_started st1 sid2 callSid2 params2 Hsid2 Hcall2 Hk Hg).
  cbn [fst snd].
  change (nextId (world st1)) with a2. change (twilioWs st1) with (twilioWs st).
  set (st2 := mkStream _ _ _ _ _).
  assert (Hne : a1 ≠ a2) by (unfold a2; lia).
  assert (Hh : hangup st2
               = (with_world (set_activeConnections (delete sid2)
                                (set_readyState (<[a2 := CLOSING]>) (world st2))) st2,
                  [Close a2])).
  { unfold hangup. cbn [vars v_streamSid st2 truthy_str default]. rewrite Hsid2.
    cbn [world st2 activeConnections set_activeConnections]. rewrite lookup_insert_eq.
    cbn [link_elevenLabsWs]. unfold closing.
    cbn [readyState set_activeConnections set_readyState].
    rewrite lookup_insert_eq. reflexivity. }
  assert (Hstop : step apiKey agentId stop st2 = hangup st2).
  { unfold stop. simpl. unfold twilio_on_message. reflexivity. }
  rewrite typed_run_cons, Hstop, Hh. cbn [fst snd].
  set (st3 := with_world _ st2).
  assert (Hh3 : hangup st3 = (st3, [])).
  { apply (typed_hangup_absent st3 sid2); [reflexivity|]. simpl. apply lookup_delete_eq. }
  rewrite typed_run_cons. cbn [step]. rewrite Hh3. cbn [fst snd run].
  split; [reflexivity|]. split.
  { simpl. rewrite lookup_insert_ne by (intros E; apply Hne; symmetry; exact E).
    rewrite lookup_insert_ne by (intros E; apply Hne; symmetry; exact E).
    apply lookup_insert_eq. }
  split; [simpl; apply lookup_insert_eq|].
  split; [simpl; apply lookup_delete_eq|].
  intros Hd. simpl. rewrite lookup_delete_ne by exact Hd.
  rewrite lookup_insert_ne by exact Hd. apply lookup_insert_eq.
Qed.

(** X25. A frame that is not JSON costs the TypeScript handler two
    [console.error] lines, one from [safeJsonParse] and one from the
    listener; a frame that is the JSON [null] costs the second line
    only. Nothing else happens, and the frames that follow are handled
    as if it had not come. On an agent socket this holds once a stream
    id is set; before that every agent frame, well-formed or not, is
    dropped and no error is logged. *)
Theorem typed_malformed_frame_logged st evs :
  run apiKey agentId (TwilioFrame SyntaxError :: evs) st
  = (fst (run apiKey agentId evs st),
     ConsoleError "Error parsing JSON:" :: ConsoleError "Invalid JSON message from Twilio"
       :: snd (run apiKey agentId evs st))
  ∧ run apiKey agentId (TwilioFrame JsNull :: evs) st
    = (fst (run apiKey agentId evs st),
       ConsoleError "Invalid JSON message from Twilio" :: snd (run apiKey agentId evs st))
  ∧ (∀ a, listens a st = true →
          readyState (world st) !! a = Some OPEN →
          run apiKey agentId (AgentFrame a SyntaxError :: evs) st
          = (fst (run apiKey agentId evs st),
             (if truthy_str (v_streamSid (vars st))
              then [ConsoleError "Error parsing JSON:";
                    ConsoleError "Invalid JSON message from ElevenLabs"]
              else [])
             ++ snd (run apiKey agentId evs st)))
  ∧ (∀ a p, truthy_str (v_streamSid (vars st)) = false →
            step apiKey agentId (AgentFrame a p) st = (st, [])).
Proof.
  split; [reflexivity|]. split; [reflexivity|]. split.
  - intros a Hl Hopen. rewrite typed_run_cons.
    assert (Hstep : step apiKey agentId (AgentFrame a SyntaxError) st
                    = (st, if truthy_str (v_streamSid (vars st))
                           then [ConsoleError "Error parsing JSON:";
                                 ConsoleError "Invalid JSON message from ElevenLabs"]
                           else [])).
    { simpl. rewrite Hl, Hopen. unfold agent_on_message.
      destruct (truthy_str (v_streamSid (vars st))); reflexivity. }
    rewrite Hstep. reflexivity.
  - intros a p Hno. simpl. unfold agent_on_message. rewrite Hno.
    destruct (listens a st); [|reflexivity].
    destruct (readyState (world st) !! a) as [[]|]; reflexivity.
Qed.

Lemma typed_agent_step st sid a r :
  live st sid a →
  step apiKey agentId (match r with
                       | Whole p => AgentFrame a p
                       | Falsy => AgentFalsy a
                       end) st
  = (st, match r with
         | Whole (Js m) =>
             match received_audio r with
             | Some p => [Send (twilioWs st) (Media sid p)]
             | None => []
             end
         | Whole SyntaxError =>
             [ConsoleError "Error parsing JSON:";
              ConsoleError "Invalid JSON message from ElevenLabs"]
         | _ => [ConsoleError "Invalid JSON message from ElevenLabs"]
         end).
Proof.
  intros [Ha Hsid Hne Hl Hopen Hentry].
  destruct r as [[| |m]|]; simpl; rewrite Hl, Hopen; unfold agent_on_message;
    rewrite Hsid; simpl; rewrite Hne; simpl; try reflexivity.
  destruct (Service.msg_audio m) as [x|]; simpl; [|reflexivity].
  destruct (nonempty x); reflexivity.
Qed.

(** X26. On a live call the TypeScript handler passes agent audio on
    in arrival order, whatever else arrives in between: each agent
    frame that is an object with a truthy [audio] gives one media frame
    with the call's stream id to the telephony socket, no other frame
    gives one, and the call's state stays as it is.  A run of object
    frames has no other effect than these media frames; a frame whose
    JSON is [null], [0], [false] or the empty string costs one
    [console.error] line. *)
Theorem typed_agent_audio_in_order st sid a rs ms :
  live st sid a →
  fst (run apiKey agentId (agent_received a rs) st) = st
  ∧ sent_on (twilioWs st) (snd (run apiKey agentId (agent_received a rs) st))
    = map (Media sid) (omap received_audio rs)
  ∧ run apiKey agentId (agent_frames a ms) st
    = (st, map (fun p => Send (twilioWs st) (Media sid p)) (omap service_audio ms))
  ∧ run apiKey agentId [AgentFalsy a] st
    = (st, [ConsoleError "Invalid JSON message from ElevenLabs"])
  ∧ run apiKey agentId [AgentFrame a JsNull] st
    = (st, [ConsoleError "Invalid JSON message from ElevenLabs"]).
Proof.
  intros Hlive.
  assert (Hrun : ∀ rs', fst (run apiKey agentId (agent_received a rs') st) = st
                        ∧ sent_on (twilioWs st)
                            (snd (run apiKey agentId (agent_received a rs') st))
                          = map (Media sid) (omap received_audio rs')).
  { induction rs' as [|r rs' [IH1 IH2]]; [split; reflexivity|].
    unfold agent_received. simpl map. rewrite typed_run_cons.
    fold (agent_received a rs'). rewrite (typed_agent_step st sid a r Hlive).
    cbn [fst snd]. split; [exact IH1|].
    rewrite sent_on_app, IH2.
    destruct r as [[| |m]|]; try reflexivity.
    simpl omap. destruct (received_audio (Whole (Js m))) as [x|]; simpl;
      rewrite ?Nat.eqb_refl; reflexivity. }
  split; [apply Hrun|]. split; [apply Hrun|]. split.
  - induction ms as [|m ms IH]; [reflexivity|].
    unfold agent_frames. simpl map. rewrite typed_run_cons. fold (agent_frames a ms).
    rewrite (typed_agent_step st sid a (Whole (Js m)) Hlive). cbn [fst snd].
    rewrite IH. simpl. unfold service_audio.
    destruct (truthy_str (Service.msg_audio m)); [|reflexivity].
    destruct (Service.msg_audio m); reflexivity.
  - split.
    + rewrite typed_run_cons, (typed_agent_step st sid a Falsy Hlive). reflexivity.
    + rewrite typed_run_cons, (typed_agent_step st sid a (Whole JsNull) Hlive).
      reflexivity.
Qed.
End TypedHandler.

Section TypedInstances.
Import Typed.

Lemma typed_audio_needs_open_socket_witness :
  let st := handleMediaStream 0 (mkWorld ∅ ∅ (<[0 := OPEN]> ∅) ∅ ∅ 1 false) in
  let r := run (Some "key") (Some "agent")
             (started "S1" "C1" None ++ media ["a"; "b"] ++ [AgentOpen 1]
              ++ media ["c"; EmptyString; "d"]) st in
  snd r
  = [Send 1 (LegacyConfig "Hello, this is an automated call from an AI assistant."
               "You are a friendly AI assistant making a phone call.");
     Send 1 (LegacyAudio "c"); Send 1 (LegacyAudio "d")]
  ∧ live (fst r) "S1" 1
  ∧ activeConnections (world (fst r)) !! "S1" = Some (mkLink 0 1).
Proof.
  intros st.
  exact (typed_audio_needs_open_socket (Some "key") (Some "agent") st "S1" "C1" None ["a"; "b"] ["c"; EmptyString; "d"]
           eq_refl eq_refl eq_refl eq_refl).
Defined.

Lemma typed_agent_close_forgets_call_witness :
  let st := fst (run (Some "key") (Some "agent") (started "S1" "C1" None ++ [AgentOpen 1])
                   (handleMediaStream 0 (mkWorld ∅ ∅ (<[0 := OPEN]> ∅) ∅ ∅ 1 false))) in
  let r := step (Some "key") (Some "agent") (AgentClose 1) st in
  live st "S1" 1
  ∧ snd r = []
  ∧ activeConnections (world (fst r)) !! "S1" = None
  ∧ (∀ sid', sid' ≠ "S1" →
       activeConnections (world (fst r)) !! sid' = activeConnections (world st) !! sid')
  ∧ readyState (world (fst r)) !! 1 = Some CLOSED
  ∧ run (Some "key") (Some "agent") (media ["a"; "b"] ++ [stop; TwilioClose]) (fst r)
    = (fst r, []).
Proof.
  intros st.
  assert (H1 : live st "S1" 1) by (split; vm_compute; reflexivity).
  split; [exact H1|].
  exact (typed_agent_close_forgets_call (Some "key") (Some "agent") st "S1" 1 ["a"; "b"] H1).
Defined.

Lemma typed_start_without_credentials_witness :
  let st := handleMediaStream 0 (mkWorld ∅ ∅ (<[0 := OPEN]> ∅) ∅ ∅ 1 false) in
  let r := run (Some "key") None (started "S1" "C1" None ++ media ["a"; "b"]) st in
  snd r = [ConsoleError "Error connecting to ElevenLabs:"]
  ∧ world (fst r) = world st
  ∧ v_elevenLabsWs (vars (fst r)) = None
  ∧ listening (fst r) = listening st
  ∧ v_streamSid (vars (fst r)) = Some "S1".
Proof.
  intros st.
  exact (typed_start_without_credentials (Some "key") None st "S1" "C1" None ["a"; "b"]
           eq_refl eq_refl eq_refl eq_refl).
Defined.

Lemma typed_second_start_leaks_socket_witness :
  let st := handleMediaStream 0 (mkWorld ∅ ∅ (<[0 := OPEN]> ∅) ∅ ∅ 1 false) in
  let r := run (Some "key") (Some "agent")
             (started "S1" "C1" None ++ started "S2" "C1" None ++ [stop; TwilioClose]) st in
  snd r = [Close 2]
  ∧ readyState (world (fst r)) !! 1 = Some CONNECTING
  ∧ readyState (world (fst r)) !! 2 = Some CLOSING
  ∧ activeConnections (world (fst r)) !! "S2" = None
  ∧ activeConnections (world (fst r)) !! "S1" = Some (mkLink 0 1).
Proof.
  intros st.
  destruct (typed_second_start_leaks_socket (Some "key") (Some "agent") st "S1" "C1" None "S2" "C1" None
              eq_refl eq_refl eq_refl eq_refl eq_refl eq_refl) as (H1 & H2 & H3 & H4 & H5).
  split; [exact H1|]. split; [exact H2|]. split; [exact H3|]. split; [exact H4|].
  apply H5. discriminate.
Defined.

Lemma typed_malformed_frame_logged_witness :
  let st := fst (run (Some "key") (Some "agent") (started "S1" "C1" None ++ [AgentOpen 1])
                   (handleMediaStream 0 (mkWorld ∅ ∅ (<[0 := OPEN]> ∅) ∅ ∅ 1 false))) in
  (listens 1 st = true ∧ readyState (world st) !! 1 = Some OPEN)
  ∧ run (Some "key") (Some "agent") [AgentFrame 1 SyntaxError] st
    = (st, [ConsoleError "Error parsing JSON:";
            ConsoleError "Invalid JSON message from ElevenLabs"]).
Proof.
  intros st.
  assert (H1 : listens 1 st = true) by reflexivity.
  assert (H2 : readyState (world st) !! 1 = Some OPEN) by (vm_compute; reflexivity).
  split; [split; assumption|].
  exact (proj1 (proj2 (proj2 (typed_malformed_frame_logged (Some "key") (Some "agent") st []))) 1 H1 H2).
Defined.

Lemma typed_agent_audio_in_order_witness :
  let st := fst (run (Some "key") (Some "agent") (started "S1" "C1" None ++ [AgentOpen 1])
                   (handleMediaStream 0 (mkWorld ∅ ∅ (<[0 := OPEN]> ∅) ∅ ∅ 1 false))) in
  let ms := [Service.mkMessage None None (Some "QUJD");
             Service.mkMessage (Some "agent_response") (Some "Hi") None;
             Service.mkMessage (Some "audio") None (Some "REVG")] in
  let rs := [Whole (Js (Service.mkMessage None None (Some "QUJD"))); Falsy;
             Whole SyntaxError; Whole (Js (Service.mkMessage None None (Some "REVG")))] in
  live st "S1" 1
  ∧ fst (run (Some "key") (Some "agent") (agent_received 1 rs) st) = st
  ∧ sent_on 0 (snd (run (Some "key") (Some "agent") (agent_received 1 rs) st))
    = [Media "S1" "QUJD"; Media "S1" "REVG"]
  ∧ run (Some "key") (Some "agent") (agent_frames 1 ms) st
    = (st, [Send 0 (Media "S1" "QUJD"); Send 0 (Media "S1" "REVG")])
  ∧ run (Some "key") (Some "agent") [AgentFalsy 1] st
    = (st, [ConsoleError "Invalid JSON message from ElevenLabs"])
  ∧ run (Some "key") (Some "agent") [AgentFrame 1 JsNull] st
    = (st, [ConsoleError "Invalid JSON message from ElevenLabs"]).
Proof.
  intros st ms rs.
  assert (H1 : live st "S1" 1) by (split; vm_compute; reflexivity).
  split; [exact H1|].
  exact (typed_agent_audio_in_order (Some "key") (Some "agent") st "S1" 1 rs ms H1).
Defined.
End TypedInstances.

(** * The JavaScript server *)

Section PlainServer.
Implicit Types (w : World Compiled.Link) (s a : SockId) (c : ClientId).

Lemma plain_endConversation_eq w c cl a :
  clients w !! c = Some cl →
  ws cl = Some a →
  Plain.endConversation c w
  = (set_clients (<[c := client_with_isConnected false (client_with_ws None cl)]>)
       (set_clients (<[c := client_with_ws None cl]>)
          (if is_closed (readyState w !! a) then w
           else set_readyState (<[a := CLOSING]>) w)),
     [Close a]).
Proof.
  intros Hc Ha. unfold Plain.endConversation. rewrite Hc, Ha.
  destruct (is_closed (readyState w !! a)); reflexivity.
Qed.

Lemma plain_frames_after_teardown apiKey agentId w s k sid ps :
  closures w !! s = Some k →
  cl_streamSid k = Some sid →
  nonempty sid = true →
  activeConnections w !! sid = None →
  (plain_media apiKey agentId s ps
   >> Plain.twilio_on_message apiKey agentId s stopFrame
   >> Plain.twilio_on_close s) w = (w, []).
Proof.
  intros Hk Hsid Hne Hno.
  assert (Hm : plain_media apiKey agentId s ps w = (w, [])).
  { unfold plain_media. rewrite forEach_silent.
    - f_equal. induction ps as [|p ps IH]; [reflexivity|].
      simpl. rewrite IH, app_nil_r.
      unfold Plain.twilio_on_message. rewrite Hk. unfold mediaFrame. simpl.
      rewrite Hsid. simpl. rewrite Hne. unfold Compiled.handle_media. simpl.
      destruct (nonempty p); [rewrite Hno|]; reflexivity.
    - intros p v. unfold Plain.twilio_on_message.
      destruct (closures v !! s) as [k'|]; [|reflexivity].
      unfold mediaFrame. simpl.
      destruct (truthy_str (cl_streamSid k')); [|reflexivity].
      unfold Compiled.handle_media. simpl.
      destruct (nonempty p); [|reflexivity].
      destruct (activeConnections v !! _) as [l|]; [|reflexivity].
      unfold Service.sendAudio. destruct (clients v !! _) as [x|]; [|reflexivity].
      destruct (isConnected x); [destruct (ws x)|]; reflexivity. }
  assert (Hs : Plain.twilio_on_message apiKey agentId s stopFrame w = (w, [])).
  { unfold Plain.twilio_on_message. rewrite Hk. unfold stopFrame. simpl.
    rewrite Hsid. simpl. rewrite Hne. unfold Plain.teardown. rewrite Hno. reflexivity. }
  assert (Hc : Plain.twilio_on_close s w = (w, [])).
  { unfold Plain.twilio_on_close. rewrite Hk, Hsid. simpl. rewrite Hne.
    unfold Plain.teardown. rewrite Hno. reflexivity. }
  rewrite andThen_eq, andThen_eq, Hm. cbn [fst snd]. rewrite Hs. cbn [fst snd].
  rewrite Hc. reflexivity.
Qed.

(** X27. The JavaScript server ends a call without a word to the
    telephony side. The [stop] frame of a registered call calls
    [close()] on the agent socket, in whatever state that socket is; it
    sends nothing, and no completion mark in particular. The entry is
    removed and the client has forgotten its socket, so the media
    frames, the second [stop] and the closing of the connection that
    follow do nothing. *)
Theorem plain_stop_closes_without_mark apiKey agentId w s k sid link cl a ps :
  closures w !! s = Some k →
  cl_streamSid k = Some sid →
  nonempty sid = true →
  activeConnections w !! sid = Some link →
  clients w !! Compiled.link_elevenLabsClient link = Some cl →
  ws cl = Some a →
  let c := Compiled.link_elevenLabsClient link in
  let r := Plain.twilio_on_message apiKey agentId s stopFrame w in
  snd r = [Close a]
  ∧ activeConnections (fst r) !! sid = None
  ∧ (∀ sid', sid' ≠ sid → activeConnections (fst r) !! sid' = activeConnections w !! sid')
  ∧ clients (fst r) !! c = Some (client_with_isConnected false (client_with_ws None cl))
  ∧ (plain_media apiKey agentId s ps
     >> Plain.twilio_on_message apiKey agentId s stopFrame
     >> Plain.twilio_on_close s) (fst r) = (fst r, []).
Proof.
  intros Hk Hsid Hne Hl Hc Ha c r.
  assert (Hr : r = (set_activeConnections (delete sid) (fst (Plain.endConversation c w)),
                    [Close a])).
  { subst r. unfold Plain.twilio_on_message. rewrite Hk. unfold stopFrame. simpl.
    rewrite Hsid. simpl. rewrite Hne. unfold Plain.teardown. rewrite Hl.
    fold c. rewrite andThen_eq, (plain_endConversation_eq w c cl a Hc Ha). reflexivity. }
  rewrite Hr, (plain_endConversation_eq w c cl a Hc Ha). cbn [fst snd].
  set (w1 := set_activeConnections _ _).
  assert (Hreg : activeConnections w1 = delete sid (activeConnections w)).
  { unfold w1. destruct (is_closed (readyState w !! a)); reflexivity. }
  assert (Hclo : closures w1 = closures w).
  { unfold w1. destruct (is_closed (readyState w !! a)); reflexivity. }
  assert (Hgone : activeConnections w1 !! sid = None)
    by (rewrite Hreg; apply lookup_delete_eq).
  split; [reflexivity|]. split; [exact Hgone|]. split.
  { intros sid' Hd. rewrite Hreg. apply lookup_delete_ne. congruence. }
  split.
  { unfold w1. destruct (is_closed (readyState w !! a)); simpl; apply lookup_insert_eq. }
  apply (plain_frames_after_teardown apiKey agentId w1 s k sid ps);
    [rewrite Hclo; exact Hk | exact Hsid | exact Hne | exact Hgone].
Qed.
End PlainServer.

Section PlainInstances.

Lemma plain_stop_closes_without_mark_witness :
  let cl := mkClient "S1" 0 "prompt" "hello" (Some 2) true in
  let k := mkClosure (Some "S1") (Some "C1") in
  let link := Compiled.mkLink 0 1 in
  let w : World Compiled.Link :=
    mkWorld (<["S1" := link]> ∅) (<[1 := cl]> ∅)
            (<[0 := OPEN]> (<[2 := OPEN]> ∅)) (<[0 := k]> ∅) ∅ 3 false in
  let r := Plain.twilio_on_message (Some "key") (Some "agent") 0 stopFrame w in
  (closures w !! 0 = Some k ∧ activeConnections w !! "S1" = Some link
   ∧ clients w !! 1 = Some cl)
  ∧ snd r = [Close 2]
  ∧ activeConnections (fst r) !! "S1" = None
  ∧ (∀ sid', sid' ≠ "S1" → activeConnections (fst r) !! sid' = activeConnections w !! sid')
  ∧ clients (fst r) !! 1 = Some (client_with_isConnected false (client_with_ws None cl))
  ∧ (plain_media (Some "key") (Some "agent") 0 ["a"; "b"]
     >> Plain.twilio_on_message (Some "key") (Some "agent") 0 stopFrame
     >> Plain.twilio_on_close 0) (fst r) = (fst r, []).
Proof.
  intros cl k link w r.
  assert (H1 : closures w !! 0 = Some k) by (vm_compute; reflexivity).
  assert (H2 : activeConnections w !! "S1" = Some link) by (vm_compute; reflexivity).
  assert (H3 : clients w !! 1 = Some cl) by (vm_compute; reflexivity).
  split; [repeat split; assumption|].
  exact (plain_stop_closes_without_mark (Some "key") (Some "agent") w 0 k "S1" link cl 2
           ["a"; "b"] H1 eq_refl eq_refl H2 H3 eq_refl).
Defined.
End PlainInstances.
